(** * Member List Mover: a shallow embedding of [MemberListMover.plugin.js]

    The plugin is one JavaScript class, [MoveMembersWrap].  Its instance
    fields, the part of the document it touches, and the browser services
    it calls (timers, animation frames, listeners, the BdApi store and
    [console.error]) are gathered in one [State] record, and every method
    becomes a function on that record.

    Conventions of the embedding:
    - JavaScript numbers are IEEE 754 doubles, carried as the rationals
      they are ([Q]).  The drag controller and [toFixed] round to the
      nearest double after every operation ([double]); the products and
      differences of the layout pass, which the plugin writes out and
      compares to within 0.1px, are kept exact.
    - An inline style is a finite map from CSS property names to values;
      [el.style.p = v] is an insertion and [removeProperty] a deletion.
    - [null] is [None]; timer and frame identifiers are tokens drawn from
      one counter.
    - Log calls on the [console.log] and [console.warn] channels are
      elided; the [console.error] channel is modelled in full. *)

From Stdlib Require Import QArith Qround Qabs Qminmax Qpower ZArith Lia Lqa.
From Stdlib Require Import Floats.
From stdpp Require Import gmap strings list fin_maps.

Local Open Scope Q_scope.

(** ** Record update *)

Class Setter {R T : Type} (proj : R -> T) := upd : (T -> T) -> R -> R.
Arguments upd {R T} proj {_} _ _ /.

Ltac build_setter eta proj :=
  let body := eval cbv beta delta [eta] in eta in
  lazymatch eval pattern proj in body with
  | ?g _ => exact (fun f => g (fun r => f (proj r)))
  end.

Notation "r <| p := v |>" := (upd p (fun _ => v) r)
  (at level 1, left associativity, format "r  <| p  :=  v |>").
Notation "r <| p ::= f |>" := (upd p f r)
  (at level 1, left associativity, format "r  <| p  ::=  f |>").

(** ** Numbers *)

Definition Math_max (a b : Q) : Q := Qmax a b.
Definition Math_min (a b : Q) : Q := Qmin a b.
Definition Math_abs (a : Q) : Q := Qabs a.

(** *** Rounding to binary64 *)

Definition pow2 (e : Z) : Q := Qpower 2 e.

(** [floor (log2 q)], for [q > 0]. *)
Definition ilog2 (q : Q) : Z :=
  let e0 := (Z.log2 (Qnum q) - Z.log2 (Zpos (Qden q)))%Z in
  if Qle_bool (pow2 e0) q then e0 else (e0 - 1)%Z.

(** The nearest integer, the even one on a tie. *)
Definition roundEven (r : Q) : Z :=
  let f := Qfloor r in
  match Qcompare (r - inject_Z f) (1 # 2) with
  | Lt => f
  | Gt => (f + 1)%Z
  | Eq => if Z.even f then f else (f + 1)%Z
  end.

(** A positive rational rounded to 53 significant bits, or to a multiple
    of 2^-1074 where that is coarser (the subnormal range).  From 2^1024
    on the result is [Infinity], for which [pow2 1024] stands: the drag
    controller divides such a value by a finite height, subtracts it
    from 1 and clamps it, and on these the stand-in gives what
    [Infinity] gives.  [NaN] has no rational; in the plugin's arithmetic
    it takes the quotient of two infinities to produce one. *)
Definition roundPos (a : Q) : Q :=
  let p := Z.max (ilog2 a - 52) (-1074) in
  let r := inject_Z (roundEven (a / pow2 p)) * pow2 p in
  if Qle_bool (pow2 1024) r then pow2 1024 else r.

(** The double nearest to [q], in lowest terms. *)
Definition double (q : Q) : Q :=
  Qred (match Qcompare q 0 with
        | Eq => 0
        | Gt => roundPos q
        | Lt => - roundPos (- q)
        end).

(** [a + b], [a - b] and [a / b] on doubles. *)
Definition fadd (a b : Q) : Q := double (a + b).
Definition fsub (a b : Q) : Q := double (a - b).
Definition fdiv (a b : Q) : Q := double (a / b).

(** Half a unit in the last place of a double in [1, 2), and of a
    subnormal one. *)
Definition u53 : Q := pow2 (-53).
Definition eta : Q := pow2 (-1075).

(** *** The doubles of the machine, to compare with

    The rational a finite primitive float is, and the float an integer
    below 2^53 is. *)
Definition floatValue (f : float) : option Q :=
  match Prim2SF f with
  | S754_zero _ => Some 0
  | S754_finite s m e =>
      Some (Qred ((if s then - inject_Z (Zpos m) else inject_Z (Zpos m)) * pow2 e))
  | _ => None
  end.

Definition floatOfZ (n : Z) : float := PrimFloat.of_uint63 (Uint63.of_Z n).

(** On the quotient [n / d], its difference from one and its sum with
    one twentieth, [double] gives what the machine gives. *)
Definition agreesAt (n d : Z) : bool :=
  let x := PrimFloat.div (floatOfZ n) (floatOfZ d) in
  let q := fdiv (inject_Z n) (inject_Z d) in
  match floatValue x, floatValue (PrimFloat.sub (floatOfZ 1) x),
        floatValue (PrimFloat.add x (PrimFloat.div (floatOfZ 1) (floatOfZ 20))) with
  | Some a, Some b, Some c =>
      Qeq_bool a q && Qeq_bool b (fsub 1 q) && Qeq_bool c (fadd q (double (5 # 100)))
  | _, _, _ => false
  end.

(** ... on [k] quotients of pseudo-random 53-bit integers. *)
Fixpoint agreesOn (k : nat) (n d : Z) : bool :=
  match k with
  | O => true
  | S k' =>
      agreesAt n d
      && agreesOn k' ((n * 7 + 13) mod 9007199254740881)%Z
                     ((d * 11 + 29) mod 9007199254740847 + 1)%Z
  end.

(** [parseFloat(x.toFixed(3))].  [toFixed] picks the integer [n] with
    [n / 1000] closest to [|x|], the larger one on a tie, restores the
    sign, and falls back to [String(x)] from 1e21 on; [parseFloat] reads
    the decimal back as the nearest double. *)
Definition toFixed3 (x : Q) : Q :=
  if Qle_bool (1000000000000000000000 # 1) (Qabs x) then x
  else if Qle_bool 0 x then double (Qfloor (x * 1000 + (1 # 2)) # 1000)
  else - double (Qfloor ((- x) * 1000 + (1 # 2)) # 1000).

(** ** Values held by the persistence service and by [isMoved]

    What [BdApi.loadData] hands back was parsed from JSON. *)

#[warnings="-register-all"]
Inductive JsVal :=
| JUndefined
| JNull
| JBool (b : bool)
| JNum (q : Q)
| JStr (s : string)
| JObj (fields : list (string * JsVal))
| JArr (elems : list JsVal).

(** ToBoolean *)
Definition truthy (v : JsVal) : bool :=
  match v with
  | JUndefined | JNull => false
  | JBool b => b
  | JNum q => negb (Qeq_bool q 0)
  | JStr s => negb (String.eqb s "")
  | JObj _ | JArr _ => true
  end.

Fixpoint assoc (k : string) (l : list (string * JsVal)) : option JsVal :=
  match l with
  | [] => None
  | (k', v) :: l' => if String.eqb k k' then Some v else assoc k l'
  end.

(** [v.k] for a key no prototype defines (the plugin asks for [sidebar]
    and [members]): the own property of an object, [undefined] on
    anything else. *)
Definition getProp (v : JsVal) (k : string) : JsVal :=
  match v with
  | JObj fields => default JUndefined (assoc k fields)
  | _ => JUndefined
  end.

(** [String(v)], as a template literal applies it, raises a TypeError.
    What the store hands back was parsed from JSON, so none of its
    properties is callable.  An object with an own [toString] key hides
    [Object.prototype.toString]; the conversion finds nothing callable
    under that key, gets the object itself from [valueOf], and raises.
    An array is joined, and raises when one of its elements does. *)
Fixpoint toStringRaises (v : JsVal) : bool :=
  match v with
  | JObj fields => bool_decide (is_Some (assoc "toString" fields))
  | JArr elems => existsb toStringRaises elems
  | _ => false
  end.

Definition isUndefined (v : JsVal) : bool :=
  match v with JUndefined => true | _ => false end.

Definition isNull (v : JsVal) : bool :=
  match v with JNull => true | _ => false end.

(** Error objects, as the runtime and the DOM raise them. *)
Record Error := mkError { message : string; stack : string }.

(** ** Constants set once by the constructor *)

Definition pluginId : string := "MemberListMover".
Definition dataKey : string := "isMovedState".
Definition heightsDataKey : string := "listHeights".
Definition FAILSALE_INTERVAL_MS : nat := 2000.
Definition RESIZE_HANDLE_HEIGHT : Q := 16.
Definition BUTTON_WRAPPER_HEIGHT : Q := 8.
Definition OUR_UI_HEIGHT_PX : Q := RESIZE_HANDLE_HEIGHT + BUTTON_WRAPPER_HEIGHT.
Definition MIN_HEIGHT_PERCENTAGE : Q := double (5 # 100).

(** [Math.max(MIN_HEIGHT_PERCENTAGE, Math.min(1 - MIN_HEIGHT_PERCENTAGE, x))],
    as [onMouseMove] applies it to both fractions. *)
Definition clampFraction (x : Q) : Q :=
  Math_max MIN_HEIGHT_PERCENTAGE (Math_min (fsub 1 MIN_HEIGHT_PERCENTAGE) x).
Definition reapplyThrottleDelay : nat := 100.
Definition ABSENCE_CHECK_DELAY_MS : nat := 150.

(** ** The document *)

Inductive CssVal :=
| Px (q : Q)          (* the string `${q}px` *)
| Kw (s : string).    (* any other literal *)

Abbreviation Style := (gmap string CssVal).

Definition setProperty (k : string) (v : CssVal) (s : Style) : Style := <[k := v]> s.
Definition removeProperty (k : string) (s : Style) : Style := delete k s.

Record Rect := mkRect {
  r_top : Q; r_left : Q; r_width : Q; r_height : Q; r_bottom : Q }.

(** The scrollable content node, first [[class*="members"]] inside the
    container. *)
Record Content := mkContent {
  mlc_node : nat;        (* node identity *)
  mlc_id : string;       (* its [id] attribute *)
  mlc_style : Style }.

(** The container, first [[class*="membersWrap"]] of the document. *)
Record Container := mkContainer {
  mw_node : nat;
  mw_style : Style;
  mw_content : option Content }.

(** The upper region, first [[class*="sidebarList"]], with its [nav]. *)
Record SidebarList := mkSidebarList {
  sl_style : Style;
  sl_nav : option Style }.

Record Dom := mkDom {
  membersWrap : option Container;
  sidebarList : option SidebarList;
  userIDSection : bool }.    (* a [section] follows the upper region *)

Definition etaContent (r : Content) := mkContent (mlc_node r) (mlc_id r) (mlc_style r).
Definition etaContainer (r : Container) := mkContainer (mw_node r) (mw_style r) (mw_content r).
Definition etaSidebarList (r : SidebarList) := mkSidebarList (sl_style r) (sl_nav r).
Definition etaDom (r : Dom) := mkDom (membersWrap r) (sidebarList r) (userIDSection r).

#[global] Instance set_mlc_id : Setter mlc_id := ltac:(build_setter etaContent mlc_id).
#[global] Instance set_mlc_style : Setter mlc_style := ltac:(build_setter etaContent mlc_style).
#[global] Instance set_mw_style : Setter mw_style := ltac:(build_setter etaContainer mw_style).
#[global] Instance set_mw_content : Setter mw_content := ltac:(build_setter etaContainer mw_content).
#[global] Instance set_sl_style : Setter sl_style := ltac:(build_setter etaSidebarList sl_style).
#[global] Instance set_sl_nav : Setter sl_nav := ltac:(build_setter etaSidebarList sl_nav).
#[global] Instance set_membersWrap : Setter membersWrap := ltac:(build_setter etaDom membersWrap).
#[global] Instance set_sidebarList : Setter sidebarList := ltac:(build_setter etaDom sidebarList).
Arguments set_mlc_id _ !_ /.
Arguments set_mlc_style _ !_ /.
Arguments set_mw_style _ !_ /.
Arguments set_mw_content _ !_ /.
Arguments set_sl_style _ !_ /.
Arguments set_sl_nav _ !_ /.
Arguments set_membersWrap _ !_ /.
Arguments set_sidebarList _ !_ /.

(** Where one of the plugin's own elements hangs. *)
Inductive Parent :=
| Detached
| InWrap (node : nat)       (* child of the container with this identity *)
| InContent (node : nat).   (* child of the content node with this identity *)

(** [#bd-resize-handle] with its indicator child. *)
Record Handle := mkHandle {
  rh_style : Style;
  rh_parent : Parent;
  rh_indicator : Style }.

(** [#bd-move-button-wrapper] with its sub-wrapper and button. *)
Record Wrapper := mkWrapper {
  wr_style : Style;
  wr_parent : Parent;
  wr_sub : Style;
  wr_buttonText : string;
  wr_buttonStyle : Style }.

Definition etaHandle (r : Handle) := mkHandle (rh_style r) (rh_parent r) (rh_indicator r).
Definition etaWrapper (r : Wrapper) :=
  mkWrapper (wr_style r) (wr_parent r) (wr_sub r) (wr_buttonText r) (wr_buttonStyle r).

#[global] Instance set_rh_style : Setter rh_style := ltac:(build_setter etaHandle rh_style).
#[global] Instance set_rh_parent : Setter rh_parent := ltac:(build_setter etaHandle rh_parent).
#[global] Instance set_wr_style : Setter wr_style := ltac:(build_setter etaWrapper wr_style).
#[global] Instance set_wr_parent : Setter wr_parent := ltac:(build_setter etaWrapper wr_parent).
#[global] Instance set_wr_buttonText : Setter wr_buttonText := ltac:(build_setter etaWrapper wr_buttonText).
#[global] Instance set_wr_buttonStyle : Setter wr_buttonStyle := ltac:(build_setter etaWrapper wr_buttonStyle).
Arguments set_rh_style _ !_ /.
Arguments set_rh_parent _ !_ /.
Arguments set_wr_style _ !_ /.
Arguments set_wr_parent _ !_ /.
Arguments set_wr_buttonText _ !_ /.
Arguments set_wr_buttonStyle _ !_ /.

(** ** Plugin instance and browser services *)

Inductive TimerCb :=
| CooldownEnd      (* the closure passed to [setTimeout] by [queueLayoutReapply] *)
| AbsenceCheck.    (* the closure passed by [handleMemberListAbsence] *)

Record Timer := mkTimer { t_id : nat; t_due : nat; t_cb : TimerCb }.

Record State := mkState {
  (* fields of [this] *)
  observer : option nat;
  button : bool;                       (* [this.button] is set *)
  wrapperDiv : option Wrapper;
  subContainerDiv : bool;              (* [this.subContainerDiv] is set *)
  resizeHandle : option Handle;
  handleIndicator : bool;              (* [this.handleIndicator] is set *)
  isMoved : JsVal;
  animationFrameId : option nat;
  failsafeIntervalId : option nat;
  sidebarHeightPercentage : Q;
  membersHeightPercentage : Q;
  isDragging : bool;
  initialMouseY : Q;
  initialSidebarHeightPercentage : Q;
  initialMembersHeightPercentage : Q;
  lastLayoutApplyTimestamp : nat;
  reapplyTimeout : option nat;
  isThrottling : bool;
  pendingThrottleCall : bool;
  memberListAbsenceTimer : option nat;
  masterLogs : bool;
  consoleErrors : bool;
  (* the page *)
  document : Dom;
  (* [window] and the event loop *)
  clock : nat;                         (* milliseconds *)
  nextId : nat;
  timers : list Timer;                 (* pending [setTimeout] calls *)
  frames : list nat;                   (* pending [requestAnimationFrame] calls *)
  intervals : list nat;                (* running [setInterval] calls *)
  observers : list nat;                (* connected mutation observers *)
  resizeListener : bool;               (* [onResizeHandler] registered for "resize" *)
  mousemoveListener : bool;
  mouseupListener : bool;
  bdResizeListenerAdded : bool;        (* [window.bdResizeListenerAdded] *)
  (* BdApi data and the error console *)
  storage : gmap (string * string) JsVal;
  consoleError : list (string * string * string) }.

Definition etaState (r : State) :=
  mkState (observer r) (button r) (wrapperDiv r) (subContainerDiv r) (resizeHandle r)
    (handleIndicator r) (isMoved r) (animationFrameId r) (failsafeIntervalId r)
    (sidebarHeightPercentage r) (membersHeightPercentage r) (isDragging r) (initialMouseY r)
    (initialSidebarHeightPercentage r) (initialMembersHeightPercentage r)
    (lastLayoutApplyTimestamp r) (reapplyTimeout r) (isThrottling r) (pendingThrottleCall r)
    (memberListAbsenceTimer r) (masterLogs r) (consoleErrors r) (document r) (clock r)
    (nextId r) (timers r) (frames r) (intervals r) (observers r) (resizeListener r)
    (mousemoveListener r) (mouseupListener r) (bdResizeListenerAdded r) (storage r)
    (consoleError r).

#[global] Instance set_observer : Setter observer := ltac:(build_setter etaState observer).
#[global] Instance set_button : Setter button := ltac:(build_setter etaState button).
#[global] Instance set_wrapperDiv : Setter wrapperDiv := ltac:(build_setter etaState wrapperDiv).
#[global] Instance set_subContainerDiv : Setter subContainerDiv := ltac:(build_setter etaState subContainerDiv).
#[global] Instance set_resizeHandle : Setter resizeHandle := ltac:(build_setter etaState resizeHandle).
#[global] Instance set_handleIndicator : Setter handleIndicator := ltac:(build_setter etaState handleIndicator).
#[global] Instance set_isMoved : Setter isMoved := ltac:(build_setter etaState isMoved).
#[global] Instance set_animationFrameId : Setter animationFrameId := ltac:(build_setter etaState animationFrameId).
#[global] Instance set_failsafeIntervalId : Setter failsafeIntervalId := ltac:(build_setter etaState failsafeIntervalId).
#[global] Instance set_sidebarHeightPercentage : Setter sidebarHeightPercentage := ltac:(build_setter etaState sidebarHeightPercentage).
#[global] Instance set_membersHeightPercentage : Setter membersHeightPercentage := ltac:(build_setter etaState membersHeightPercentage).
#[global] Instance set_isDragging : Setter isDragging := ltac:(build_setter etaState isDragging).
#[global] Instance set_initialMouseY : Setter initialMouseY := ltac:(build_setter etaState initialMouseY).
#[global] Instance set_initialSidebarHeightPercentage : Setter initialSidebarHeightPercentage := ltac:(build_setter etaState initialSidebarHeightPercentage).
#[global] Instance set_initialMembersHeightPercentage : Setter initialMembersHeightPercentage := ltac:(build_setter etaState initialMembersHeightPercentage).
#[global] Instance set_lastLayoutApplyTimestamp : Setter lastLayoutApplyTimestamp := ltac:(build_setter etaState lastLayoutApplyTimestamp).
#[global] Instance set_reapplyTimeout : Setter reapplyTimeout := ltac:(build_setter etaState reapplyTimeout).
#[global] Instance set_isThrottling : Setter isThrottling := ltac:(build_setter etaState isThrottling).
#[global] Instance set_pendingThrottleCall : Setter pendingThrottleCall := ltac:(build_setter etaState pendingThrottleCall).
#[global] Instance set_memberListAbsenceTimer : Setter memberListAbsenceTimer := ltac:(build_setter etaState memberListAbsenceTimer).
#[global] Instance set_masterLogs : Setter masterLogs := ltac:(build_setter etaState masterLogs).
#[global] Instance set_consoleErrors : Setter consoleErrors := ltac:(build_setter etaState consoleErrors).
#[global] Instance set_document : Setter document := ltac:(build_setter etaState document).
#[global] Instance set_clock : Setter clock := ltac:(build_setter etaState clock).
#[global] Instance set_nextId : Setter nextId := ltac:(build_setter etaState nextId).
#[global] Instance set_timers : Setter timers := ltac:(build_setter etaState timers).
#[global] Instance set_frames : Setter frames := ltac:(build_setter etaState frames).
#[global] Instance set_intervals : Setter intervals := ltac:(build_setter etaState intervals).
#[global] Instance set_observers : Setter observers := ltac:(build_setter etaState observers).
#[global] Instance set_resizeListener : Setter resizeListener := ltac:(build_setter etaState resizeListener).
#[global] Instance set_mousemoveListener : Setter mousemoveListener := ltac:(build_setter etaState mousemoveListener).
#[global] Instance set_mouseupListener : Setter mouseupListener := ltac:(build_setter etaState mouseupListener).
#[global] Instance set_bdResizeListenerAdded : Setter bdResizeListenerAdded := ltac:(build_setter etaState bdResizeListenerAdded).
#[global] Instance set_storage : Setter storage := ltac:(build_setter etaState storage).
#[global] Instance set_consoleError : Setter consoleError := ltac:(build_setter etaState consoleError).
Arguments set_observer _ !_ /.
Arguments set_button _ !_ /.
Arguments set_wrapperDiv _ !_ /.
Arguments set_subContainerDiv _ !_ /.
Arguments set_resizeHandle _ !_ /.
Arguments set_handleIndicator _ !_ /.
Arguments set_isMoved _ !_ /.
Arguments set_animationFrameId _ !_ /.
Arguments set_failsafeIntervalId _ !_ /.
Arguments set_sidebarHeightPercentage _ !_ /.
Arguments set_membersHeightPercentage _ !_ /.
Arguments set_isDragging _ !_ /.
Arguments set_initialMouseY _ !_ /.
Arguments set_initialSidebarHeightPercentage _ !_ /.
Arguments set_initialMembersHeightPercentage _ !_ /.
Arguments set_lastLayoutApplyTimestamp _ !_ /.
Arguments set_reapplyTimeout _ !_ /.
Arguments set_isThrottling _ !_ /.
Arguments set_pendingThrottleCall _ !_ /.
Arguments set_memberListAbsenceTimer _ !_ /.
Arguments set_masterLogs _ !_ /.
Arguments set_consoleErrors _ !_ /.
Arguments set_document _ !_ /.
Arguments set_clock _ !_ /.
Arguments set_nextId _ !_ /.
Arguments set_timers _ !_ /.
Arguments set_frames _ !_ /.
Arguments set_intervals _ !_ /.
Arguments set_observers _ !_ /.
Arguments set_resizeListener _ !_ /.
Arguments set_mousemoveListener _ !_ /.
Arguments set_mouseupListener _ !_ /.
Arguments set_bdResizeListenerAdded _ !_ /.
Arguments set_storage _ !_ /.
Arguments set_consoleError _ !_ /.

(** *** Timers, frames, intervals, observers *)

Definition fresh (st : State) : nat * State := (nextId st, st <| nextId := S (nextId st) |>).

Definition setTimeout (cb : TimerCb) (delay : nat) (st : State) : nat * State :=
  let '(id, st) := fresh st in
  (id, st <| timers ::= fun l => l ++ [mkTimer id (clock st + delay) cb] |>).

Definition dropId (id : nat) (l : list nat) : list nat :=
  filter (fun i => i ≠ id) l.

Definition dropTimer (id : nat) (l : list Timer) : list Timer :=
  filter (fun t => t_id t ≠ id) l.

(** [clearTimeout] and [clearInterval] share one identifier pool. *)
Definition clearTimeout (id : nat) (st : State) : State :=
  st <| timers ::= dropTimer id |> <| intervals ::= dropId id |>.

Definition clearInterval (id : nat) (st : State) : State := clearTimeout id st.

Definition setInterval (st : State) : nat * State :=
  let '(id, st) := fresh st in
  (id, st <| intervals ::= fun l => l ++ [id] |>).

Definition requestAnimationFrame (st : State) : nat * State :=
  let '(id, st) := fresh st in
  (id, st <| frames ::= fun l => l ++ [id] |>).

Definition cancelAnimationFrame (id : nat) (st : State) : State :=
  st <| frames ::= dropId id |>.

(** [new MutationObserver(cb)] followed by [observe(document.body, ...)]. *)
Definition observe (st : State) : nat * State :=
  let '(id, st) := fresh st in
  (id, st <| observers ::= fun l => l ++ [id] |>).

Definition disconnect (id : nat) (st : State) : State :=
  st <| observers ::= dropId id |>.

(** *** Persistence *)

(** Modelled from the spec: the BdApi persistence service is not part of
    the source; its interface is [load(pluginId, key) -> value | null]
    and [save(pluginId, key, value)]. *)
Definition BdApi_loadData (pid key : string) (st : State) : JsVal :=
  default JNull (storage st !! (pid, key)).

Definition BdApi_saveData (pid key : string) (v : JsVal) (st : State) : State :=
  st <| storage ::= insert (pid, key) v |>.

(** *** The error channel *)

(** [_error(label, e.message, e.stack)]: printed when either switch is on. *)
Definition _error (label : string) (e : Error) (st : State) : State :=
  if negb (consoleErrors st) && negb (masterLogs st) then st
  else st <| consoleError ::= fun l => l ++ [(label, message e, stack e)] |>.

(** ** Computations that may raise *)

Inductive Outcome (A : Type) :=
| Ret (a : A) (s : State)
| Throw (e : Error) (s : State).
Arguments Ret {A} a s.
Arguments Throw {A} e s.

Definition M (A : Type) : Type := State -> Outcome A.

Definition ret {A} (a : A) : M A := fun s => Ret a s.
Definition bind {A B} (c : M A) (k : A -> M B) : M B :=
  fun s => match c s with
           | Ret a s' => k a s'
           | Throw e s' => Throw e s'
           end.
Definition get : M State := fun s => Ret s s.
Definition modify (f : State -> State) : M unit := fun s => Ret tt (f s).
Definition throw {A} (e : Error) : M A := fun s => Throw e s.
Definition try_catch {A} (c : M A) (h : Error -> M A) : M A :=
  fun s => match c s with
           | Ret a s' => Ret a s'
           | Throw e s' => h e s'
           end.

Definition finalState {A} (o : Outcome A) : State :=
  match o with Ret _ s => s | Throw _ s => s end.

Declare Scope js_scope.
Delimit Scope js_scope with js.
Notation "x <- c ;;; k" := (bind c (fun x => k))
  (at level 20, c at level 99, k at level 200, only parsing) : js_scope.
Notation "c ;;; k" := (bind c (fun _ => k))
  (at level 100, k at level 200, right associativity, only parsing) : js_scope.

Local Open Scope js_scope.

(** ** Writing to the tree

    Element references held in local variables of the source are paths
    into [document]; a write through a reference to a node that is not
    there changes nothing. *)

Definition onWrapStyle (f : Style -> Style) (st : State) : State :=
  st <| document ::= upd membersWrap (fmap (upd mw_style f)) |>.

Definition onSidebarStyle (f : Style -> Style) (st : State) : State :=
  st <| document ::= upd sidebarList (fmap (upd sl_style f)) |>.

Definition onNavStyle (f : Style -> Style) (st : State) : State :=
  st <| document ::= upd sidebarList (fmap (upd sl_nav (fmap f))) |>.

Definition onContent (f : Content -> Content) (st : State) : State :=
  st <| document ::= upd membersWrap (fmap (upd mw_content (fmap f))) |>.

Definition onContentStyle (f : Style -> Style) (st : State) : State :=
  onContent (upd mlc_style f) st.

(** [document.querySelector('[class*="sidebarList"] ~ section')] *)
Definition query_userIDSection (d : Dom) : bool :=
  match sidebarList d with
  | Some _ => userIDSection d
  | None => false
  end.

(** [membersWrap.querySelector('[class*="members"]')] *)
Definition query_membersListContainer (d : Dom) : option Content :=
  mw ← membersWrap d; mw_content mw.

(** [document.querySelector("#bd-members-list-container")] *)
Definition query_byId_membersListContainer (d : Dom) : option Content :=
  c ← query_membersListContainer d;
  if String.eqb (mlc_id c) "bd-members-list-container" then Some c else None.

(** [membersListContainer.id = "bd-members-list-container"] *)
Definition tagContent (st : State) : State :=
  onContent (fun c => c <| mlc_id := "bd-members-list-container" |>) st.

(** [membersWrap.contains(el)] for an element hanging at [p]. *)
Definition wrapContains (mw : Container) (p : Parent) : bool :=
  match p with
  | Detached => false
  | InWrap n => Nat.eqb n (mw_node mw)
  | InContent n =>
      match mw_content mw with
      | Some c => Nat.eqb n (mlc_node c)
      | None => false
      end
  end.

(** [membersListContainer.contains(el)] *)
Definition contentContains (c : Content) (p : Parent) : bool :=
  match p with
  | InContent n => Nat.eqb n (mlc_node c)
  | _ => false
  end.

Definition hasParent (p : Parent) : bool :=
  match p with Detached => false | _ => true end.

(** ** Methods that do not raise *)

Definition _resetSidebarListStyles (st : State) : State :=
  match sidebarList (document st) with
  | Some _ =>
      let st := onSidebarStyle (removeProperty "height") st in
      let st := onSidebarStyle (removeProperty "padding-bottom") st in
      onNavStyle (removeProperty "padding-bottom") st
  | None => st
  end.

Definition updateButtonVisualState (isMovedState : bool) (st : State) : State :=
  if negb (button st) || negb (bool_decide (is_Some (wrapperDiv st)))
     || negb (subContainerDiv st) || negb (bool_decide (is_Some (resizeHandle st)))
     || negb (handleIndicator st)
  then st
  else
    let colour := if isMovedState then Kw "#ED4245" else Kw "#5865F2" in
    let text := if isMovedState then "Reset Layout"%string else "Move"%string in
    st <| wrapperDiv ::= fmap (fun w =>
            let w := w <| wr_buttonText := text |> in
            let w := w <| wr_buttonStyle ::= setProperty "background-color" colour |> in
            w <| wr_style ::= setProperty "background-color" colour |>) |>.

Definition applyOriginalLayoutStyles (st : State) : State :=
  let membersListContainer := query_byId_membersListContainer (document st) in
  let st := onWrapStyle (removeProperty "position") st in
  let st := onWrapStyle (removeProperty "width") st in
  let st := onWrapStyle (removeProperty "height") st in
  let st := onWrapStyle (removeProperty "left") st in
  let st := onWrapStyle (removeProperty "top") st in
  let st := onWrapStyle (removeProperty "transform") st in
  let st := onWrapStyle (removeProperty "min-width") st in
  let st := onWrapStyle (removeProperty "flex-direction") st in
  let st := onWrapStyle (removeProperty "display") st in
  let st := onWrapStyle (removeProperty "z-index") st in
  let st := match sidebarList (document st) with
            | Some _ => _resetSidebarListStyles st
            | None => st
            end in
  let st := match membersListContainer with
            | Some _ =>
                let st := onContentStyle (removeProperty "height") st in
                let st := onContentStyle (removeProperty "width") st in
                onContentStyle (removeProperty "overflow-y") st
            | None => st
            end in
  if bool_decide (is_Some (wrapperDiv st)) && subContainerDiv st && button st
  then updateButtonVisualState false (st <| isMoved := JBool false |>)
  else st.

(** The element arguments of the source are the container, the upper
    region and the content node of the container, as at its call site. *)
Definition applyMovedLayoutStyles
    (calculatedSidebarHeight calculatedMembersTotalHeight : Q)
    (sidebarListRect : Rect) (st : State) : State :=
  let remainingHeightForDiscordContent := calculatedMembersTotalHeight - OUR_UI_HEIGHT_PX in
  let st := onWrapStyle (setProperty "position" (Kw "fixed")) st in
  let st := onWrapStyle (setProperty "width" (Px (r_width sidebarListRect))) st in
  let st := onWrapStyle (setProperty "height" (Px calculatedMembersTotalHeight)) st in
  let st := onWrapStyle (setProperty "left" (Px (r_left sidebarListRect))) st in
  let st := onWrapStyle (setProperty "top" (Px (r_bottom sidebarListRect))) st in
  let st := onWrapStyle (setProperty "transform" (Kw "translateX(0%)")) st in
  let st := onWrapStyle (removeProperty "z-index") st in
  let st := onWrapStyle (setProperty "min-width" (Kw "unset")) st in
  let st := onWrapStyle (setProperty "display" (Kw "flex")) st in
  let st := onWrapStyle (setProperty "flex-direction" (Kw "column")) st in
  let st := onSidebarStyle (setProperty "height" (Px calculatedSidebarHeight)) st in
  let st := onSidebarStyle (setProperty "padding-bottom" (Px 0)) st in
  let st := onNavStyle (setProperty "padding-bottom" (Px 0)) st in
  match query_membersListContainer (document st) with
  | Some _ =>
      let st := onContentStyle
                  (setProperty "height" (Px (Math_max 0 remainingHeightForDiscordContent))) st in
      let st := onContentStyle (setProperty "width" (Kw "100%")) st in
      onContentStyle (setProperty "overflow-y" (Kw "auto")) st
  | None => st
  end.

Definition newHandle : Handle :=
  mkHandle
    (list_to_map [("width", Kw "100%"); ("height", Px 8); ("margin", Kw "2px 0px 6px");
                  ("cursor", Kw "ns-resize"); ("align-items", Kw "center");
                  ("justify-content", Kw "center"); ("border-radius", Px 5)])
    Detached
    (list_to_map [("width", Kw "100%"); ("height", Px 4); ("margin", Kw "0 5px");
                  ("background-color", Kw "var(--bg-brand)"); ("border-radius", Px 2);
                  ("opacity", Kw "0.25"); ("transition", Kw "opacity 0.2s ease")]).

Definition newWrapper : Wrapper :=
  mkWrapper
    (list_to_map [("position", Kw "relative"); ("height", Px 6); ("margin", Kw "2px 10px");
                  ("background-color", Kw "#5865F2"); ("border-radius", Px 3);
                  ("transition", Kw "background-color 0.2s ease"); ("overflow", Kw "visible");
                  ("display", Kw "flex"); ("align-items", Kw "center");
                  ("justify-content", Kw "center"); ("z-index", Kw "1");
                  ("cursor", Kw "pointer"); ("min-width", Px 10)])
    Detached
    (list_to_map [("position", Kw "absolute"); ("top", Kw "0"); ("left", Kw "0");
                  ("width", Kw "100%"); ("max-height", Kw "0"); ("overflow", Kw "hidden");
                  ("transition", Kw "max-height 0.25s ease")])
    "Move"
    (list_to_map [("position", Kw "relative"); ("top", Px 0); ("width", Kw "100%");
                  ("background-color", Kw "#5865F2"); ("color", Kw "white");
                  ("border", Kw "none"); ("padding", Kw "8px 12px"); ("border-radius", Px 5);
                  ("cursor", Kw "pointer"); ("font-size", Px 14); ("text-align", Kw "center");
                  ("box-shadow", Kw "0 2px 4px rgba(0,0,0,0.2)")]).

(** Creates the control surface in memory, or re-derives the child
    references from what is already there.  The handlers it attaches are
    the events [onmousedown] and [onclick] below. *)
Definition addMoveButton (st : State) : State :=
  match membersWrap (document st) with
  | None => st
  | Some _ =>
      let st := tagContent st in
      let st := match resizeHandle st with
                | None => st <| resizeHandle := Some newHandle |> <| handleIndicator := true |>
                | Some _ => st <| handleIndicator := true |>
                end in
      match wrapperDiv st with
      | None => st <| wrapperDiv := Some newWrapper |> <| subContainerDiv := true |>
                   <| button := true |>
      | Some _ => st <| subContainerDiv := true |> <| button := true |>
      end
  end.

(** ** The browser as the plugin sees it *)

(** Points of the reconciliation pass at which it talks to the tree. *)
Inductive Site := AtQuery | AtMeasure | AtStyle | AtPlacement | AtVisual.

(** Layout is the host's business: the rectangles are whatever its layout
    engine yields for the current tree, and any interaction with the tree
    may raise. *)
Record Browser := mkBrowser {
  measureSidebarList : Dom -> Rect;       (* [sidebarList.getBoundingClientRect()] *)
  measureUserIDSection : Dom -> Rect;     (* [userIDSection.getBoundingClientRect()] *)
  raises : Site -> Dom -> option Error }.

Section Engine.

Context (B : Browser).

Definition touch (site : Site) : M unit :=
  fun st => match raises B site (document st) with
            | Some e => Throw e st
            | None => Ret tt st
            end.

(** *** Control surface placement *)

Definition placeMoved (st : State) : State :=
  match membersWrap (document st) with
  | None => st
  | Some mw =>
      let st := st <| resizeHandle ::= fmap (fun h =>
                  let h := if wrapContains mw (rh_parent h) then h
                           else h <| rh_parent := InWrap (mw_node mw) |> in
                  h <| rh_style ::= setProperty "display" (Kw "flex") |>) |> in
      st <| wrapperDiv ::= fmap (fun w =>
              let w := if wrapContains mw (wr_parent w) then w
                       else w <| wr_parent := InWrap (mw_node mw) |> in
              w <| wr_style ::= setProperty "display" (Kw "flex") |>) |>
  end.

Definition placeOriginal (st : State) : State :=
  let st := st <| resizeHandle ::= fmap (fun h =>
              let h := if hasParent (rh_parent h) then h <| rh_parent := Detached |> else h in
              h <| rh_style ::= setProperty "display" (Kw "none") |>) |> in
  match wrapperDiv st, query_membersListContainer (document st) with
  | Some w, Some c =>
      let w := if contentContains c (wr_parent w) then w
               else w <| wr_parent := InContent (mlc_node c) |> in
      st <| wrapperDiv := Some (w <| wr_style ::= setProperty "display" (Kw "flex") |>) |>
  | Some w, None =>
      if hasParent (wr_parent w)
      then st <| wrapperDiv := Some (w <| wr_parent := Detached |>
                                       <| wr_style ::= setProperty "display" (Kw "none") |>) |>
      else st
  | None, _ => st
  end.

Definition addResizeListener (st : State) : State :=
  if bdResizeListenerAdded st then st
  else st <| resizeListener := true |> <| bdResizeListenerAdded := true |>.

Definition removeResizeListener (st : State) : State :=
  if bdResizeListenerAdded st
  then st <| resizeListener := false |> <| bdResizeListenerAdded := false |>
  else st.

(** *** The reconciliation pass *)

Definition updateVisuals : M unit :=
  touch AtVisual ;;;
  modify (fun st => updateButtonVisualState (truthy (isMoved st)) st).

(** The MOVED branch; [false] is the early [return] on a non-positive
    available height. *)
Definition movedBranch : M bool :=
  touch AtMeasure ;;;
  st <- get ;;;
  let sidebarListRect := measureSidebarList B (document st) in
  let userIDSectionRect := measureUserIDSection B (document st) in
  let availableHeightForPanels := r_top userIDSectionRect - r_top sidebarListRect in
  if Qle_bool availableHeightForPanels 0 then ret false
  else
    let calculatedSidebarHeight := availableHeightForPanels * sidebarHeightPercentage st in
    let calculatedMembersTotalHeight := availableHeightForPanels * membersHeightPercentage st in
    touch AtStyle ;;;
    modify (onSidebarStyle (setProperty "height" (Px calculatedSidebarHeight))) ;;;
    touch AtMeasure ;;;
    st <- get ;;;
    let sidebarListRect := measureSidebarList B (document st) in
    modify (applyMovedLayoutStyles calculatedSidebarHeight calculatedMembersTotalHeight
              sidebarListRect) ;;;
    touch AtPlacement ;;;
    modify placeMoved ;;;
    modify addResizeListener ;;;
    ret true.

Definition originalBranch : M unit :=
  touch AtStyle ;;;
  modify applyOriginalLayoutStyles ;;;
  touch AtPlacement ;;;
  modify placeOriginal ;;;
  modify removeResizeListener.

Definition needsUi (st : State) : bool :=
  negb (button st) || negb (bool_decide (is_Some (wrapperDiv st)))
  || negb (bool_decide (is_Some (resizeHandle st))).

(** The body of the [try] block of [applyCurrentLayoutState]. *)
Definition applyCurrentLayoutState_body : M unit :=
  touch AtQuery ;;;
  st <- get ;;;
  match membersWrap (document st) with
  | None => ret tt
  | Some _ =>
      match sidebarList (document st) with
      | None => ret tt
      | Some _ =>
          if negb (query_userIDSection (document st)) then ret tt
          else
            modify tagContent ;;;
            modify (fun st => if needsUi st then addMoveButton st else st) ;;;
            st <- get ;;;
            if truthy (isMoved st)
            then (completed <- movedBranch ;;;
                  if completed : bool then updateVisuals else ret tt)
            else (originalBranch ;;; updateVisuals)
      end
  end.

Definition applyCurrentLayoutState : M unit :=
  try_catch applyCurrentLayoutState_body
    (fun e => modify (_error "CRITICAL ERROR in applyCurrentLayoutState:" e) ;;; throw e).

(** *** The reapply scheduler *)

Definition queueLayoutReapply (st : State) : State :=
  let st := match animationFrameId st with
            | Some id => (cancelAnimationFrame id st) <| animationFrameId := None |>
            | None => st
            end in
  if isThrottling st then st <| pendingThrottleCall := true |>
  else
    let st := st <| isThrottling := true |> in
    let st := st <| pendingThrottleCall := false |> in
    let '(id, st) := requestAnimationFrame st in
    let st := st <| animationFrameId := Some id |> in
    let '(tid, st) := setTimeout CooldownEnd reapplyThrottleDelay st in
    st <| reapplyTimeout := Some tid |>.

(** The closure handed to [requestAnimationFrame]. *)
Definition reapplyFrame : M unit :=
  modify (fun st => st <| lastLayoutApplyTimestamp := clock st |>) ;;;
  applyCurrentLayoutState ;;;
  modify (fun st => st <| animationFrameId := None |>).

(** The closure handed to [setTimeout] by [queueLayoutReapply]. *)
Definition cooldownEnd (st : State) : State :=
  let st := st <| isThrottling := false |> in
  let st := st <| reapplyTimeout := None |> in
  if pendingThrottleCall st
  then queueLayoutReapply (st <| pendingThrottleCall := false |>)
  else st.

Definition handleWindowResize (st : State) : State :=
  match membersWrap (document st), sidebarList (document st) with
  | Some _, Some _ =>
      if negb (query_userIDSection (document st)) then st
      else
        let sidebarListRect := measureSidebarList B (document st) in
        let userIDSectionRect := measureUserIDSection B (document st) in
        let availableHeightForPanels := r_top userIDSectionRect - r_top sidebarListRect in
        if Qle_bool availableHeightForPanels 0 then st
        else
          let calculatedSidebarHeight := availableHeightForPanels * sidebarHeightPercentage st in
          let st := onSidebarStyle (setProperty "height" (Px calculatedSidebarHeight)) st in
          let st := onSidebarStyle (setProperty "padding-bottom" (Px 0)) st in
          let st := onNavStyle (setProperty "padding-bottom" (Px 0)) st in
          queueLayoutReapply st
  | _, _ => st
  end.

(** *** The absence handler *)

Definition clearAbsenceTimer (st : State) : State :=
  match memberListAbsenceTimer st with
  | Some id => (clearTimeout id st) <| memberListAbsenceTimer := None |>
  | None => st
  end.

Definition handleMemberListAbsence (st : State) : State :=
  let st := clearAbsenceTimer st in
  let '(id, st) := setTimeout AbsenceCheck ABSENCE_CHECK_DELAY_MS st in
  st <| memberListAbsenceTimer := Some id |>.

(** The closure handed to [setTimeout] by [handleMemberListAbsence]. *)
Definition absenceCheck (st : State) : State :=
  let st := match membersWrap (document st) with
            | None => _resetSidebarListStyles st
            | Some _ => queueLayoutReapply st
            end in
  st <| memberListAbsenceTimer := None |>.

(** *** The change detector *)

Record Target := mkTarget {
  tg_membersWrap : bool;      (* [matches('[class*="membersWrap"]')] *)
  tg_sidebarList : bool;      (* [matches('[class*="sidebarList"]')] *)
  tg_id : string }.

Record Node := mkNode {
  nodeType : nat;
  nd_membersWrap : bool }.    (* [matches('[class*="membersWrap"]')] *)

Inductive Mutation :=
| Attributes (attributeName : string) (target : Target)
| ChildList (removedNodes addedNodes : list Node).

Definition styleChangeRelevant (t : Target) : bool :=
  if tg_membersWrap t then true
  else if tg_sidebarList t then true
  else String.eqb (tg_id t) "bd-members-list-container"
       || String.eqb (tg_id t) "bd-move-button-wrapper"
       || String.eqb (tg_id t) "bd-resize-handle".

Definition scanAdded (st : State) (n : Node) : State :=
  if Nat.eqb (nodeType n) 1 && nd_membersWrap n then clearAbsenceTimer st else st.

Definition scanMutation (acc : bool * State) (m : Mutation) : bool * State :=
  let '(layoutReapplyNeeded, st) := acc in
  match m with
  | Attributes attributeName target =>
      if String.eqb attributeName "style"
      then (layoutReapplyNeeded || styleChangeRelevant target, st)
      else (layoutReapplyNeeded, st)
  | ChildList _ addedNodes => (true, fold_left scanAdded addedNodes st)
  end.

(** The callback given to [new MutationObserver]. *)
Definition observerCallback (mutationsList : list Mutation) (st : State) : State :=
  let '(layoutReapplyNeeded, st) := fold_left scanMutation mutationsList (false, st) in
  let st := if layoutReapplyNeeded then queueLayoutReapply st else st in
  match membersWrap (document st) with
  | None => handleMemberListAbsence st
  | Some _ => clearAbsenceTimer st
  end.

Definition setupObserver (st : State) : State :=
  let st := match observer st with
            | Some id => disconnect id st
            | None => st
            end in
  let '(id, st) := observe st in
  st <| observer := Some id |>.

(** *** Lifecycle *)

Definition notANumber : Error :=
  mkError "toFixed is not a function" "start".

Definition notPrimitive : Error :=
  mkError "Cannot convert object to primitive value" "start".

(** The two log lines of [start] that interpolate what was loaded are
    evaluated whatever the log switches say.  Line 109 converts the
    loaded flag to a string right after assigning it, and raises a
    TypeError when that conversion does.  A stored height that is not a
    number makes line 124 raise a TypeError right after the two
    assignments; the model keeps the previous number in a field that
    would hold a non-number. *)
Definition start : M unit :=
  st <- get ;;;
  let savedState := BdApi_loadData pluginId dataKey st in
  (if isNull savedState then ret tt
   else (modify (fun st => st <| isMoved := savedState |>) ;;;
         (if toStringRaises savedState then throw notPrimitive else ret tt))) ;;;
  let savedHeights := BdApi_loadData pluginId heightsDataKey st in
  (if truthy savedHeights
      && negb (isUndefined (getProp savedHeights "sidebar"))
      && negb (isUndefined (getProp savedHeights "members"))
   then
     match getProp savedHeights "sidebar", getProp savedHeights "members" with
     | JNum a, JNum b =>
         modify (fun st => st <| sidebarHeightPercentage := a |>
                              <| membersHeightPercentage := b |>)
     | JNum a, _ =>
         modify (fun st => st <| sidebarHeightPercentage := a |>) ;;; throw notANumber
     | _, JNum b =>
         modify (fun st => st <| membersHeightPercentage := b |>) ;;; throw notANumber
     | _, _ => throw notANumber
     end
   else ret tt) ;;;
  modify setupObserver ;;;
  applyCurrentLayoutState ;;;
  modify (fun st => let '(id, st) := setInterval st in st <| failsafeIntervalId := Some id |>).

Definition stop (st : State) : State :=
  let st := match observer st with
            | Some id => (disconnect id st) <| observer := None |>
            | None => st
            end in
  let st := match animationFrameId st with
            | Some id => (cancelAnimationFrame id st) <| animationFrameId := None |>
            | None => st
            end in
  let st := match reapplyTimeout st with
            | Some id => (clearTimeout id st) <| reapplyTimeout := None |>
            | None => st
            end in
  let st := match failsafeIntervalId st with
            | Some id => (clearInterval id st) <| failsafeIntervalId := None |>
            | None => st
            end in
  let st := clearAbsenceTimer st in
  let wrap := membersWrap (document st) in
  let foundWrapperDiv := w ← wrapperDiv st; mw ← wrap;
                         if wrapContains mw (wr_parent w) then Some w else None in
  let foundResizeHandle := h ← resizeHandle st; mw ← wrap;
                           if wrapContains mw (rh_parent h) then Some h else None in
  let st := match foundWrapperDiv with
            | Some _ => st <| button := false |> <| wrapperDiv := None |>
            | None => st
            end in
  let st := match foundResizeHandle with
            | Some _ => st <| resizeHandle := None |> <| handleIndicator := false |>
            | None => st
            end in
  let st := st <| resizeListener := false |> in
  let st := st <| bdResizeListenerAdded := false |> in
  let st := st <| mousemoveListener := false |> in
  let st := st <| mouseupListener := false |> in
  applyOriginalLayoutStyles st.

(** *** The drag controller *)

(** Lines 744-763 of [onMouseMove]: the pair before [toFixed], every
    operation rounded as the doubles of the code are. *)
Definition dragProportions (clientY sidebarTop totalAvailableHeightForPanels : Q) : Q * Q :=
  let newSidebarHeightPx := fsub clientY sidebarTop in
  let newSidebarPercentage := fdiv newSidebarHeightPx totalAvailableHeightForPanels in
  let newMembersPercentage := fsub 1 newSidebarPercentage in
  let newSidebarPercentage :=
    Math_max MIN_HEIGHT_PERCENTAGE
      (Math_min (fsub 1 MIN_HEIGHT_PERCENTAGE) newSidebarPercentage) in
  let newMembersPercentage :=
    Math_max MIN_HEIGHT_PERCENTAGE
      (Math_min (fsub 1 MIN_HEIGHT_PERCENTAGE) newMembersPercentage) in
  let sum := fadd newSidebarPercentage newMembersPercentage in
  if negb (Qle_bool (Math_abs (fsub sum 1)) (double (1 # 1000)))
  then
    let error := fsub sum 1 in
    (fsub newSidebarPercentage (fdiv error 2), fsub newMembersPercentage (fdiv error 2))
  else (newSidebarPercentage, newMembersPercentage).

Definition heightsObject (st : State) : JsVal :=
  JObj [("sidebar"%string, JNum (sidebarHeightPercentage st));
        ("members"%string, JNum (membersHeightPercentage st))].

Definition onMouseMove (clientY : Q) (st : State) : State :=
  if negb (isDragging st) then st
  else
    match sidebarList (document st) with
    | None => st
    | Some _ =>
        if negb (query_userIDSection (document st)) then st
        else
          let sidebarListRect := measureSidebarList B (document st) in
          let userIDSectionRect := measureUserIDSection B (document st) in
          let totalAvailableHeightForPanels :=
            fsub (r_top userIDSectionRect) (r_top sidebarListRect) in
          if Qle_bool totalAvailableHeightForPanels 0 then st
          else
            let '(newSidebarPercentage, newMembersPercentage) :=
              dragProportions clientY (r_top sidebarListRect) totalAvailableHeightForPanels in
            let st := st <| sidebarHeightPercentage := toFixed3 newSidebarPercentage |> in
            let st := st <| membersHeightPercentage := toFixed3 newMembersPercentage |> in
            let st := queueLayoutReapply st in
            BdApi_saveData pluginId dataKey (heightsObject st) st
    end.

Definition onMouseUp (st : State) : State :=
  st <| isDragging := false |> <| mousemoveListener := false |> <| mouseupListener := false |>.

(** [resizeHandle.onmousedown] *)
Definition onmousedown (clientY : Q) (st : State) : State :=
  if negb (truthy (isMoved st)) then st
  else
    st <| isDragging := true |> <| initialMouseY := clientY |>
       <| initialSidebarHeightPercentage := sidebarHeightPercentage st |>
       <| initialMembersHeightPercentage := membersHeightPercentage st |>
       <| mousemoveListener := true |> <| mouseupListener := true |>.

(** [button.onclick] *)
Definition onclick (st : State) : State :=
  let st := st <| isMoved := JBool (negb (truthy (isMoved st))) |> in
  let st := BdApi_saveData pluginId dataKey (isMoved st) st in
  let st := BdApi_saveData pluginId heightsDataKey (heightsObject st) st in
  queueLayoutReapply st.

(** ** The event loop

    One event is one task of the browser.  [Request] stands for a caller
    of [queueLayoutReapply] whose other effects are not followed here
    (the periodic audit, [checkAndReapplyLayout] below). *)

Inductive Event :=
| Tick                                                  (* one millisecond passes *)
| AnimationFrame                                        (* pending frame callbacks run *)
| Mutations (change : Dom -> Dom) (records : list Mutation)
| WindowResize
| MouseDown (clientY : Q)
| MouseMove (clientY : Q)
| MouseUp
| Click
| Request.

(** What the event loop ran, for the record. *)
Inductive Fired :=
| RanFrame (raised : bool)
| RanCooldownEnd
| RanAbsenceCheck (containerPresent : bool).

Definition pending (id : nat) (l : list Timer) : bool :=
  existsb (fun t => Nat.eqb (t_id t) id) l.

Definition fireTimer (acc : State * list Fired) (t : Timer) : State * list Fired :=
  let '(st, log) := acc in
  if pending (t_id t) (timers st)
  then
    let st := st <| timers ::= dropTimer (t_id t) |> in
    match t_cb t with
    | CooldownEnd => (cooldownEnd st, log ++ [RanCooldownEnd])
    | AbsenceCheck =>
        (absenceCheck st,
         log ++ [RanAbsenceCheck (bool_decide (is_Some (membersWrap (document st))))])
    end
  else acc.

Definition due (now : nat) (t : Timer) : bool := Nat.leb (t_due t) now.

Definition tick (st : State) : State * list Fired :=
  let st := st <| clock ::= S |> in
  fold_left fireTimer (filter (fun t => due (clock st) t = true) (timers st)) (st, []).

(** An exception escaping a frame callback is reported by the host; the
    rest of the callback is skipped and the loop goes on. *)
Definition fireFrame (acc : State * list Fired) (id : nat) : State * list Fired :=
  let '(st, log) := acc in
  match reapplyFrame st with
  | Ret _ st' => (st', log ++ [RanFrame false])
  | Throw _ st' => (st', log ++ [RanFrame true])
  end.

Definition animationFrame (st : State) : State * list Fired :=
  let callbacks := frames st in
  fold_left fireFrame callbacks (st <| frames := [] |>, []).

Definition deliver (records : list Mutation) (st : State) : State :=
  fold_left (fun st _ => observerCallback records st) (observers st) st.

Definition step (ev : Event) (st : State) : State * list Fired :=
  match ev with
  | Tick => tick st
  | AnimationFrame => animationFrame st
  | Mutations change records => (deliver records (st <| document ::= change |>), [])
  | WindowResize => (if resizeListener st then handleWindowResize st else st, [])
  | MouseDown clientY =>
      (match resizeHandle st with Some _ => onmousedown clientY st | None => st end, [])
  | MouseMove clientY => (if mousemoveListener st then onMouseMove clientY st else st, [])
  | MouseUp => (if mouseupListener st then onMouseUp st else st, [])
  | Click =>
      (if bool_decide (is_Some (wrapperDiv st)) && subContainerDiv st && button st
       then onclick st else st, [])
  | Request => (queueLayoutReapply st, [])
  end.

Fixpoint run (evs : list Event) (st : State) : State * list Fired :=
  match evs with
  | [] => (st, [])
  | ev :: evs' =>
      let '(st1, log1) := step ev st in
      let '(st2, log2) := run evs' st1 in
      (st2, log1 ++ log2)
  end.

Definition isFrame (f : Fired) : bool :=
  match f with RanFrame _ => true | _ => false end.

(** Number of executions of the reconciliation pass by the scheduler. *)
Definition executions (log : list Fired) : nat := length (filter (fun f => isFrame f = true) log).

End Engine.

(** ** A freshly constructed instance *)

Definition constructor (d : Dom) (data : gmap (string * string) JsVal) : State :=
  {| observer := None; button := false; wrapperDiv := None; subContainerDiv := false;
     resizeHandle := None; handleIndicator := false; isMoved := JBool false;
     animationFrameId := None; failsafeIntervalId := None;
     sidebarHeightPercentage := 5 # 10; membersHeightPercentage := 5 # 10;
     isDragging := false; initialMouseY := 0; initialSidebarHeightPercentage := 0;
     initialMembersHeightPercentage := 0; lastLayoutApplyTimestamp := 0;
     reapplyTimeout := None; isThrottling := false; pendingThrottleCall := false;
     memberListAbsenceTimer := None; masterLogs := false; consoleErrors := false;
     document := d; clock := 0; nextId := 1; timers := []; frames := [];
     intervals := []; observers := []; resizeListener := false;
     mousemoveListener := false; mouseupListener := false;
     bdResizeListenerAdded := false; storage := data; consoleError := [] |}.

(** ** A concrete page, for running the model

    The upper region starts 40px from the top of a 640px column and is
    240px wide; its bottom edge follows its inline height. *)

Definition pxOr (fallback : Q) (v : option CssVal) : Q :=
  match v with Some (Px q) => q | _ => fallback end.

Definition demoSidebarRect (d : Dom) : Rect :=
  let h := match sidebarList d with
           | Some sl => pxOr 600 (sl_style sl !! "height")
           | None => 0
           end in
  mkRect 40 0 240 h (40 + h).

Definition demoBrowser : Browser :=
  mkBrowser demoSidebarRect (fun _ => mkRect 640 0 240 52 692) (fun _ _ => None).

Definition demoDom : Dom :=
  mkDom (Some (mkContainer 1 ∅ (Some (mkContent 2 "" ∅))))
        (Some (mkSidebarList ∅ (Some ∅)))
        true.

Definition demoState : State := constructor demoDom ∅.

(** ** Concrete inputs *)

Definition movedData : gmap (string * string) JsVal := {[ (pluginId, dataKey) := JBool true ]}.

(** The demo page after [start] with the MOVED flag persisted. *)
Definition movedState : State := finalState (start demoBrowser (constructor demoDom movedData)).

(** ... and after the pointer went down on the handle. *)
Definition draggingState : State := fst (run demoBrowser [MouseDown 340] movedState).

(** ** Notions used in the statements *)

(** What the scheduler, the pointer handlers and the persistence calls
    leave as it was. *)
Record Untouched (st st' : State) : Prop := mkUntouched {
  un_document : document st' = document st;
  un_clock : clock st' = clock st;
  un_observers : observers st' = observers st;
  un_absence : memberListAbsenceTimer st' = memberListAbsenceTimer st;
  un_isMoved : isMoved st' = isMoved st;
  un_sidebar : sidebarHeightPercentage st' = sidebarHeightPercentage st;
  un_members : membersHeightPercentage st' = membersHeightPercentage st;
  un_storage : storage st' = storage st;
  un_intervals : intervals st' = intervals st }.

(** *** Net effect of the styling procedures on the tree *)

Definition movedWrapStyle (h2 : Q) (r : Rect) (s : Style) : Style :=
  let s := setProperty "position" (Kw "fixed") s in
  let s := setProperty "width" (Px (r_width r)) s in
  let s := setProperty "height" (Px h2) s in
  let s := setProperty "left" (Px (r_left r)) s in
  let s := setProperty "top" (Px (r_bottom r)) s in
  let s := setProperty "transform" (Kw "translateX(0%)") s in
  let s := removeProperty "z-index" s in
  let s := setProperty "min-width" (Kw "unset") s in
  let s := setProperty "display" (Kw "flex") s in
  setProperty "flex-direction" (Kw "column") s.

Definition movedSidebarStyle (h1 : Q) (s : Style) : Style :=
  setProperty "padding-bottom" (Px 0) (setProperty "height" (Px h1) s).

Definition movedContentStyle (h2 : Q) (s : Style) : Style :=
  let s := setProperty "height" (Px (Math_max 0 (h2 - OUR_UI_HEIGHT_PX))) s in
  let s := setProperty "width" (Kw "100%") s in
  setProperty "overflow-y" (Kw "auto") s.

Definition movedDom (h1 h2 : Q) (r : Rect) (d : Dom) : Dom :=
  mkDom
    ((fun mw => mkContainer (mw_node mw) (movedWrapStyle h2 r (mw_style mw))
                  ((fun c => mkContent (mlc_node c) (mlc_id c) (movedContentStyle h2 (mlc_style c)))
                     <$> mw_content mw)) <$> membersWrap d)
    ((fun sl => mkSidebarList (movedSidebarStyle h1 (sl_style sl))
                  (setProperty "padding-bottom" (Px 0) <$> sl_nav sl)) <$> sidebarList d)
    (userIDSection d).

Definition originalWrapStyle (s : Style) : Style :=
  let s := removeProperty "position" s in
  let s := removeProperty "width" s in
  let s := removeProperty "height" s in
  let s := removeProperty "left" s in
  let s := removeProperty "top" s in
  let s := removeProperty "transform" s in
  let s := removeProperty "min-width" s in
  let s := removeProperty "flex-direction" s in
  let s := removeProperty "display" s in
  removeProperty "z-index" s.

Definition releasedSidebarStyle (s : Style) : Style :=
  removeProperty "padding-bottom" (removeProperty "height" s).

Definition originalContentStyle (s : Style) : Style :=
  removeProperty "overflow-y" (removeProperty "width" (removeProperty "height" s)).

Definition originalDom (d : Dom) : Dom :=
  mkDom
    ((fun mw => mkContainer (mw_node mw) (originalWrapStyle (mw_style mw))
                  ((fun c => if String.eqb (mlc_id c) "bd-members-list-container"
                             then mkContent (mlc_node c) (mlc_id c) (originalContentStyle (mlc_style c))
                             else c) <$> mw_content mw)) <$> membersWrap d)
    ((fun sl => mkSidebarList (releasedSidebarStyle (sl_style sl))
                  (removeProperty "padding-bottom" <$> sl_nav sl)) <$> sidebarList d)
    (userIDSection d).

(** The inline properties the MOVED procedure writes or clears. *)
Definition movedContainerProperties : list string :=
  ["position"; "width"; "height"; "left"; "top"; "transform"; "z-index"; "min-width";
   "display"; "flex-direction"]%string.

Definition movedContentProperties : list string := ["height"; "width"; "overflow-y"]%string.

(** *** Reading the tree *)

Definition wrapProp (k : string) (d : Dom) : option CssVal :=
  mw ← membersWrap d; mw_style mw !! k.

Definition sidebarProp (k : string) (d : Dom) : option CssVal :=
  sl ← sidebarList d; sl_style sl !! k.

Definition contentProp (k : string) (d : Dom) : option CssVal :=
  c ← query_membersListContainer d; mlc_style c !! k.

(** *** The MOVED pass, step by step *)

(** [userIDSectionRect.top - sidebarListRect.top] on the tree [d]. *)
Definition availableHeight (B : Browser) (d : Dom) : Q :=
  r_top (measureUserIDSection B d) - r_top (measureSidebarList B d).

(** The state once the pass has found its nodes: the content node
    carries its id and the control surface exists in memory. *)
Definition prepared (st : State) : State :=
  let st := tagContent st in
  if needsUi st then addMoveButton st else st.

(** The state a MOVED branch that runs to its end leaves behind. *)
Definition afterMoved (B : Browser) (st : State) : State :=
  let avail := availableHeight B (document st) in
  let h1 := avail * sidebarHeightPercentage st in
  let h2 := avail * membersHeightPercentage st in
  let st1 := onSidebarStyle (setProperty "height" (Px h1)) st in
  addResizeListener
    (placeMoved (applyMovedLayoutStyles h1 h2 (measureSidebarList B (document st1)) st1)).

(** *** A host that fails *)

Definition domError : Error := mkError "HierarchyRequestError" "at applyCurrentLayoutState".

(** The demo page, except that writing styles raises. *)
Definition brokenBrowser : Browser :=
  mkBrowser demoSidebarRect (fun _ => mkRect 640 0 240 52 692)
            (fun site _ => match site with AtStyle => Some domError | _ => None end).

(** The MOVED demo page with the error switch on. *)
Definition loudState : State := movedState <| consoleErrors := true |>.

(** Which of the nodes are there, whatever their styles. *)
Definition presence (d : Dom) : bool * bool * bool * bool :=
  (bool_decide (is_Some (membersWrap d)),
   bool_decide (is_Some (query_membersListContainer d)),
   bool_decide (is_Some (sidebarList d)),
   userIDSection d).

(** *** Further concrete inputs *)

(** The demo page after two clicks: back in MOVED mode, with the pair
    0.5/0.5 saved under the heights key, and a drag begun once the
    scheduler has settled. *)
Definition clickedState : State :=
  fst (run demoBrowser ([Click; AnimationFrame] ++ repeat Tick 100
                        ++ [Click; AnimationFrame] ++ repeat Tick 100
                        ++ [MouseDown 340]) movedState).

(** The pair the demo drag to y = 100 produces: the doubles 0.1 and 0.9. *)
Definition draggedPair : JsVal :=
  JObj [("sidebar"%string, JNum (double (100 # 1000)));
        ("members"%string, JNum (double (900 # 1000)))].

(** The double nearest to [k] thousandths lies in [0.05, 0.95], within
    2^-54 of its decimal. *)
Definition thousandthOK (k : Z) : bool :=
  Qle_bool (5 # 100) (double (k # 1000)) && Qle_bool (double (k # 1000)) (95 # 100)
  && Qle_bool (Qabs (double (k # 1000) - (k # 1000))) (1 # 18014398509481984).

(** A column whose upper region starts at 40px and whose boundary marker
    sits at 280px: 240px to share. *)
Definition shortBrowser : Browser :=
  mkBrowser (fun _ => mkRect 40 0 240 240 280) (fun _ => mkRect 280 0 240 52 332)
    (fun _ _ => None).

Definition halfPair : JsVal :=
  JObj [("sidebar"%string, JNum (5 # 10)); ("members"%string, JNum (5 # 10))].

(** The demo page before [start]. *)
Definition freshState : State := constructor demoDom movedData.

(** *** States up to the raw value of the mode flag *)

(** The state as the rest of the program can tell it apart: the flag as a
    boolean, the persisted data aside. *)
Definition view (st : State) : State :=
  st <| isMoved := JBool (truthy (isMoved st)) |> <| storage := ∅ |>.

Definition viewOutcome {A} (o : Outcome A) : Outcome A :=
  match o with
  | Ret a s => Ret a (view s)
  | Throw e s => Throw e (view s)
  end.

Definition repaint (i : JsVal) (m : gmap (string * string) JsVal) (st : State) : State :=
  st <| isMoved := i |> <| storage := m |>.

(** [f] neither reads nor writes the flag and the store. *)
Definition Blind (f : State -> State) : Prop :=
  forall i m s, f (repaint i m s) = repaint i m (f s).

(** Two runs whose flags started as [i0] and [i0']: same view, and a
    truthy flag still holds the value it started with. *)
Definition alikeFrom (i0 i0' : JsVal) (s s' : State) : Prop :=
  view s = view s' /\ (truthy i0 = true -> isMoved s = i0 /\ isMoved s' = i0').

Definition alikeOutcomeFrom (i0 i0' : JsVal) {A} (o o' : Outcome A) : Prop :=
  match o, o' with
  | Ret a s, Ret a' s' => a = a' /\ alikeFrom i0 i0' s s'
  | Throw e s, Throw e' s' => e = e' /\ alikeFrom i0 i0' s s'
  | _, _ => False
  end.

Definition RespectsFrom (i0 i0' : JsVal) {A} (c : M A) : Prop :=
  forall s s', alikeFrom i0 i0' s s' -> alikeOutcomeFrom i0 i0' (c s) (c s').

(** The demo page with a proportion pair stored under the key of the flag. *)
Definition objectFlagState : State := constructor demoDom {[ (pluginId, dataKey) := draggedPair ]}.

(** A stored object that has a key named [toString], and the demo page
    with it under the key of the flag. *)
Definition opaqueFlag : JsVal := JObj [("toString"%string, JNum 1)].

Definition opaqueFlagState : State := constructor demoDom {[ (pluginId, dataKey) := opaqueFlag ]}.

(** *** The absence debounce *)

Definition isAbsence (t : Timer) : bool :=
  match t_cb t with AbsenceCheck => true | CooldownEnd => false end.

(** The pending timers armed by [handleMemberListAbsence]. *)
Definition absenceTimers (st : State) : list Timer :=
  filter (fun t => isAbsence t = true) (timers st).

(** [document.querySelector('[class*="membersWrap"]')] finds a node. *)
Definition wrapPresent (st : State) : bool :=
  bool_decide (is_Some (membersWrap (document st))).

(** What the scheduler, the pointer handlers and a reconciliation pass
    leave alone: the clock, the observers, the tracked timer id and the
    presence of the container; no absence timer is added. *)
Record Neutral (st st' : State) : Prop := mkNeutral {
  ne_clock : clock st' = clock st;
  ne_observers : observers st' = observers st;
  ne_tracked : memberListAbsenceTimer st' = memberListAbsenceTimer st;
  ne_present : wrapPresent st' = wrapPresent st;
  ne_timers : absenceTimers st' ⊆ absenceTimers st }.

Definition NeutralM {A} (c : M A) : Prop := forall s, Neutral s (finalState (c s)).

(** The upper region carries the two inline overrides of MOVED mode. *)
Definition sidebarOverridden (d : Dom) : bool :=
  bool_decide (is_Some (sidebarProp "height" d))
  && bool_decide (is_Some (sidebarProp "padding-bottom" d)).

(** MOVED mode with the overrides in place. *)
Definition held (st : State) : bool :=
  truthy (isMoved st) && sidebarOverridden (document st).

(** Every pending absence timer is the one [this.memberListAbsenceTimer]
    names. *)
Definition Tracked (st : State) : Prop :=
  Forall (fun t => memberListAbsenceTimer st = Some (t_id t)) (absenceTimers st).

(** No absence timer is due before [T], and none is pending while the
    container is there. *)
Record Safe (T : nat) (st : State) : Prop := mkSafe {
  sf_tracked : Tracked st;
  sf_due : Forall (fun t => T <= t_due t)%nat (absenceTimers st);
  sf_present : wrapPresent st = true -> absenceTimers st = [];
  sf_horizon : (T <= clock st + ABSENCE_CHECK_DELAY_MS)%nat }.

(** The page, the mode, the clock and the observers are as they were. *)
Record Calmer (st st' : State) : Prop := mkCalmer {
  ca_clock : clock st' = clock st;
  ca_observers : observers st' = observers st;
  ca_document : document st' = document st;
  ca_isMoved : isMoved st' = isMoved st }.

Definition Overridden (d : Dom) : Prop :=
  exists sl, sidebarList d = Some sl
             /\ is_Some (sl_style sl !! "height") /\ is_Some (sl_style sl !! "padding-bottom").

(** The mode is as it was and overrides in place stay in place. *)
Record Keeps (st st' : State) : Prop := mkKeeps {
  ke_isMoved : isMoved st' = isMoved st;
  ke_overridden : Overridden (document st) -> Overridden (document st') }.

(** Computations that keep the overrides when started in MOVED mode. *)
Definition KeepsT {A} (c : M A) : Prop :=
  forall s, truthy (isMoved s) = true -> Keeps s (finalState (c s)).

Definition isAbsenceCheck (f : Fired) : bool :=
  match f with RanAbsenceCheck _ => true | _ => false end.

(** The firings of the absence timer in a log. *)
Definition absenceChecks (log : list Fired) : list Fired :=
  filter (fun f => isAbsenceCheck f = true) log.

(** The host takes the container out of the page, and puts one in. *)
Definition removeContainer (d : Dom) : Dom := d <| membersWrap := None |>.

Definition insertContainer (c : Container) (d : Dom) : Dom := d <| membersWrap := Some c |>.

(** An event in which the host neither adds nor removes the container
    and leaves the upper region to the plugin. *)
Definition steady (ev : Event) : Prop :=
  match ev with
  | Mutations change _ =>
      forall d, membersWrap (change d) = membersWrap d /\ sidebarList (change d) = sidebarList d
  | _ => True
  end.

Definition isTick (ev : Event) : bool := match ev with Tick => true | _ => false end.

Definition isClick (ev : Event) : bool := match ev with Click => true | _ => false end.

(** Milliseconds that pass during [evs]. *)
Definition ticks (evs : list Event) : nat := length (filter (fun ev => isTick ev = true) evs).

(** The user does not toggle the mode during [evs]. *)
Definition noClick (evs : list Event) : bool := forallb (fun ev => negb (isClick ev)) evs.

(** What one steady step carries over. *)
Definition Carried (T : nat) (ev : Event) (st : State) (r : State * list Fired) : Prop :=
  Safe T (fst r) /\ wrapPresent (fst r) = wrapPresent st
  /\ clock (fst r) = (clock st + ticks [ev])%nat
  /\ observers (fst r) = observers st
  /\ absenceChecks (snd r) = []
  /\ (isClick ev = false -> held st = true -> held (fst r) = true).

(** A re-render flicker on the demo page: the container goes, three
    milliseconds pass with a frame, a style batch, a resize and an audit
    request, and a new container comes; 200 milliseconds follow. *)
Definition flickerRemoved : list Mutation := [ChildList [mkNode 1 true] []].

Definition flickerAdded : list Mutation := [ChildList [] [mkNode 1 true]].

Definition flickerDuring : list Event :=
  [Tick; AnimationFrame; Mutations (fun d => d) [Attributes "class" (mkTarget false true "")];
   WindowResize; Tick; Request; Tick; AnimationFrame].

Definition flickerAfter : list Event :=
  AnimationFrame :: repeat Tick 200 ++ [WindowResize; AnimationFrame].

Definition flickerContainer : Container := mkContainer 7 ∅ (Some (mkContent 8 "" ∅)).

Definition flicker : list Event :=
  Mutations removeContainer flickerRemoved :: flickerDuring
  ++ Mutations (insertContainer flickerContainer) flickerAdded :: flickerAfter.

(** The container goes and stays away for the whole delay. *)
Definition longAbsence : list Event :=
  Mutations removeContainer flickerRemoved :: repeat Tick ABSENCE_CHECK_DELAY_MS.

(** ** The periodic audit

    [checkAndReapplyLayout], the callback of the interval [start] sets.
    It reads inline styles only.  The children of the handle and of the
    button wrapper are part of these elements in this model, so the
    checks for missing children never fire. *)

(** [0.1], the double. *)
Definition PIXEL_TOLERANCE : Q := double (1 # 10).

(** [el.style.p === s] for a literal [s] that is not a pixel length. *)
Definition cssIs (v : option CssVal) (s : string) : bool :=
  match v with
  | Some (Kw s') => String.eqb s' s
  | _ => false
  end.

(** [el.style.p === "0px"] *)
Definition cssIs0px (v : option CssVal) : bool :=
  match v with
  | Some (Px q) => Qeq_bool q 0
  | _ => false
  end.

(** [el.style.p !== ""], which is also the truthiness of [el.style.p]. *)
Definition cssSet (v : option CssVal) : bool :=
  match v with
  | None => false
  | Some (Kw s) => negb (String.eqb s "")
  | Some (Px _) => true
  end.

(** The element with this parent is in the document. *)
Definition inDocument (d : Dom) (p : Parent) : bool :=
  match membersWrap d with
  | Some mw => wrapContains mw p
  | None => false
  end.

(** [el.parentNode === membersWrap] *)
Definition isChildOfWrap (mw : Container) (p : Parent) : bool :=
  match p with
  | InWrap n => Nat.eqb n (mw_node mw)
  | _ => false
  end.

(** [el.parentNode === membersListContainer] *)
Definition isChildOfContent (c : Content) (p : Parent) : bool :=
  match p with
  | InContent n => Nat.eqb n (mlc_node c)
  | _ => false
  end.

(** [document.querySelector("#bd-move-button-wrapper")] *)
Definition query_wrapperDiv (st : State) : option Wrapper :=
  w ← wrapperDiv st; if inDocument (document st) (wr_parent w) then Some w else None.

(** [document.querySelector("#bd-resize-handle")] *)
Definition query_resizeHandle (st : State) : option Handle :=
  h ← resizeHandle st; if inDocument (document st) (rh_parent h) then Some h else None.

Section Audit.

Context (B : Browser).

(** [parseFloat] on the literals that are not pixel lengths; [None] stands
    for NaN and the infinities, which are within no tolerance of a
    number. *)
Context (parseFloat : string -> option Q).

(** [parseFloat(el.style.p)] *)
Definition cssFloat (v : option CssVal) : option Q :=
  match v with
  | Some (Px q) => Some q
  | Some (Kw s) => parseFloat s
  | None => None
  end.

Definition compareFloats (val1 : option Q) (val2 tolerance : Q) : bool :=
  match val1 with
  | Some v => negb (Qle_bool tolerance (Math_abs (v - val2)))
  | None => false
  end.

(** Lines 1000-1062: presence, parentage and display of the control
    surface. *)
Definition placementDeviates (st : State) (mw : Container) (c : Content) : bool :=
  let actualWrapperDiv := query_wrapperDiv st in
  let actualResizeHandle := query_resizeHandle st in
  if truthy (isMoved st)
  then
    match actualWrapperDiv with
    | None => true
    | Some w => negb (isChildOfWrap mw (wr_parent w))
    end
    || match actualResizeHandle with
       | None => true
       | Some h => negb (isChildOfWrap mw (rh_parent h))
       end
    || match actualResizeHandle with
       | Some h => negb (cssIs (rh_style h !! "display") "flex")
       | None => false
       end
    || match actualWrapperDiv with
       | Some w => negb (cssIs (wr_style w !! "display") "flex")
       | None => false
       end
  else
    match actualWrapperDiv with
    | None => true
    | Some w => negb (isChildOfContent c (wr_parent w))
    end
    || bool_decide (is_Some actualResizeHandle)
    || match actualWrapperDiv with
       | Some w => negb (cssIs (wr_style w !! "display") "flex")
       | None => false
       end.

(** Lines 1077-1268: the inline styles against the geometry of the
    moment. *)
Definition stylesDeviate (st : State) (mw : Container) (sl : SidebarList) (c : Content) : bool :=
  let tempSidebarListRect := measureSidebarList B (document st) in
  let tempUserIDSectionRect := measureUserIDSection B (document st) in
  let availableHeightForPanels := r_top tempUserIDSectionRect - r_top tempSidebarListRect in
  let expectedSidebarHeight := availableHeightForPanels * sidebarHeightPercentage st in
  let expectedMembersHeight := availableHeightForPanels * membersHeightPercentage st in
  let expectedMembersWrapTop := r_bottom tempSidebarListRect in
  let expectedMembersWrapWidth := r_width tempSidebarListRect in
  Qle_bool availableHeightForPanels 0
  || if truthy (isMoved st)
     then
       let expectedRemainingHeightForContent := expectedMembersHeight - OUR_UI_HEIGHT_PX in
       negb (cssIs (mw_style mw !! "position") "fixed")
       || negb (compareFloats (cssFloat (mw_style mw !! "width"))
                  expectedMembersWrapWidth PIXEL_TOLERANCE)
       || negb (compareFloats (cssFloat (mw_style mw !! "height"))
                  expectedMembersHeight PIXEL_TOLERANCE)
       || negb (compareFloats (cssFloat (mw_style mw !! "left"))
                  (r_left tempSidebarListRect) PIXEL_TOLERANCE)
       || negb (compareFloats (cssFloat (mw_style mw !! "top"))
                  expectedMembersWrapTop PIXEL_TOLERANCE)
       || negb (cssIs (mw_style mw !! "transform") "translateX(0%)")
       || negb (cssIs (mw_style mw !! "flex-direction") "column")
       || negb (cssIs (mw_style mw !! "display") "flex")
       || cssSet (mw_style mw !! "z-index")
       || negb (compareFloats (cssFloat (sl_style sl !! "height"))
                  expectedSidebarHeight PIXEL_TOLERANCE)
       || negb (cssIs0px (sl_style sl !! "padding-bottom"))
       || negb (compareFloats (cssFloat (mlc_style c !! "height"))
                  (Math_max 0 expectedRemainingHeightForContent) PIXEL_TOLERANCE)
       || negb (cssIs (mlc_style c !! "width") "100%")
       || negb (cssIs (mlc_style c !! "overflow-y") "auto")
     else
       cssSet (mw_style mw !! "position")
       || cssSet (mw_style mw !! "width")
       || cssSet (mw_style mw !! "height")
       || cssSet (mw_style mw !! "flex-direction")
       || cssSet (mw_style mw !! "display")
       || cssSet (mw_style mw !! "z-index")
       || cssSet (mlc_style c !! "height")
       || cssSet (mlc_style c !! "overflow-y")
       || cssSet (sl_style sl !! "height").

Definition checkAndReapplyLayout (st : State) : State :=
  match membersWrap (document st), sidebarList (document st) with
  | Some mw, Some sl =>
      if negb (query_userIDSection (document st)) then st
      else
        match mw_content mw with
        | None => st
        | Some c =>
            let st := tagContent st in
            let st := if needsUi st then addMoveButton st else st in
            if placementDeviates st mw c then queueLayoutReapply st
            else if stylesDeviate st mw sl c then queueLayoutReapply st
            else st
        end
  | _, _ => st
  end.

End Audit.

(** The inline styles of the four nodes of the page. *)
Definition pageStyles (d : Dom) :=
  (mw_style <$> membersWrap d, mlc_style <$> query_membersListContainer d,
   sl_style <$> sidebarList d, sl_nav <$> sidebarList d).

(** [parseFloat] for a page whose literals carry no number. *)
Definition demoParseFloat (s : string) : option Q := None.

(** *** What a procedure keeps *)

(** [f] leaves the reading [p] of the state as it was. *)
Definition KeptBy {T} (p : State -> T) (f : State -> State) : Prop :=
  forall st, p (f st) = p st.

Definition KeptByM {T A} (p : State -> T) (c : M A) : Prop :=
  forall st, p (finalState (c st)) = p st.

(** Everything a reconciliation pass has no business with: the persisted
    data, the proportions, the drag, the scheduler, the timers, frames,
    intervals and observers of the host, the clock and the log switches. *)
Definition outsidePass (st : State) :=
  (storage st, sidebarHeightPercentage st, membersHeightPercentage st,
   (isDragging st, initialMouseY st, initialSidebarHeightPercentage st,
    initialMembersHeightPercentage st, mousemoveListener st, mouseupListener st),
   (animationFrameId st, reapplyTimeout st, isThrottling st, pendingThrottleCall st,
    lastLayoutApplyTimestamp st),
   (observer st, failsafeIntervalId st, memberListAbsenceTimer st),
   (clock st, nextId st, timers st, frames st, intervals st, observers st),
   (masterLogs st, consoleErrors st)).

(** *** The scheduler after a [stop] *)

Definition isCooldown (t : Timer) : bool :=
  match t_cb t with CooldownEnd => true | AbsenceCheck => false end.

(** The pending timers that end a cooldown. *)
Definition cooldowns (st : State) : list Timer :=
  filter (fun t => isCooldown t = true) (timers st).

(** The throttle flag is up and nothing is left that would take it down
    or run a pass. *)
Definition Wedged (st : State) : Prop :=
  isThrottling st = true /\ cooldowns st = [] /\ frames st = [].

(** One request on the MOVED demo page: the cooldown has begun. *)
Definition coolingState : State := fst (run demoBrowser [Request] movedState).

(** What may follow a restart: requests, frames, half a second, a click,
    a batch, a resize. *)
Definition busyEvents : list Event :=
  [Request; AnimationFrame] ++ repeat Tick 300
  ++ [Click; AnimationFrame; Mutations (fun d => d) [ChildList [] []]; WindowResize]
  ++ repeat Tick 200 ++ [AnimationFrame].

(** *** [stop] in three stages *)

(** The [try] block of [stop]: what the host holds for the plugin. *)
Definition stopServices (st : State) : State :=
  let st := match observer st with
            | Some id => (disconnect id st) <| observer := None |>
            | None => st
            end in
  let st := match animationFrameId st with
            | Some id => (cancelAnimationFrame id st) <| animationFrameId := None |>
            | None => st
            end in
  let st := match reapplyTimeout st with
            | Some id => (clearTimeout id st) <| reapplyTimeout := None |>
            | None => st
            end in
  let st := match failsafeIntervalId st with
            | Some id => (clearInterval id st) <| failsafeIntervalId := None |>
            | None => st
            end in
  clearAbsenceTimer st.

(** The control surface and the listeners. *)
Definition stopSurface (st : State) : State :=
  let wrap := membersWrap (document st) in
  let foundWrapperDiv := w ← wrapperDiv st; mw ← wrap;
                         if wrapContains mw (wr_parent w) then Some w else None in
  let foundResizeHandle := h ← resizeHandle st; mw ← wrap;
                           if wrapContains mw (rh_parent h) then Some h else None in
  let st := match foundWrapperDiv with
            | Some _ => st <| button := false |> <| wrapperDiv := None |>
            | None => st
            end in
  let st := match foundResizeHandle with
            | Some _ => st <| resizeHandle := None |> <| handleIndicator := false |>
            | None => st
            end in
  let st := st <| resizeListener := false |> in
  let st := st <| bdResizeListenerAdded := false |> in
  let st := st <| mousemoveListener := false |> in
  st <| mouseupListener := false |>.

(** *** Passes in MOVED mode *)

(** Started in MOVED mode, [c] takes every state to one related by [R]. *)
Definition ModedM (R : State -> State -> Prop) {A} (c : M A) : Prop :=
  forall s, truthy (isMoved s) = true -> R s (finalState (c s)).

(** The button wrapper hangs inside the content node of the container. *)
Definition wrapperInContent (st : State) : Prop :=
  exists mw c w, membersWrap (document st) = Some mw /\ mw_content mw = Some c
                 /\ wrapperDiv st = Some w /\ wr_parent w = InContent (mlc_node c).

Record StaysInContent (st st' : State) : Prop := mkStaysInContent {
  sic_isMoved : isMoved st' = isMoved st;
  sic_wrapper : wrapperInContent st -> wrapperInContent st' }.

(** MOVED mode, the nodes the audit needs, and the button wrapper where
    the ORIGINAL layout puts it. *)
Definition Misplaced (st : State) : Prop :=
  truthy (isMoved st) = true /\ wrapperInContent st
  /\ is_Some (sidebarList (document st)) /\ userIDSection (document st) = true.

(** The demo page started in ORIGINAL mode, and after the button was
    clicked and the pass it requested has run. *)
Definition originalState : State := finalState (start demoBrowser (constructor demoDom ∅)).

Definition toggledState : State :=
  fst (run demoBrowser ([Click; AnimationFrame] ++ repeat Tick 100) originalState).

(** The state an ORIGINAL branch that runs to its end leaves behind. *)
Definition afterOriginal (st : State) : State :=
  removeResizeListener (placeOriginal (applyOriginalLayoutStyles st)).

(** *** Invariants of the lifecycle *)

(** [c] takes states with [P] to states with [P], however it ends. *)
Definition PresM (P : State -> Prop) {A} (c : M A) : Prop :=
  forall s, P s -> P (finalState (c s)).

(** The observers the host has connected are the one [this.observer]
    names, if any. *)
Definition OneObserver (st : State) : Prop :=
  observers st = match observer st with Some id => [id] | None => [] end.

(** *** One frame at a time *)

(** At most one frame callback is pending, and it is the one
    [this.animationFrameId] names. *)
Definition SingleFlight (st : State) : Prop :=
  frames st = [] \/ exists id, frames st = [id] /\ animationFrameId st = Some id.

Definition isFrameEvent (ev : Event) : bool :=
  match ev with AnimationFrame => true | _ => false end.

(** *** What the host holds for the plugin *)

(** The fields that name what the host holds, the throttle flag, and the
    host's tables. *)
Definition services (st : State) :=
  ((animationFrameId st, reapplyTimeout st, isThrottling st),
   (observer st, failsafeIntervalId st, memberListAbsenceTimer st),
   (clock st, nextId st, timers st, frames st, intervals st, observers st)).

(** The field of the instance that names a pending timer: a cooldown
    timer is named by [reapplyTimeout], an absence timer by
    [memberListAbsenceTimer]. *)
Definition timerNamed (rt ab : option nat) (t : Timer) : Prop :=
  match t_cb t with
  | CooldownEnd => rt = Some (t_id t)
  | AbsenceCheck => ab = Some (t_id t)
  end.

(** The pending timers [l] of an instance whose next identifier is [n],
    throttle flag [thr], and timer fields [rt] and [ab]: identifiers are
    below [n] and determine the callback, every timer is named, and a
    cooldown timer is pending only while throttling. *)
Record TimersOK (n : nat) (l : list Timer) (thr : bool) (rt ab : option nat) : Prop :=
  mkTimersOK {
    tk_fresh : Forall (fun t => (t_id t < n)%nat) l;
    tk_kind : forall t t', t ∈ l -> t' ∈ l -> t_id t = t_id t' -> t_cb t = t_cb t';
    tk_named : Forall (timerNamed rt ab) l;
    tk_cooling : thr = false -> Forall (fun t => isCooldown t = false) l }.

(** Every timer, frame callback, observer and interval the host holds is
    named by a field of the instance. *)
Record Accounted (st : State) : Prop := mkAccounted {
  ac_timers : TimersOK (nextId st) (timers st) (isThrottling st) (reapplyTimeout st)
                (memberListAbsenceTimer st);
  ac_frames : Forall (fun id => animationFrameId st = Some id) (frames st);
  ac_observers : Forall (fun id => observer st = Some id) (observers st);
  ac_intervals : Forall (fun id => failsafeIntervalId st = Some id) (intervals st) }.

(** Nothing of the plugin is left with the host. *)
Definition Released (st : State) : Prop :=
  timers st = [] /\ frames st = [] /\ intervals st = [] /\ observers st = []
  /\ resizeListener st = false /\ mousemoveListener st = false /\ mouseupListener st = false.

(** [st'] has the timers of [st], less those of some identifiers, plus
    some with identifiers [st] had not given out; no time has passed. *)
Definition Grows (st st' : State) : Prop :=
  clock st' = clock st
  /\ (nextId st <= nextId st')%nat
  /\ (forall t, t ∈ timers st' -> t ∈ timers st \/ (nextId st <= t_id t)%nat)
  /\ (forall t, t ∈ timers st -> (t_id t < nextId st)%nat ->
                t ∈ timers st' \/ forall t', t' ∈ timers st' -> t_id t' <> t_id t).

(** The timers [l] still to fire in this turn of the clock: each is due,
    agrees with the pending ones on the callback its identifier stands
    for, and is still pending unless its identifier has been cleared. *)
Definition Compatible (l : list Timer) (st : State) : Prop :=
  Forall (fun t => (t_due t <= clock st)%nat
                   /\ (t_id t < nextId st)%nat
                   /\ (forall t', t' ∈ timers st -> t_id t' = t_id t -> t_cb t' = t_cb t)
                   /\ (t ∈ timers st \/ forall t', t' ∈ timers st -> t_id t' <> t_id t)) l.

(** A Hoare triple for computations that may raise: from [P], [Q] on
    return and [E] on an exception. *)
Definition Triple (P : State -> Prop) {A} (c : M A) (Q E : State -> Prop) : Prop :=
  forall s, P s -> match c s with Ret _ s' => Q s' | Throw _ s' => E s' end.

(** ** The event loop, with the audit

    The interval that [start] sets calls [checkAndReapplyLayout] each
    time it fires, and so does an interval that an earlier [start] left
    behind.  A task of the browser is an event of the loop above or a
    firing of the intervals, at any moment. *)
Inductive Task :=
| Host (ev : Event)
| Failsafe.

Section Tasks.

Context (B : Browser) (parseFloat : string -> option Q).

Definition fireIntervals (st : State) : State :=
  fold_left (fun st _ => checkAndReapplyLayout B parseFloat st) (intervals st) st.

Definition stepTask (t : Task) (st : State) : State * list Fired :=
  match t with
  | Host ev => step B ev st
  | Failsafe => (fireIntervals st, [])
  end.

Fixpoint runTasks (ts : list Task) (st : State) : State * list Fired :=
  match ts with
  | [] => (st, [])
  | t :: ts' =>
      let '(st1, log1) := stepTask t st in
      let '(st2, log2) := runTasks ts' st1 in
      (st2, log1 ++ log2)
  end.

End Tasks.

(** The milliseconds that pass during [ts]. *)
Definition elapsed (ts : list Task) : nat :=
  length (filter (fun t => match t with Host Tick => true | _ => false end = true) ts).

(** The frames the host renders during [ts]. *)
Definition rendered (ts : list Task) : nat :=
  length (filter (fun t => match t with Host AnimationFrame => true | _ => false end = true) ts).

Definition busyTasks : list Task := Failsafe :: map Host busyEvents ++ [Failsafe].

(** *** The throttle *)

(** Milliseconds until the first pending cooldown timer is due, capped
    at the throttle delay; the full delay when none is pending. *)
Definition leftOf (now : nat) (l : list Timer) : nat :=
  foldr (fun t acc => Nat.min (t_due t - now) acc) reapplyThrottleDelay l.

Definition cooldownLeft (st : State) : nat := leftOf (clock st) (cooldowns st).

(** What the scheduler has in hand, in milliseconds: one throttle delay
    for each pending frame callback, and the part of the running
    cooldown that has been served (the whole delay when not
    throttling). *)
Definition budget (st : State) : nat :=
  reapplyThrottleDelay * length (frames st)
  + (if isThrottling st then reapplyThrottleDelay - cooldownLeft st else reapplyThrottleDelay).

(** An accounted instance whose budget is at most [c]. *)
Definition Within (c : nat) (st : State) : Prop := Accounted st /\ (budget st <= c)%nat.

(** * Properties *)

(** ** Rounding to binary64 *)

Lemma pow2_pos e : 0 < pow2 e.
Proof. apply Qpower_0_lt. reflexivity. Qed.

Lemma pow2_plus a b : pow2 (a + b) == pow2 a * pow2 b.
Proof. apply Qpower_plus. discriminate. Qed.

Lemma pow2_Z n : (0 <= n)%Z -> pow2 n == inject_Z (2 ^ n).
Proof. intros H. unfold pow2. rewrite (Zpower_Qpower 2 n H). reflexivity. Qed.

Lemma frac_le x y z w : 0 < y -> y < z -> 0 < w -> w <= x -> w * / z <= x / y.
Proof.
  intros Hy Hz Hw Hx.
  apply Qle_shift_div_l; [exact Hy|].
  assert (I : 0 < / z) by (apply Qinv_lt_0_compat; lra).
  assert (E : w * / z * z == w) by (field; lra).
  assert (w * / z * y <= w * / z * z).
  { apply Qmult_le_l; [|lra]. apply Qmult_lt_0_compat; assumption. }
  lra.
Qed.

(** The power of two [ilog2] names is not above its argument. *)
Lemma ilog2_le a : 0 < a -> pow2 (ilog2 a) <= a.
Proof.
  intros Ha. unfold ilog2. cbv zeta.
  destruct (Qle_bool _ a) eqn:E; [apply Qle_bool_iff; exact E|]. clear E.
  destruct a as [n d]. cbn [Qnum Qden].
  assert (Hn : (0 < n)%Z).
  { unfold Qlt in Ha. cbn in Ha. lia. }
  pose proof (Z.log2_spec n Hn) as [Ln _].
  pose proof (Z.log2_spec (Zpos d) (Pos2Z.is_pos d)) as [_ Ld].
  pose proof (Z.log2_nonneg n) as N1. pose proof (Z.log2_nonneg (Zpos d)) as N2.
  set (ln := Z.log2 n) in *. set (ld := Z.log2 (Zpos d)) in *.
  replace (ln - ld - 1)%Z with (ln + - (ld + 1))%Z by lia.
  rewrite pow2_plus. unfold pow2 at 2. rewrite Qpower_opp. fold (pow2 (ld + 1)).
  rewrite (pow2_Z ln N1), (pow2_Z (ld + 1)) by lia.
  rewrite (Qmake_Qdiv n d).
  assert (P1 : inject_Z (2 ^ ln) <= inject_Z n) by (rewrite <- Zle_Qle; exact Ln).
  assert (P2 : inject_Z (Zpos d) < inject_Z (2 ^ (ld + 1))).
  { rewrite <- Zlt_Qlt. replace (ld + 1)%Z with (Z.succ ld) by lia. exact Ld. }
  assert (P3 : 0 < inject_Z (Zpos d)) by (rewrite <- (Zlt_Qlt 0); lia).
  assert (P4 : 0 < inject_Z (2 ^ ln)) by (rewrite <- (Zlt_Qlt 0); apply Z.pow_pos_nonneg; lia).
  apply frac_le; assumption.
Qed.

Lemma roundEven_err r : - (1 # 2) <= inject_Z (roundEven r) - r <= 1 # 2.
Proof.
  unfold roundEven. cbv zeta.
  pose proof (Qfloor_le r) as L. pose proof (Qlt_floor r) as U.
  rewrite inject_Z_plus in U. change (inject_Z 1) with 1 in U.
  destruct (Qcompare_spec (r - inject_Z (Qfloor r)) (1 # 2)) as [E|E|E].
  - destruct (Z.even _); rewrite ?inject_Z_plus; change (inject_Z 1) with 1; lra.
  - lra.
  - rewrite inject_Z_plus. change (inject_Z 1) with 1. lra.
Qed.

Lemma roundEven_nonneg r : 0 <= r -> (0 <= roundEven r)%Z.
Proof.
  intros H. unfold roundEven. cbv zeta.
  assert (F : (0 <= Qfloor r)%Z) by (change 0%Z with (Qfloor 0); apply Qfloor_resp_le; exact H).
  destruct (Qcompare _ _); [destruct (Z.even _)| |]; lia.
Qed.

Lemma half_ulp : pow2 (-52) == 2 * u53 /\ pow2 (-1074) == 2 * eta /\ pow2 1023 <= pow2 1024.
Proof. repeat split; vm_compute; try reflexivity; discriminate. Qed.

Lemma roundPos_nonneg a : 0 < a -> 0 <= roundPos a.
Proof.
  intros Ha. unfold roundPos. cbv zeta.
  destruct (Qle_bool _ _); [apply Qlt_le_weak, pow2_pos|].
  apply Qmult_le_0_compat; [|apply Qlt_le_weak, pow2_pos].
  rewrite <- (Zle_Qle 0). apply roundEven_nonneg.
  apply Qle_shift_div_l; [apply pow2_pos|lra].
Qed.

(** The rounding error is at most half a unit in the last place: a
    relative 2^-53, or 2^-1075 in the subnormal range. *)
Lemma roundPos_bounds a :
  0 < a ->
  roundPos a <= a + (a * u53 + eta)
  /\ (a - (a * u53 + eta) <= roundPos a \/ pow2 1023 <= roundPos a).
Proof.
  intros Ha. unfold roundPos. cbv zeta.
  set (p := Z.max (ilog2 a - 52) (-1074)).
  pose proof (pow2_pos p) as Pp.
  pose proof (roundEven_err (a / pow2 p)) as [L U].
  set (m := inject_Z (roundEven (a / pow2 p))) in *.
  assert (E : (m - a / pow2 p) * pow2 p == m * pow2 p - a) by (field; lra).
  assert (B : pow2 p <= 2 * (a * u53 + eta)).
  { destruct half_ulp as (H1 & H2 & _).
    pose proof (ilog2_le a Ha) as Hl.
    assert (C : pow2 (ilog2 a - 52) == pow2 (ilog2 a) * pow2 (-52)).
    { replace (ilog2 a - 52)%Z with (ilog2 a + -52)%Z by lia. apply pow2_plus. }
    pose proof (pow2_pos (ilog2 a)) as P1. pose proof (pow2_pos (-1074)) as P2.
    assert (U53 : 0 < u53) by apply pow2_pos.
    assert (M : pow2 (ilog2 a) * (2 * u53) <= a * (2 * u53)).
    { apply Qmult_le_compat_r; lra. }
    unfold p. destruct (Z.max_spec (ilog2 a - 52) (-1074)) as [[_ ->]|[_ ->]].
    - rewrite H2. assert (0 <= a * u53) by (apply Qmult_le_0_compat; lra). lra.
    - rewrite C, H1. assert (0 < eta) by apply pow2_pos. lra. }
  assert (L' : - (1 # 2) * pow2 p <= m * pow2 p - a).
  { rewrite <- E. apply Qmult_le_compat_r; lra. }
  assert (U' : m * pow2 p - a <= (1 # 2) * pow2 p).
  { rewrite <- E. apply Qmult_le_compat_r; lra. }
  destruct half_ulp as (_ & _ & H3).
  destruct (Qle_bool (pow2 1024) (m * pow2 p)) eqn:O.
  - apply Qle_bool_iff in O. split; [lra|right; exact H3].
  - split; [lra|left; lra].
Qed.

Lemma double_pos q : 0 < q -> double q == roundPos q.
Proof.
  intros H. unfold double. rewrite Qred_correct.
  destruct (Qcompare_spec q 0); [lra|lra|reflexivity].
Qed.

Lemma double_neg q : q < 0 -> double q == - roundPos (- q).
Proof.
  intros H. unfold double. rewrite Qred_correct.
  destruct (Qcompare_spec q 0); [lra|reflexivity|lra].
Qed.

Lemma double_zero q : q == 0 -> double q == 0.
Proof.
  intros H. unfold double. rewrite Qred_correct.
  destruct (Qcompare_spec q 0); [reflexivity|lra|lra].
Qed.

Lemma double_nonneg q : 0 <= q -> 0 <= double q.
Proof.
  intros H. destruct (Qlt_le_dec 0 q) as [P|P].
  - rewrite (double_pos q P). apply roundPos_nonneg, P.
  - rewrite (double_zero q) by lra. lra.
Qed.

Lemma double_nonpos q : q <= 0 -> double q <= 0.
Proof.
  intros H. destruct (Qlt_le_dec q 0) as [P|P].
  - rewrite (double_neg q P). assert (0 <= roundPos (- q)) by (apply roundPos_nonneg; lra). lra.
  - rewrite (double_zero q) by lra. lra.
Qed.

Lemma double_upper q : 0 < q -> double q <= q + (q * u53 + eta).
Proof. intros H. rewrite (double_pos q H). apply roundPos_bounds, H. Qed.

Lemma double_lower q :
  0 < q -> q - (q * u53 + eta) <= double q \/ pow2 1023 <= double q.
Proof. intros H. rewrite (double_pos q H). apply roundPos_bounds, H. Qed.

Lemma double_abs q : Qabs (double q) <= Qabs q + (Qabs q * u53 + eta).
Proof.
  assert (E0 : 0 < eta) by apply pow2_pos.
  assert (U0 : 0 < u53) by apply pow2_pos.
  destruct (Qlt_le_dec 0 q) as [P|P].
  - pose proof (double_nonneg q (Qlt_le_weak _ _ P)). pose proof (double_upper q P).
    rewrite (Qabs_pos q), (Qabs_pos (double q)) by lra. lra.
  - destruct (Qlt_le_dec q 0) as [N|N].
    + assert (Pm : 0 < - q) by lra.
      pose proof (roundPos_nonneg (- q) Pm). destruct (roundPos_bounds (- q) Pm) as [Ub _].
      rewrite (double_neg q N). rewrite (Qabs_neg q) by lra.
      rewrite Qabs_neg by lra. lra.
    + assert (Z0 : q == 0) by lra.
      rewrite (double_zero q Z0), Z0. change (Qabs 0) with 0. lra.
Qed.

(** [double] against the floating-point unit: five hundred quotients,
    differences and sums, and the quotients of small integers. *)
Lemma double_agrees_with_the_machine :
  agreesOn 500 12345 67891 = true
  /\ forallb (fun n => forallb (fun d => agreesAt (Z.of_nat n) (Z.of_nat d)) (seq 1 40))
             (seq 1 40) = true.
Proof. split; vm_compute; reflexivity. Qed.

(** ** Arithmetic of the drag controller *)

(** The doubles the code writes as [0.05], [1 - 0.05] and [0.001]. *)
Lemma constants :
  MIN_HEIGHT_PERCENTAGE = 3602879701896397 # 72057594037927936
  /\ fsub 1 MIN_HEIGHT_PERCENTAGE = 4278419646001971 # 4503599627370496
  /\ double (1 # 1000) = 1152921504606847 # 1152921504606846976
  /\ u53 == 1 # 9007199254740992
  /\ 0 < eta /\ eta <= 1 # 1152921504606846976
  /\ 2 <= pow2 1023.
Proof.
  split; [vm_compute; reflexivity|]. split; [vm_compute; reflexivity|].
  split; [vm_compute; reflexivity|]. split; [vm_compute; reflexivity|].
  split; [apply pow2_pos|]. split; vm_compute; discriminate.
Qed.

(** The two clamped fractions add up to one, up to the rounding of
    [1 - x]. *)
Lemma clamped_sum x :
  let a := clampFraction x in
  let b := clampFraction (fsub 1 x) in
  MIN_HEIGHT_PERCENTAGE <= a <= fsub 1 MIN_HEIGHT_PERCENTAGE
  /\ MIN_HEIGHT_PERCENTAGE <= b <= fsub 1 MIN_HEIGHT_PERCENTAGE
  /\ - (1 # 1125899906842624) <= a + b - 1 <= 1 # 1125899906842624.
Proof.
  cbv zeta. unfold clampFraction, Math_max, Math_min.
  destruct constants as (-> & -> & _ & U & E0 & E1 & Big).
  set (lo := 3602879701896397 # 72057594037927936).
  set (hi := 4278419646001971 # 4503599627370496).
  change (fsub 1 x) with (double (1 - x)).
  assert (F1 : 0 < 1 - x -> double (1 - x) <= (1 - x) + ((1 - x) * u53 + eta))
    by apply double_upper.
  assert (F2 : 0 < 1 - x -> (1 - x) - ((1 - x) * u53 + eta) <= double (1 - x)
                            \/ pow2 1023 <= double (1 - x)) by apply double_lower.
  assert (F3 : 1 - x <= 0 -> double (1 - x) <= 0) by apply double_nonpos.
  generalize dependent (double (1 - x)). intros b0 F1 F2 F3.
  generalize dependent (pow2 1023). intros big Big F2.
  generalize dependent eta. intros eta E0 E1 F1 F2.
  rewrite U in F1, F2. clear U.
  destruct (Q.max_spec lo (Qmin hi x)) as [[A1 A2]|[A1 A2]];
    destruct (Q.min_spec hi x) as [[A3 A4]|[A3 A4]];
    destruct (Q.max_spec lo (Qmin hi b0)) as [[B1 B2]|[B1 B2]];
    destruct (Q.min_spec hi b0) as [[B3 B4]|[B3 B4]];
    rewrite A2, B2; rewrite ?A4, ?B4; rewrite ?A4 in A1; rewrite ?B4 in B1;
    subst lo hi;
    (destruct (Qlt_le_dec 0 (1 - x)) as [P|P];
     [specialize (F1 P); destruct (F2 P) as [F2'|F2']|specialize (F3 P)]);
    repeat split; lra.
Qed.

(** In the doubles of the code the redistribution branch is never taken:
    the pair before [toFixed] is the two clamped fractions. *)
Lemma dragProportions_clamped clientY sidebarTop total :
  let x := fdiv (fsub clientY sidebarTop) total in
  dragProportions clientY sidebarTop total = (clampFraction x, clampFraction (fsub 1 x)).
Proof.
  cbv zeta. unfold dragProportions. cbv zeta.
  set (x := fdiv (fsub clientY sidebarTop) total).
  fold (clampFraction x). fold (clampFraction (fsub 1 x)).
  destruct (clamped_sum x) as (Ha & Hb & Hs). cbv zeta in Ha, Hb, Hs.
  set (a := clampFraction x) in *. set (b := clampFraction (fsub 1 x)) in *.
  destruct constants as (Lo & Hi & Th & U & E0 & E1 & Big).
  rewrite Hi, Lo in Ha, Hb. rewrite Th.
  assert (T : Qle_bool (Math_abs (fsub (fadd a b) 1))
                (1152921504606847 # 1152921504606846976) = true).
  { apply Qle_bool_iff. unfold Math_abs, fsub, fadd.
    assert (Pab : 0 < a + b) by lra.
    pose proof (double_upper (a + b) Pab) as S1.
    pose proof (double_lower (a + b) Pab) as S2.
    pose proof (double_abs (double (a + b) - 1)) as D.
    rewrite U in S1, S2, D.
    generalize dependent (double (double (a + b) - 1)). intros d D.
    generalize dependent (double (a + b)). intros s S1 S2 D.
    generalize dependent (pow2 1023). intros big Big S2.
    generalize dependent eta. intros eta E0 E1 S1 D S2.
    assert (Q1 : - (1 # 562949953421312) <= s - 1 <= 1 # 562949953421312).
    { destruct S2 as [S2|S2]; split; lra. }
    assert (Q2 : Qabs (s - 1) <= 1 # 562949953421312)
      by (apply Qabs_Qle_condition; lra).
    assert (Q3 : 0 <= Qabs (s - 1)) by apply Qabs_nonneg.
    generalize dependent (Qabs (s - 1)). intros r D Q2 Q3. lra. }
  rewrite T. reflexivity.
Qed.

Lemma thousandths_checked :
  forallb thousandthOK (map Z.of_nat (seq 50 901)) = true.
Proof. vm_compute. reflexivity. Qed.

(** The doubles nearest to 0.050, 0.051, ..., 0.950 lie in [0.05, 0.95],
    each within 2^-54 of its decimal. *)
Lemma thousandths k :
  (50 <= k <= 950)%Z ->
  5 # 100 <= double (k # 1000) <= 95 # 100
  /\ Qabs (double (k # 1000) - (k # 1000)) <= 1 # 18014398509481984.
Proof.
  intros Hk. pose proof thousandths_checked as H.
  rewrite forallb_forall in H. specialize (H k).
  assert (Hin : In k (map Z.of_nat (seq 50 901))).
  { apply in_map_iff. exists (Z.to_nat k). split; [lia|]. apply in_seq. lia. }
  specialize (H Hin). unfold thousandthOK in H.
  apply andb_prop in H as [H H3]. apply andb_prop in H as [H1 H2].
  rewrite Qle_bool_iff in H1, H2, H3. auto.
Qed.

Lemma toFixed3_clamped a :
  MIN_HEIGHT_PERCENTAGE <= a <= fsub 1 MIN_HEIGHT_PERCENTAGE ->
  exists k, toFixed3 a = double (k # 1000) /\ (50 <= k <= 950)%Z
            /\ inject_Z k <= a * 1000 + (1 # 2) < inject_Z k + 1.
Proof.
  destruct constants as (Lo & Hi & _). rewrite Hi, Lo. intros [Hl Hu].
  exists (Qfloor (a * 1000 + (1 # 2))). unfold toFixed3.
  assert (E1 : Qle_bool (1000000000000000000000 # 1) (Qabs a) = false).
  { apply not_true_iff_false. rewrite Qle_bool_iff. rewrite Qabs_pos by lra. lra. }
  assert (E2 : Qle_bool 0 a = true) by (apply Qle_bool_iff; lra).
  rewrite E1, E2. split; [reflexivity|].
  pose proof (Qfloor_le (a * 1000 + (1 # 2))) as L.
  pose proof (Qlt_floor (a * 1000 + (1 # 2))) as U.
  rewrite inject_Z_plus in U. change (inject_Z 1) with 1 in U.
  split; [|split; assumption].
  split.
  - change 50%Z with (Qfloor (inject_Z 50)). apply Qfloor_resp_le.
    change (inject_Z 50) with (50 # 1). lra.
  - change 950%Z with (Qfloor (1901 # 2)). apply Qfloor_resp_le. lra.
Qed.

(** What a pointer-move stores, from the fraction [x] the pointer is at:
    two whole numbers of thousandths that add up to 999, 1000 or 1001. *)
Lemma stored_pair x :
  let a := toFixed3 (clampFraction x) in
  let b := toFixed3 (clampFraction (fsub 1 x)) in
  exists k1 k2 : Z,
    a = double (k1 # 1000) /\ b = double (k2 # 1000)
    /\ (50 <= k1 <= 950)%Z /\ (50 <= k2 <= 950)%Z /\ (999 <= k1 + k2 <= 1001)%Z.
Proof.
  cbv zeta. destruct (clamped_sum x) as (Ha & Hb & Hs). cbv zeta in Ha, Hb, Hs.
  destruct (toFixed3_clamped _ Ha) as (k1 & E1 & R1 & L1 & U1).
  destruct (toFixed3_clamped _ Hb) as (k2 & E2 & R2 & L2 & U2).
  exists k1, k2. repeat split; try assumption; try lia.
  - assert (S : 998 < inject_Z (k1 + k2)) by (rewrite inject_Z_plus; lra).
    change 998 with (inject_Z 998) in S. rewrite <- Zlt_Qlt in S. lia.
  - assert (S : inject_Z (k1 + k2) < 1002) by (rewrite inject_Z_plus; lra).
    change 1002 with (inject_Z 1002) in S. rewrite <- Zlt_Qlt in S. lia.
Qed.

(** ** What the scheduler leaves alone *)

Lemma queueLayoutReapply_untouched st : Untouched st (queueLayoutReapply st).
Proof.
  destruct st as [? ? ? ? ? ? ? afid ? ? ? ? ? ? ? ? ? thr ? ? ? ? ? ? ? ? ? ? ? ? ? ? ? ? ?].
  unfold queueLayoutReapply, requestAnimationFrame, setTimeout, fresh, cancelAnimationFrame.
  destruct afid; cbn; destruct thr; cbn; split; reflexivity.
Qed.

(** ** C5: the pair produced by a pointer-move *)

(** C5, as the code has it.  Whenever a pointer-move is processed (a drag
    is active, the upper region and the boundary marker are there, and
    the available height is positive and finite), each of the two stored
    fractions
    is the double nearest to a whole number of thousandths, both lie in
    [0.05, 0.95], and the two numbers of thousandths add up to 999, 1000
    or 1001: the sum of the stored fractions is within 0.001 of one up
    to the rounding of the two doubles, which is below 2^-53.  This
    holds for every pointer position.  (A height that overflowed to
    [Infinity], under a pointer offset that did too, would store [NaN]
    twice.) *)
Theorem C5_drag_pair_in_bounds (B : Browser) (clientY : Q) (st : State) :
  isDragging st = true ->
  is_Some (sidebarList (document st)) ->
  userIDSection (document st) = true ->
  0 < fsub (r_top (measureUserIDSection B (document st)))
           (r_top (measureSidebarList B (document st))) < pow2 1024 ->
  let st' := onMouseMove B clientY st in
  let upper := sidebarHeightPercentage st' in
  let lower := membersHeightPercentage st' in
  (5 # 100 <= upper <= 95 # 100) /\ (5 # 100 <= lower <= 95 # 100)
  /\ (exists k1 k2 : Z,
        upper = double (k1 # 1000) /\ lower = double (k2 # 1000)
        /\ (999 <= k1 + k2 <= 1001)%Z)
  /\ Qabs (upper + lower - 1) <= (1 # 1000) + (1 # 9007199254740992).
Proof.
  intros Hdrag [sl Hsl] Hsec [Hpos _]. cbv zeta.
  unfold onMouseMove, query_userIDSection. rewrite Hdrag, Hsl, Hsec. cbn [negb].
  set (total := fsub _ _) in *.
  assert (Hle : Qle_bool total 0 = false).
  { apply not_true_iff_false. rewrite Qle_bool_iff. lra. }
  rewrite Hle. rewrite dragProportions_clamped. cbv beta iota zeta.
  set (x := fdiv _ total).
  destruct (stored_pair x) as (k1 & k2 & E1 & E2 & R1 & R2 & S). cbv zeta in E1, E2.
  assert (G : forall p k s',
             sidebarHeightPercentage (BdApi_saveData p k (heightsObject s') s')
             = sidebarHeightPercentage s'
             /\ membersHeightPercentage (BdApi_saveData p k (heightsObject s') s')
                = membersHeightPercentage s').
  { intros p k s'. destruct s'. split; reflexivity. }
  match goal with
  | |- context [BdApi_saveData ?p ?k _ (queueLayoutReapply ?s)] =>
      destruct (queueLayoutReapply_untouched s) as [_ _ _ _ _ Q1 Q2 _ _];
      assert (F1 : sidebarHeightPercentage s = toFixed3 (clampFraction x))
        by (destruct st; reflexivity);
      assert (F2 : membersHeightPercentage s = toFixed3 (clampFraction (fsub 1 x)))
        by (destruct st; reflexivity);
      destruct (G p k (queueLayoutReapply s)) as [G1 G2]
  end.
  rewrite G1, G2, Q1, Q2, F1, F2, E1, E2. clear G G1 G2 Q1 Q2 F1 F2 E1 E2.
  destruct (thousandths k1 R1) as (B1 & D1). destruct (thousandths k2 R2) as (B2 & D2).
  split; [exact B1|]. split; [exact B2|].
  split; [exists k1, k2; auto|].
  apply Qabs_Qle_condition in D1, D2. apply Qabs_Qle_condition.
  assert (K : 999 <= inject_Z k1 + inject_Z k2 <= 1001).
  { rewrite <- inject_Z_plus. change 999 with (inject_Z 999). change 1001 with (inject_Z 1001).
    rewrite <- !Zle_Qle. exact S. }
  assert (X1 : k1 # 1000 == inject_Z k1 * (1 # 1000)).
  { rewrite (Qmake_Qdiv k1 1000). field. }
  assert (X2 : k2 # 1000 == inject_Z k2 * (1 # 1000)).
  { rewrite (Qmake_Qdiv k2 1000). field. }
  clear B1 B2.
  set (q1 := double (k1 # 1000)) in *. set (q2 := double (k2 # 1000)) in *.
  clearbody q1 q2. rewrite X1 in D1. rewrite X2 in D2.
  set (z1 := inject_Z k1) in *. set (z2 := inject_Z k2) in *. clearbody z1 z2.
  split; lra.
Qed.

Lemma C5_witness :
  let st' := onMouseMove demoBrowser 100 draggingState in
  let upper := sidebarHeightPercentage st' in
  let lower := membersHeightPercentage st' in
  (5 # 100 <= upper <= 95 # 100) /\ (5 # 100 <= lower <= 95 # 100)
  /\ (exists k1 k2 : Z,
        upper = double (k1 # 1000) /\ lower = double (k2 # 1000)
        /\ (999 <= k1 + k2 <= 1001)%Z)
  /\ Qabs (upper + lower - 1) <= (1 # 1000) + (1 # 9007199254740992).
Proof.
  apply (C5_drag_pair_in_bounds demoBrowser 100 draggingState).
  - vm_compute. reflexivity.
  - vm_compute. eexists. reflexivity.
  - vm_compute. reflexivity.
  - split; vm_compute; reflexivity.
Defined.

(** The claim as the spec has it, on the doubles the code stores.  In a
    column with 240px to share and the pointer 57px below the top of
    the upper region, a pointer-move is processed and stores 0.237 and
    0.762; the sum of these two doubles is more than 0.001 away from
    one, and so it is by the test of line 759, computed in doubles. *)
Lemma C5_counterexample :
  let st' := onMouseMove shortBrowser 97 draggingState in
  isDragging draggingState = true
  /\ is_Some (sidebarList (document draggingState))
  /\ userIDSection (document draggingState) = true
  /\ fsub (r_top (measureUserIDSection shortBrowser (document draggingState)))
          (r_top (measureSidebarList shortBrowser (document draggingState))) == 240
  /\ sidebarHeightPercentage st' = double (237 # 1000)
  /\ membersHeightPercentage st' = double (762 # 1000)
  /\ ~ Qabs (sidebarHeightPercentage st' + membersHeightPercentage st' - 1) <= 1 # 1000
  /\ Qle_bool (Math_abs (fsub (fadd (sidebarHeightPercentage st')
                                    (membersHeightPercentage st')) 1))
              (double (1 # 1000)) = false.
Proof.
  cbv zeta. split; [vm_compute; reflexivity|]. split; [vm_compute; eexists; reflexivity|].
  split; [vm_compute; reflexivity|]. split; [vm_compute; reflexivity|].
  split; [vm_compute; reflexivity|]. split; [vm_compute; reflexivity|].
  split; [|vm_compute; reflexivity].
  vm_compute. intros H. apply H. reflexivity.
Qed.

(** ** The styling procedures *)

Lemma lookup_setProperty k v (s : Style) j :
  setProperty k v s !! j = if decide (k = j) then Some v else s !! j.
Proof. unfold setProperty. apply lookup_insert. Qed.

Lemma lookup_removeProperty k (s : Style) j :
  removeProperty k s !! j = if decide (k = j) then None else s !! j.
Proof. unfold removeProperty. apply lookup_delete. Qed.

Ltac peel :=
  repeat match goal with
         | |- mkDom _ _ _ = mkDom _ _ _ => f_equal
         | |- mkContainer _ _ _ = mkContainer _ _ _ => f_equal
         | |- mkContent _ _ _ = mkContent _ _ _ => f_equal
         | |- mkSidebarList _ _ = mkSidebarList _ _ => f_equal
         | |- Some _ = Some _ => f_equal
         end.

Ltac style_eq :=
  apply map_eq; intros ?;
  repeat (rewrite lookup_setProperty || rewrite lookup_removeProperty);
  repeat case_decide; simplify_eq; reflexivity.

Ltac destruct_state st d :=
  destruct st as [? ? ? ? ? ? ? ? ? ? ? ? ? ? ? ? ? ? ? ? ? ? d ? ? ? ? ? ? ? ? ? ? ? ?].

Ltac destruct_dom d :=
  destruct d as [[[? ? [[? ? ?]|]]|] [[? [?|]]|] ?].

Lemma applyMovedLayoutStyles_net h1 h2 r st :
  applyMovedLayoutStyles h1 h2 r st = st <| document := movedDom h1 h2 r (document st) |>.
Proof.
  destruct_state st d. destruct_dom d; reflexivity.
Qed.

Lemma updateButtonVisualState_document b st :
  document (updateButtonVisualState b st) = document st.
Proof.
  destruct_state st d. unfold updateButtonVisualState.
  match goal with |- context [if ?c then _ else _] => destruct c end; reflexivity.
Qed.

Lemma document_if_visual (c : bool) b s s' :
  document (if c then updateButtonVisualState b s else s')
  = if c then document s else document s'.
Proof. destruct c; [apply updateButtonVisualState_document|reflexivity]. Qed.

Lemma applyOriginalLayoutStyles_document st :
  document (applyOriginalLayoutStyles st) = originalDom (document st).
Proof.
  unfold applyOriginalLayoutStyles. rewrite document_if_visual.
  destruct_state st d. destruct_dom d;
    unfold query_byId_membersListContainer, query_membersListContainer, originalDom,
      _resetSidebarListStyles, onContentStyle, onContent, onNavStyle, onSidebarStyle, onWrapStyle;
    cbn -[setProperty removeProperty String.eqb];
    repeat match goal with |- context [String.eqb ?a ?b] => destruct (String.eqb a b) end;
    match goal with |- context [if ?c then _ else _] => destruct c end; reflexivity.
Qed.

Lemma movedWrapStyle_idempotent h2 r s :
  movedWrapStyle h2 r (movedWrapStyle h2 r s) = movedWrapStyle h2 r s.
Proof. unfold movedWrapStyle. cbv zeta. style_eq. Qed.

Lemma movedSidebarStyle_idempotent h1 s :
  movedSidebarStyle h1 (movedSidebarStyle h1 s) = movedSidebarStyle h1 s.
Proof. unfold movedSidebarStyle. style_eq. Qed.

Lemma movedContentStyle_idempotent h2 s :
  movedContentStyle h2 (movedContentStyle h2 s) = movedContentStyle h2 s.
Proof. unfold movedContentStyle. cbv zeta. style_eq. Qed.

Lemma setProperty_idempotent k v (s : Style) :
  setProperty k v (setProperty k v s) = setProperty k v s.
Proof. style_eq. Qed.

Lemma movedWrapStyle_roundtrip h2 r s :
  movedWrapStyle h2 r (originalWrapStyle (movedWrapStyle h2 r s)) = movedWrapStyle h2 r s.
Proof. unfold movedWrapStyle, originalWrapStyle. cbv zeta. style_eq. Qed.

Lemma movedSidebarStyle_roundtrip h1 s :
  movedSidebarStyle h1 (releasedSidebarStyle (movedSidebarStyle h1 s)) = movedSidebarStyle h1 s.
Proof. unfold movedSidebarStyle, releasedSidebarStyle. style_eq. Qed.

Lemma movedContentStyle_roundtrip h2 s :
  movedContentStyle h2 (originalContentStyle (movedContentStyle h2 s)) = movedContentStyle h2 s.
Proof. unfold movedContentStyle, originalContentStyle. cbv zeta. style_eq. Qed.

Lemma setProperty_roundtrip k v (s : Style) :
  setProperty k v (removeProperty k (setProperty k v s)) = setProperty k v s.
Proof. style_eq. Qed.

Lemma movedDom_idempotent h1 h2 r d :
  movedDom h1 h2 r (movedDom h1 h2 r d) = movedDom h1 h2 r d.
Proof.
  destruct_dom d; unfold movedDom; cbn -[setProperty]; peel;
    auto using movedWrapStyle_idempotent, movedSidebarStyle_idempotent,
      movedContentStyle_idempotent, setProperty_idempotent.
Qed.

Lemma movedDom_roundtrip h1 h2 r d :
  movedDom h1 h2 r (originalDom (movedDom h1 h2 r d)) = movedDom h1 h2 r d.
Proof.
  destruct_dom d; unfold movedDom, originalDom; cbn -[setProperty removeProperty String.eqb];
    repeat match goal with |- context [String.eqb ?a ?b] => destruct (String.eqb a b) end;
    cbn -[setProperty removeProperty]; peel;
    auto using movedWrapStyle_roundtrip, movedSidebarStyle_roundtrip,
      movedContentStyle_roundtrip, setProperty_roundtrip, movedContentStyle_idempotent.
Qed.

(** ** C7: the MOVED procedure is idempotent *)

(** C7.  Running the MOVED styling procedure a second time with the same
    heights and the same rectangle changes nothing: the whole state, and
    with it every inline property of the container, the upper region,
    its [nav] and the content node, is as after the first run. *)
Theorem C7_moved_styles_idempotent h1 h2 r st :
  applyMovedLayoutStyles h1 h2 r (applyMovedLayoutStyles h1 h2 r st)
  = applyMovedLayoutStyles h1 h2 r st.
Proof.
  rewrite !applyMovedLayoutStyles_net. destruct_state st d. cbn. f_equal.
  apply movedDom_idempotent.
Qed.

(** ** C6: MOVED, ORIGINAL, MOVED *)

Lemma originalWrapStyle_clears s k :
  k ∈ movedContainerProperties -> originalWrapStyle s !! k = None.
Proof.
  intros H. unfold originalWrapStyle. cbv zeta.
  repeat rewrite lookup_removeProperty. repeat case_decide; try reflexivity.
  exfalso. unfold movedContainerProperties in H.
  repeat (apply elem_of_cons in H as [?|H]; [congruence|]). inversion H.
Qed.

Lemma originalContentStyle_clears s k :
  k ∈ movedContentProperties -> originalContentStyle s !! k = None.
Proof.
  intros H. unfold originalContentStyle.
  repeat rewrite lookup_removeProperty. repeat case_decide; try reflexivity.
  exfalso. unfold movedContentProperties in H.
  repeat (apply elem_of_cons in H as [?|H]; [congruence|]). inversion H.
Qed.

Lemma original_clears_container d :
  Forall (fun k => (membersWrap (originalDom d) ≫= fun mw => mw_style mw !! k) = None)
         movedContainerProperties.
Proof.
  apply Forall_forall. intros k Hk.
  destruct_dom d; unfold originalDom; cbn; try reflexivity;
    apply originalWrapStyle_clears; assumption.
Qed.

Lemma original_clears_content d :
  Forall (fun k => (query_byId_membersListContainer (originalDom d)
                      ≫= fun c => mlc_style c !! k) = None)
         movedContentProperties.
Proof.
  apply Forall_forall. intros k Hk.
  destruct_dom d;
    unfold originalDom, query_byId_membersListContainer, query_membersListContainer;
    cbn -[String.eqb]; try reflexivity.
  all: match goal with
       | |- context [String.eqb ?a ?b] =>
           is_var a; destruct (String.eqb a b) eqn:E; cbn -[String.eqb]; rewrite E; cbn
       end; try reflexivity; apply originalContentStyle_clears; assumption.
Qed.

(** C6.  Starting from the MOVED layout, the ORIGINAL procedure followed
    by the MOVED procedure with the same heights and rectangle leaves the
    tree exactly as the first MOVED run left it, so every written pixel
    value agrees (to within any tolerance); in between, none of the
    properties the MOVED procedure writes is left on the container, nor
    on the content node once it carries its id. *)
Theorem C6_moved_original_moved_roundtrip h1 h2 r st :
  let moved := applyMovedLayoutStyles h1 h2 r in
  let reverted := applyOriginalLayoutStyles (moved st) in
  document (moved reverted) = document (moved st)
  /\ Forall (fun k => (membersWrap (document reverted) ≫= fun mw => mw_style mw !! k) = None)
            movedContainerProperties
  /\ Forall (fun k => (query_byId_membersListContainer (document reverted)
                         ≫= fun c => mlc_style c !! k) = None)
            movedContentProperties.
Proof.
  cbv zeta. split.
  - rewrite (applyMovedLayoutStyles_net _ _ _ (applyOriginalLayoutStyles _)).
    transitivity (movedDom h1 h2 r
                    (document (applyOriginalLayoutStyles (applyMovedLayoutStyles h1 h2 r st)))).
    { destruct (applyOriginalLayoutStyles _); reflexivity. }
    rewrite applyOriginalLayoutStyles_document, applyMovedLayoutStyles_net.
    destruct_state st d. cbn. apply movedDom_roundtrip.
  - rewrite applyOriginalLayoutStyles_document.
    split; [apply original_clears_container | apply original_clears_content].
Qed.

(** ** The reconciliation pass on a host that does not raise *)

Section QuietHost.

Context (B : Browser).
Hypothesis quiet : forall site d, raises B site d = None.

Lemma touch_quiet site st : touch B site st = Ret tt st.
Proof. unfold touch. rewrite quiet. reflexivity. Qed.

Lemma bind_touch {A} site (k : unit -> M A) st : bind (touch B site) k st = k tt st.
Proof. unfold bind. rewrite touch_quiet. reflexivity. Qed.

Lemma bind_get {A} (k : State -> M A) st : bind get k st = k st st.
Proof. reflexivity. Qed.

Lemma bind_modify {A} f (k : unit -> M A) st : bind (modify f) k st = k tt (f st).
Proof. reflexivity. Qed.

Lemma movedBranch_quiet st :
  0 < availableHeight B (document st) ->
  movedBranch B st = Ret true (afterMoved B st).
Proof.
  intros Hpos. unfold movedBranch.
  rewrite bind_touch, bind_get. cbv beta zeta.
  fold (availableHeight B (document st)).
  assert (E : Qle_bool (availableHeight B (document st)) 0 = false).
  { apply not_true_iff_false. rewrite Qle_bool_iff.
    generalize dependent (availableHeight B (document st)). intros. lra. }
  rewrite E.
  rewrite bind_touch, bind_modify, bind_touch, bind_get. cbv beta zeta.
  rewrite bind_modify, bind_touch, !bind_modify.
  unfold afterMoved, ret. cbv beta zeta. reflexivity.
Qed.

Lemma updateVisuals_quiet st :
  updateVisuals B st = Ret tt (updateButtonVisualState (truthy (isMoved st)) st).
Proof. unfold updateVisuals. rewrite bind_touch. reflexivity. Qed.

(** A MOVED pass that finds its nodes and a positive height runs to its
    end. *)
Lemma pass_moved_quiet st :
  is_Some (membersWrap (document st)) ->
  is_Some (sidebarList (document st)) ->
  userIDSection (document st) = true ->
  truthy (isMoved (prepared st)) = true ->
  0 < availableHeight B (document (prepared st)) ->
  applyCurrentLayoutState B st =
  Ret tt (updateButtonVisualState (truthy (isMoved (afterMoved B (prepared st))))
            (afterMoved B (prepared st))).
Proof.
  intros [mw Hmw] [sl Hsl] Hsec Hmoved Hpos.
  unfold applyCurrentLayoutState, try_catch, applyCurrentLayoutState_body.
  rewrite bind_touch, bind_get. cbv beta.
  unfold query_userIDSection. rewrite Hmw, Hsl, Hsec. cbn [negb].
  rewrite !bind_modify, bind_get. fold (prepared st). rewrite Hmoved.
  unfold bind at 1. rewrite (movedBranch_quiet _ Hpos).
  rewrite updateVisuals_quiet. reflexivity.
Qed.

End QuietHost.

(** The fields the preparation step of the pass leaves alone. *)
Lemma prepared_fields st :
  isMoved (prepared st) = isMoved st
  /\ sidebarHeightPercentage (prepared st) = sidebarHeightPercentage st
  /\ membersHeightPercentage (prepared st) = membersHeightPercentage st
  /\ sidebarList (document (prepared st)) = sidebarList (document st).
Proof.
  destruct_state st d. destruct_dom d; unfold prepared, tagContent, onContent, addMoveButton;
    cbn; repeat (match goal with |- context [if ?c then _ else _] => destruct c end; cbn);
    repeat case_match; auto.
Qed.

Lemma placeMoved_document st : document (placeMoved st) = document st.
Proof. destruct_state st d. destruct_dom d; reflexivity. Qed.

Lemma addResizeListener_document st : document (addResizeListener st) = document st.
Proof. destruct_state st d. unfold addResizeListener. cbn. case_match; reflexivity. Qed.

(** The tree a completed MOVED branch leaves behind. *)
Lemma afterMoved_document B st :
  let avail := availableHeight B (document st) in
  let h1 := avail * sidebarHeightPercentage st in
  let h2 := avail * membersHeightPercentage st in
  let st1 := onSidebarStyle (setProperty "height" (Px h1)) st in
  document (afterMoved B st)
  = movedDom h1 h2 (measureSidebarList B (document st1)) (document st1).
Proof.
  cbv zeta. unfold afterMoved. cbv zeta.
  rewrite addResizeListener_document, placeMoved_document, applyMovedLayoutStyles_net.
  destruct (onSidebarStyle _ st). reflexivity.
Qed.

Lemma prepared_presence st : presence (document (prepared st)) = presence (document st).
Proof.
  destruct_state st d. destruct_dom d; unfold prepared, tagContent, onContent, addMoveButton;
    cbn; repeat (match goal with |- context [if ?c then _ else _] => destruct c end; cbn);
    repeat case_match; reflexivity.
Qed.

Lemma onSidebarStyle_presence f st :
  presence (document (onSidebarStyle f st)) = presence (document st).
Proof. destruct_state st d. destruct_dom d; reflexivity. Qed.

Lemma movedDom_heights h1 h2 r d :
  sidebarProp "height" (movedDom h1 h2 r d) = (fun _ => Px h1) <$> sidebarList d
  /\ wrapProp "height" (movedDom h1 h2 r d) = (fun _ => Px h2) <$> membersWrap d
  /\ contentProp "height" (movedDom h1 h2 r d)
     = (fun _ => Px (Math_max 0 (h2 - OUR_UI_HEIGHT_PX))) <$> query_membersListContainer d.
Proof.
  destruct_dom d;
    unfold sidebarProp, wrapProp, contentProp, query_membersListContainer, movedDom,
      movedWrapStyle, movedSidebarStyle, movedContentStyle;
    cbn -[setProperty removeProperty]; repeat split; try reflexivity;
    repeat (rewrite lookup_setProperty || rewrite lookup_removeProperty);
    repeat case_decide; simplify_eq; reflexivity.
Qed.

Lemma presence_inv d d' :
  presence d' = presence d ->
  (is_Some (membersWrap d) -> is_Some (membersWrap d'))
  /\ (is_Some (query_membersListContainer d) -> is_Some (query_membersListContainer d'))
  /\ (is_Some (sidebarList d) -> is_Some (sidebarList d')).
Proof.
  unfold presence. intros H. injection H as E1 E2 E3 _.
  repeat split; intros Hs.
  - apply (bool_decide_unpack _). rewrite E1. apply bool_decide_pack. exact Hs.
  - apply (bool_decide_unpack _). rewrite E2. apply bool_decide_pack. exact Hs.
  - apply (bool_decide_unpack _). rewrite E3. apply bool_decide_pack. exact Hs.
Qed.

(** ** C4: geometry resolution *)

(** C4, as the code has it.  On a MOVED pass that finds its four nodes and
    a positive available height, the upper region gets the height
    [availableHeight * upperFraction], the container
    [availableHeight * lowerFraction], and the content node
    [max(0, lowerTotalHeight - OUR_UI_HEIGHT_PX)], where the reservation
    [OUR_UI_HEIGHT_PX] is 16 + 8 = 24 pixels; for 600px and fractions
    0.5/0.5 these are 300px, 300px and 276px. *)
Theorem C4_geometry_resolution (B : Browser) (st : State) :
  (forall site d, raises B site d = None) ->
  is_Some (membersWrap (document st)) ->
  is_Some (query_membersListContainer (document st)) ->
  is_Some (sidebarList (document st)) ->
  userIDSection (document st) = true ->
  truthy (isMoved st) = true ->
  let availableHeight := availableHeight B (document (prepared st)) in
  0 < availableHeight ->
  let upperHeight := availableHeight * sidebarHeightPercentage st in
  let lowerTotalHeight := availableHeight * membersHeightPercentage st in
  let contentHeight := Math_max 0 (lowerTotalHeight - OUR_UI_HEIGHT_PX) in
  let d' := document (finalState (applyCurrentLayoutState B st)) in
  sidebarProp "height" d' = Some (Px upperHeight)
  /\ wrapProp "height" d' = Some (Px lowerTotalHeight)
  /\ contentProp "height" d' = Some (Px contentHeight)
  /\ OUR_UI_HEIGHT_PX == 24
  /\ (availableHeight == 600 -> sidebarHeightPercentage st == 1 # 2 ->
      membersHeightPercentage st == 1 # 2 ->
      upperHeight == 300 /\ lowerTotalHeight == 300 /\ contentHeight == 276).
Proof.
  intros quiet Hmw Hc Hsl Hsec Hmoved avail Hpos. cbv zeta.
  destruct (prepared_fields st) as (Hm & Hu & Hl & _).
  rewrite (pass_moved_quiet B quiet st Hmw Hsl Hsec) by (rewrite ?Hm; assumption).
  cbn [finalState]. rewrite updateButtonVisualState_document.
  pose proof (afterMoved_document B (prepared st)) as Hd. cbv zeta in Hd. rewrite Hd. clear Hd.
  rewrite Hu, Hl. fold avail.
  set (st1 := onSidebarStyle _ (prepared st)).
  assert (Hp : presence (document st1) = presence (document st)).
  { unfold st1. rewrite onSidebarStyle_presence. apply prepared_presence. }
  destruct (presence_inv _ _ Hp) as (P1 & P2 & P3).
  destruct (P1 Hmw) as [mw' Emw]. destruct (P2 Hc) as [c' Ec]. destruct (P3 Hsl) as [sl' Esl].
  destruct (movedDom_heights (avail * sidebarHeightPercentage st)
              (avail * membersHeightPercentage st)
              (measureSidebarList B (document st1)) (document st1)) as (H1 & H2 & H3).
  rewrite H1, H2, H3, Emw, Ec, Esl. cbn [fmap option_fmap option_map].
  do 4 (split; [reflexivity|]).
  intros Ea Eu El. unfold Math_max. rewrite Ea, Eu, El.
  repeat split; reflexivity.
Qed.

Lemma C4_witness :
  let d' := document (finalState (applyCurrentLayoutState demoBrowser movedState)) in
  sidebarProp "height" d' = Some (Px (600 * (5 # 10)))
  /\ wrapProp "height" d' = Some (Px (600 * (5 # 10)))
  /\ contentProp "height" d' = Some (Px (Math_max 0 (600 * (5 # 10) - OUR_UI_HEIGHT_PX))).
Proof.
  pose proof (C4_geometry_resolution demoBrowser movedState) as H.
  cbv zeta in H.
  destruct H as (H1 & H2 & H3 & _).
  - intros site d. reflexivity.
  - vm_compute. eexists. reflexivity.
  - vm_compute. eexists. reflexivity.
  - vm_compute. eexists. reflexivity.
  - vm_compute. reflexivity.
  - vm_compute. reflexivity.
  - vm_compute. reflexivity.
  - cbv zeta. vm_compute. vm_compute in H1, H2, H3. auto.
Defined.

(** The scenario of the spec, with the 16-pixel reservation it assumes:
    the content node does not get 284 pixels. *)
Lemma C4_counterexample :
  availableHeight demoBrowser (document movedState) == 600
  /\ sidebarHeightPercentage movedState == 1 # 2
  /\ membersHeightPercentage movedState == 1 # 2
  /\ exists h,
       contentProp "height" (document (finalState (applyCurrentLayoutState demoBrowser movedState)))
       = Some (Px h)
       /\ h == 276 /\ ~ h == 284.
Proof.
  split; [vm_compute; reflexivity|]. split; [vm_compute; reflexivity|].
  split; [vm_compute; reflexivity|].
  eexists. split; [vm_compute; reflexivity|].
  split; [vm_compute; reflexivity | vm_compute; discriminate].
Qed.

(** ** C9: an exception in the pass *)

Lemma pass_returns_as_body B st a st' :
  applyCurrentLayoutState_body B st = Ret a st' ->
  applyCurrentLayoutState B st = Ret a st'.
Proof. intros H. unfold applyCurrentLayoutState, try_catch. rewrite H. reflexivity. Qed.

(** C9.  When the body of the pass raises [e], the pass raises the same
    [e] to its caller, whose continuation is skipped; the state is the one
    the body was in when it raised, with the report added to the error
    console when error output is switched on. *)
Theorem C9_pass_rethrows (B : Browser) (st st' : State) (e : Error) :
  applyCurrentLayoutState_body B st = Throw e st' ->
  let reported := _error "CRITICAL ERROR in applyCurrentLayoutState:" e st' in
  applyCurrentLayoutState B st = Throw e reported
  /\ (forall (A : Type) (k : unit -> M A),
        bind (applyCurrentLayoutState B) k st = Throw e reported)
  /\ (consoleErrors st' || masterLogs st' = true ->
      consoleError reported
      = consoleError st'
        ++ [("CRITICAL ERROR in applyCurrentLayoutState:"%string, message e, stack e)]).
Proof.
  intros H. cbv zeta.
  assert (E : applyCurrentLayoutState B st
              = Throw e (_error "CRITICAL ERROR in applyCurrentLayoutState:" e st')).
  { unfold applyCurrentLayoutState, try_catch. rewrite H. reflexivity. }
  split; [exact E|]. split.
  - intros A k. unfold bind. rewrite E. reflexivity.
  - intros Hon. unfold _error.
    destruct (consoleErrors st'), (masterLogs st'); try discriminate;
      cbn [negb andb]; destruct_state st' d; reflexivity.
Qed.

Lemma C9_witness :
  let st' := finalState (applyCurrentLayoutState_body brokenBrowser loudState) in
  applyCurrentLayoutState brokenBrowser loudState
  = Throw domError (_error "CRITICAL ERROR in applyCurrentLayoutState:" domError st')
  /\ consoleError (finalState (applyCurrentLayoutState brokenBrowser loudState))
     = [("CRITICAL ERROR in applyCurrentLayoutState:"%string,
         "HierarchyRequestError"%string, "at applyCurrentLayoutState"%string)].
Proof.
  cbv zeta.
  destruct (C9_pass_rethrows brokenBrowser loudState
              (finalState (applyCurrentLayoutState_body brokenBrowser loudState)) domError)
    as (H1 & _ & H3).
  - vm_compute. reflexivity.
  - split; [exact H1|]. rewrite H1. cbn [finalState]. rewrite H3 by (vm_compute; reflexivity).
    vm_compute. reflexivity.
Defined.

(** ** C1: what a pointer-move persists *)

(** A processed pointer-move writes one entry of the store: the one of
    the mode flag. *)
Lemma onMouseMove_storage B clientY st :
  isDragging st = true ->
  is_Some (sidebarList (document st)) ->
  userIDSection (document st) = true ->
  0 < fsub (r_top (measureUserIDSection B (document st)))
           (r_top (measureSidebarList B (document st))) ->
  let st' := onMouseMove B clientY st in
  storage st' = <[(pluginId, dataKey) := heightsObject st']> (storage st).
Proof.
  intros Hdrag [sl Hsl] Hsec Hpos. cbv zeta.
  unfold onMouseMove, query_userIDSection. rewrite Hdrag, Hsl, Hsec. cbn [negb].
  set (total := fsub _ _) in *.
  assert (Hle : Qle_bool total 0 = false).
  { apply not_true_iff_false. rewrite Qle_bool_iff. lra. }
  rewrite Hle. destruct (dragProportions _ _ _) as [a b].
  match goal with
  | |- context [BdApi_saveData _ _ _ (queueLayoutReapply ?s)] =>
      destruct (queueLayoutReapply_untouched s) as [_ _ _ _ _ _ _ E _]
  end.
  unfold BdApi_saveData. destruct (queueLayoutReapply _). destruct_state st d.
  cbn in E |- *. rewrite E. reflexivity.
Qed.

(** The toggle button, for comparison, saves the pair under the heights
    key. *)
Lemma onclick_storage st :
  let st' := onclick st in
  storage st' !! (pluginId, heightsDataKey) = Some (heightsObject st).
Proof.
  cbv zeta. unfold onclick.
  match goal with
  | |- context [queueLayoutReapply ?s] =>
      destruct (queueLayoutReapply_untouched s) as [_ _ _ _ _ _ _ E _]
  end.
  rewrite E. unfold BdApi_saveData, heightsObject. destruct_state st d. cbn.
  apply lookup_insert_eq.
Qed.

(** C1, where the code departs from it.  After a drag to y = 100 on the
    demo page the fractions are 0.1/0.9, but the heights key still holds
    the pair 0.5/0.5 saved by the last click, and the dragged pair sits
    under the key of the mode flag. *)
Theorem C1_drag_saves_under_mode_key :
  let st' := onMouseMove demoBrowser 100 clickedState in
  heightsObject st' = draggedPair
  /\ BdApi_loadData pluginId heightsDataKey clickedState = halfPair
  /\ BdApi_loadData pluginId heightsDataKey st' = halfPair
  /\ BdApi_loadData pluginId dataKey clickedState = JBool true
  /\ BdApi_loadData pluginId dataKey st' = draggedPair.
Proof. vm_compute. repeat split; reflexivity. Qed.

(** ** C2: requests inside one cooldown window *)

(** A request that arrives while throttling cancels the frame the first
    request scheduled, and schedules none. *)
Lemma queueLayoutReapply_while_throttling st id :
  isThrottling st = true ->
  animationFrameId st = Some id ->
  let st' := queueLayoutReapply st in
  frames st' = dropId id (frames st)
  /\ animationFrameId st' = None
  /\ pendingThrottleCall st' = true
  /\ timers st' = timers st.
Proof.
  intros Ht Hf. destruct_state st d. cbn in Ht, Hf. subst.
  unfold queueLayoutReapply, cancelAnimationFrame. cbn. auto.
Qed.

(** C2, where the code departs from it.  Two requests, then a frame, then
    the rest of the 100ms window: the pass has not run at all; it runs
    once, as the trailing execution, on the first frame after the
    cooldown. *)
Theorem C2_second_request_cancels_frame :
  let two := fst (run demoBrowser [Request; Request] movedState) in
  let window := [Request; Request; AnimationFrame] ++ repeat Tick 99 in
  let beyond := window ++ [Tick; AnimationFrame] in
  frames (fst (run demoBrowser [Request] movedState)) = [3%nat]
  /\ frames two = []
  /\ pendingThrottleCall two = true
  /\ executions (snd (run demoBrowser window movedState)) = 0%nat
  /\ executions (snd (run demoBrowser beyond movedState)) = 1%nat
  /\ executions (snd (run demoBrowser ([Request; AnimationFrame; Request] ++ repeat Tick 99)
                        movedState)) = 1%nat.
Proof. vm_compute. repeat split; reflexivity. Qed.

(** ** C3: calling [start] twice *)

(** C3, where the code departs from it.  Each [start] opens a new audit
    interval and remembers only the last one; after two calls two are
    running, and [stop] closes one of them.  The observer, by contrast,
    is replaced. *)
Theorem C3_second_start_leaks_interval :
  let once := finalState (start demoBrowser freshState) in
  let twice := finalState (start demoBrowser once) in
  intervals once = [2%nat]
  /\ intervals (stop once) = []
  /\ intervals twice = [2%nat; 4%nat]
  /\ failsafeIntervalId twice = Some 4%nat
  /\ intervals (stop twice) = [2%nat]
  /\ observers once = [1%nat]
  /\ observers twice = [3%nat]
  /\ observers (stop twice) = [].
Proof. vm_compute. repeat split; reflexivity. Qed.

(** ** Runs that differ in the raw value of the flag *)

Ltac split_vars :=
  repeat (match goal with
          | |- context [match ?x with _ => _ end] => is_var x; destruct x
          | |- context [if ?c then _ else _] => destruct c
          end; cbn).

Ltac blind :=
  let s := fresh "s" in let d := fresh "d" in
  intros ? ? s; destruct_state s d; destruct_dom d; unfold repaint; cbn;
  split_vars; reflexivity.

Lemma blind_tagContent : Blind tagContent.
Proof. blind. Qed.

Lemma blind_addMoveButton : Blind addMoveButton.
Proof. unfold addMoveButton, tagContent, onContent. blind. Qed.

Lemma blind_prepare : Blind (fun st => if needsUi st then addMoveButton st else st).
Proof.
  intros i m s. rewrite blind_addMoveButton.
  destruct_state s d. unfold repaint, needsUi. cbn. split_vars; reflexivity.
Qed.

Lemma blind_onSidebarStyle f : Blind (onSidebarStyle f).
Proof. blind. Qed.

Lemma blind_applyMovedLayoutStyles h1 h2 r : Blind (applyMovedLayoutStyles h1 h2 r).
Proof.
  intros i m s. rewrite !applyMovedLayoutStyles_net. destruct_state s d. reflexivity.
Qed.

Lemma blind_placeMoved : Blind placeMoved.
Proof. unfold placeMoved. blind. Qed.

Lemma blind_placeOriginal : Blind placeOriginal.
Proof. unfold placeOriginal, query_membersListContainer. blind. Qed.

Lemma blind_addResizeListener : Blind addResizeListener.
Proof. unfold addResizeListener. blind. Qed.

Lemma blind_removeResizeListener : Blind removeResizeListener.
Proof. unfold removeResizeListener. blind. Qed.

Lemma blind_updateButtonVisualState b : Blind (updateButtonVisualState b).
Proof. unfold updateButtonVisualState. blind. Qed.

Lemma blind_setupObserver : Blind setupObserver.
Proof. unfold setupObserver, observe, disconnect, fresh. blind. Qed.

Lemma blind_error l e : Blind (_error l e).
Proof. unfold _error. blind. Qed.

Lemma view_repaint i i' m m' s :
  truthy i = truthy i' -> view (repaint i m s) = view (repaint i' m' s).
Proof. intros H. destruct_state s d. unfold view, repaint. cbn. rewrite H. reflexivity. Qed.

Lemma repaint_self s : repaint (isMoved s) (storage s) s = s.
Proof. destruct_state s d. reflexivity. Qed.

Lemma repaint_view i m s : repaint i m (view s) = repaint i m s.
Proof. destruct_state s d. reflexivity. Qed.

Lemma repaint_flag i m s : isMoved (repaint i m s) = i.
Proof. destruct_state s d. reflexivity. Qed.

Lemma view_flag s : isMoved (view s) = JBool (truthy (isMoved s)).
Proof. destruct_state s d. reflexivity. Qed.

Lemma repaint_fields i m s :
  document (repaint i m s) = document s
  /\ sidebarHeightPercentage (repaint i m s) = sidebarHeightPercentage s
  /\ membersHeightPercentage (repaint i m s) = membersHeightPercentage s.
Proof. destruct_state s d. auto. Qed.

Lemma sim_repaint s s' :
  view s = view s' ->
  s' = repaint (isMoved s') (storage s') s /\ truthy (isMoved s') = truthy (isMoved s).
Proof.
  intros H. split.
  - rewrite <- (repaint_view _ _ s), H, repaint_view. symmetry. apply repaint_self.
  - apply (f_equal isMoved) in H. rewrite !view_flag in H. congruence.
Qed.

Lemma sim_fields s s' :
  view s = view s' ->
  document s' = document s
  /\ sidebarHeightPercentage s' = sidebarHeightPercentage s
  /\ membersHeightPercentage s' = membersHeightPercentage s
  /\ truthy (isMoved s') = truthy (isMoved s).
Proof.
  intros H. destruct (sim_repaint s s' H) as [E Ht].
  destruct (repaint_fields (isMoved s') (storage s') s) as (H1 & H2 & H3).
  rewrite <- E in H1, H2, H3. auto.
Qed.

Lemma blind_flag f s : Blind f -> isMoved (f s) = isMoved s.
Proof.
  intros Hf. rewrite <- (repaint_self s) at 1. rewrite Hf. apply repaint_flag.
Qed.

Lemma blind_view f s s' : Blind f -> view s = view s' -> view (f s) = view (f s').
Proof.
  intros Hf H. destruct (sim_repaint s s' H) as [E Ht].
  rewrite E, Hf. rewrite <- (repaint_self s) at 1. rewrite Hf.
  apply view_repaint. congruence.
Qed.

Section Flags.

(** The values the flag started from in the two runs. *)
Context (i0 i0' : JsVal).

Local Abbreviation alike := (alikeFrom i0 i0').
Local Abbreviation alikeOutcome := (alikeOutcomeFrom i0 i0').
Local Abbreviation Respects := (RespectsFrom i0 i0').

Lemma respects_ret {A} (a : A) : Respects (ret a).
Proof. intros s s' H. split; auto. Qed.

Lemma respects_throw {A} e : Respects (@throw A e).
Proof. intros s s' H. split; auto. Qed.

Lemma respects_bind {A C} (c : M A) (k : A -> M C) :
  Respects c -> (forall a, Respects (k a)) -> Respects (bind c k).
Proof.
  intros Hc Hk s s' H. unfold bind. specialize (Hc s s' H).
  destruct (c s), (c s'); cbn in Hc; try contradiction; destruct Hc as [-> Hc]; auto.
  - apply Hk. exact Hc.
  - split; auto.
Qed.

Lemma respects_get_bind {A} (k : State -> M A) :
  (forall s s', alike s s' -> alikeOutcome (k s s) (k s' s')) -> Respects (bind get k).
Proof. intros Hk s s' H. apply Hk. exact H. Qed.

Lemma respects_modify f : Blind f -> Respects (modify f).
Proof.
  intros Hf s s' [Hv Hflag]. split; [reflexivity|]. split.
  - apply blind_view; assumption.
  - intros Ht. rewrite !(blind_flag f) by assumption. auto.
Qed.

Lemma respects_touch B site : Respects (touch B site).
Proof.
  intros s s' H. unfold touch.
  destruct (sim_fields s s' (proj1 H)) as (-> & _).
  destruct (raises B site (document s)); split; auto.
Qed.

Ltac resume s s' H :=
  match goal with
  | |- alikeOutcome (?c s) (?c' s') =>
      unify c c'; cut (Respects c); [intros HC; exact (HC s s' H)|]
  end.

Lemma respects_try_catch {A} (c : M A) h :
  Respects c -> (forall e, Respects (h e)) -> Respects (try_catch c h).
Proof.
  intros Hc Hh s s' H. unfold try_catch. specialize (Hc s s' H).
  destruct (c s), (c s'); cbn in Hc; try contradiction; destruct Hc as [-> Hc].
  - split; auto.
  - apply Hh. exact Hc.
Qed.

Lemma respects_visual_update :
  Respects (modify (fun st => updateButtonVisualState (truthy (isMoved st)) st)).
Proof.
  intros s s' [Hv Hflag]. split; [reflexivity|].
  destruct (sim_fields s s' Hv) as (_ & _ & _ & Ht). rewrite Ht. split.
  - apply blind_view; [apply blind_updateButtonVisualState | assumption].
  - intros H. rewrite !(blind_flag (updateButtonVisualState _))
      by apply blind_updateButtonVisualState. auto.
Qed.

Lemma respects_updateVisuals B : Respects (updateVisuals B).
Proof.
  unfold updateVisuals. apply respects_bind; [apply respects_touch|].
  intros _. apply respects_visual_update.
Qed.

Lemma respects_movedBranch B : Respects (movedBranch B).
Proof.
  unfold movedBranch. apply respects_bind; [apply respects_touch|]. intros _.
  apply respects_get_bind. intros s s' H.
  destruct (sim_fields s s' (proj1 H)) as (-> & -> & -> & _).
  cbv zeta. destruct (Qle_bool _ 0); [apply respects_ret; assumption|].
  resume s s' H.
  apply respects_bind; [apply respects_touch|]. intros _.
  apply respects_bind; [apply respects_modify, blind_onSidebarStyle|]. intros _.
  apply respects_bind; [apply respects_touch|]. intros _.
  apply respects_get_bind. intros s1 s1' H1.
  destruct (sim_fields s1 s1' (proj1 H1)) as (-> & _).
  cbv zeta. resume s1 s1' H1.
  apply respects_bind; [apply respects_modify, blind_applyMovedLayoutStyles|]. intros _.
  apply respects_bind; [apply respects_touch|]. intros _.
  apply respects_bind; [apply respects_modify, blind_placeMoved|]. intros _.
  apply respects_bind; [apply respects_modify, blind_addResizeListener|]. intros _.
  apply respects_ret.
Qed.

Lemma original_view i m s :
  truthy i = truthy (isMoved s) ->
  view (applyOriginalLayoutStyles (repaint i m s)) = view (applyOriginalLayoutStyles s).
Proof.
  intros H. destruct_state s d. destruct_dom d;
    unfold applyOriginalLayoutStyles, updateButtonVisualState, _resetSidebarListStyles,
      query_byId_membersListContainer, query_membersListContainer,
      onContentStyle, onContent, onNavStyle, onSidebarStyle, onWrapStyle, repaint, view;
    cbn -[setProperty removeProperty String.eqb] in H |- *;
    repeat (match goal with
            | |- context [String.eqb ?a ?b] => destruct (String.eqb a b)
            | |- context [if ?c then _ else _] => destruct c
            end; cbn -[setProperty removeProperty String.eqb]);
    rewrite ?H; reflexivity.
Qed.

Lemma respects_applyOriginalLayoutStyles :
  truthy i0 = false -> Respects (modify applyOriginalLayoutStyles).
Proof.
  intros Hi s s' [Hv Hflag]. split; [reflexivity|]. split; [|intros; congruence].
  destruct (sim_repaint s s' Hv) as [E Ht].
  remember (isMoved s') as i eqn:Ei. remember (storage s') as m eqn:Em.
  clear Ei Em Hv Hflag. subst s'. symmetry. apply original_view. exact Ht.
Qed.

Lemma respects_originalBranch B : truthy i0 = false -> Respects (originalBranch B).
Proof.
  intros Hi. unfold originalBranch.
  apply respects_bind; [apply respects_touch|]. intros _.
  apply respects_bind; [apply respects_applyOriginalLayoutStyles; exact Hi|]. intros _.
  apply respects_bind; [apply respects_touch|]. intros _.
  apply respects_bind; [apply respects_modify, blind_placeOriginal|]. intros _.
  apply respects_modify, blind_removeResizeListener.
Qed.

Lemma respects_body B : Respects (applyCurrentLayoutState_body B).
Proof.
  unfold applyCurrentLayoutState_body.
  apply respects_bind; [apply respects_touch|]. intros _.
  apply respects_get_bind. intros s s' H.
  destruct (sim_fields s s' (proj1 H)) as (-> & _).
  destruct (membersWrap (document s)); [|apply respects_ret; assumption].
  destruct (sidebarList (document s)); [|apply respects_ret; assumption].
  destruct (negb (query_userIDSection (document s))); [apply respects_ret; assumption|].
  resume s s' H.
  apply respects_bind; [apply respects_modify, blind_tagContent|]. intros _.
  apply respects_bind; [apply respects_modify, blind_prepare|]. intros _.
  apply respects_get_bind. intros s1 s1' H1.
  destruct (sim_fields s1 s1' (proj1 H1)) as (_ & _ & _ & ->).
  destruct (truthy (isMoved s1)) eqn:Et.
  - resume s1 s1' H1.
    apply respects_bind; [apply respects_movedBranch|].
    intros [|]; [apply respects_updateVisuals | apply respects_ret].
  - assert (Hi : truthy i0 = false).
    { destruct (truthy i0) eqn:Ei; [|reflexivity].
      destruct (proj2 H1 Ei) as [E _]. rewrite E, Ei in Et. discriminate. }
    resume s1 s1' H1.
    apply respects_bind; [apply respects_originalBranch; exact Hi|].
    intros _. apply respects_updateVisuals.
Qed.

Lemma respects_pass B : Respects (applyCurrentLayoutState B).
Proof.
  unfold applyCurrentLayoutState. apply respects_try_catch; [apply respects_body|].
  intros e. apply respects_bind; [apply respects_modify, blind_error|].
  intros _. apply respects_throw.
Qed.

End Flags.

Lemma blind_interval :
  Blind (fun st => let '(id, st) := setInterval st in st <| failsafeIntervalId := Some id |>).
Proof. unfold setInterval, fresh. blind. Qed.

Lemma blind_heights a b :
  Blind (fun st => st <| sidebarHeightPercentage := a |> <| membersHeightPercentage := b |>).
Proof. blind. Qed.

Lemma blind_sidebarHeight a : Blind (fun st => st <| sidebarHeightPercentage := a |>).
Proof. blind. Qed.

Lemma blind_membersHeight b : Blind (fun st => st <| membersHeightPercentage := b |>).
Proof. blind. Qed.

Lemma alikeOutcome_view {A} i0 i0' (o o' : Outcome A) :
  alikeOutcomeFrom i0 i0' o o' ->
  viewOutcome o = viewOutcome o'
  /\ (truthy i0 = true -> isMoved (finalState o) = i0).
Proof.
  destruct o, o'; unfold alikeOutcomeFrom, viewOutcome, finalState; try contradiction;
    intros [-> [Hv Hf]]; (split; [f_equal; exact Hv|]); intros Ht; apply (Hf Ht).
Qed.

(** ** C10: the persisted mode flag *)

Lemma bind_modify_ret {A} f (k : unit -> M A) st :
  bind (bind (modify f) (fun _ => ret tt)) k st = k tt (f st).
Proof. reflexivity. Qed.

(** C10, as the code has it.  [start] assigns whatever non-null value it
    loads to [isMoved], and then converts it to a string for its log
    line.  When that conversion succeeds, [start] does exactly what it
    does when the boolean of the same truthiness is stored: same
    outcome, same state up to the raw value of the flag and the store;
    and a truthy value, boolean or not, is still in the flag when
    [start] is over.  When the conversion raises (an object with a key
    named [toString], or an array that holds one), [start] stops there
    with the TypeError: the value is in the flag and nothing else has
    been done. *)
Theorem C10_flag_loaded_unvalidated (B : Browser) (st : State) (v : JsVal) :
  storage st !! (pluginId, dataKey) = Some v ->
  v <> JNull ->
  let asBoolean := st <| storage ::= insert (pluginId, dataKey) (JBool (truthy v)) |> in
  (toStringRaises v = false ->
   viewOutcome (start B st) = viewOutcome (start B asBoolean)
   /\ (truthy v = true -> isMoved (finalState (start B st)) = v))
  /\ (toStringRaises v = true ->
      start B st = Throw notPrimitive (st <| isMoved := v |>)).
Proof.
  intros Hv Hnn. cbv zeta.
  assert (L1 : BdApi_loadData pluginId dataKey st = v).
  { unfold BdApi_loadData. rewrite Hv. reflexivity. }
  assert (N : isNull v = false) by (destruct v; try reflexivity; contradiction).
  split; intros HR.
  - apply (alikeOutcome_view v (JBool (truthy v))).
    unfold start. rewrite !bind_get. cbv beta zeta.
    assert (L2 : BdApi_loadData pluginId dataKey
                   (st <| storage ::= insert (pluginId, dataKey) (JBool (truthy v)) |>)
                 = JBool (truthy v)).
    { unfold BdApi_loadData. destruct_state st d. cbn. rewrite lookup_insert_eq. reflexivity. }
    assert (L3 : BdApi_loadData pluginId heightsDataKey
                   (st <| storage ::= insert (pluginId, dataKey) (JBool (truthy v)) |>)
                 = BdApi_loadData pluginId heightsDataKey st).
    { unfold BdApi_loadData. destruct_state st d. cbn.
      rewrite lookup_insert_ne by discriminate. reflexivity. }
    rewrite L1, L2, L3, N, HR. cbn [isNull toStringRaises]. rewrite !bind_modify_ret.
    match goal with
    | |- alikeOutcomeFrom _ _ (?c ?s) (?c' ?s') =>
        unify c c'; cut (RespectsFrom v (JBool (truthy v)) c);
        [intros HC; apply HC|]
    end.
    + split.
      * destruct_state st d. unfold view. cbn. reflexivity.
      * intros _. destruct_state st d. auto.
    + apply respects_bind.
      * destruct (_ && _ && _); [|apply respects_ret].
        destruct (getProp _ "sidebar"), (getProp _ "members");
          repeat first
            [ apply respects_throw
            | apply respects_modify; (apply blind_heights || apply blind_sidebarHeight
                                      || apply blind_membersHeight)
            | apply respects_bind; [|intros _] ].
      * intros _. apply respects_bind; [apply respects_modify, blind_setupObserver|].
        intros _. apply respects_bind; [apply respects_pass|].
        intros _. apply respects_modify, blind_interval.
  - unfold start. rewrite bind_get. cbv beta zeta. rewrite L1, N, HR. reflexivity.
Qed.

Lemma C10_witness :
  viewOutcome (start demoBrowser objectFlagState)
  = viewOutcome (start demoBrowser
                   (objectFlagState
                      <| storage ::= insert (pluginId, dataKey) (JBool (truthy draggedPair)) |>))
  /\ (truthy draggedPair = true ->
      isMoved (finalState (start demoBrowser objectFlagState)) = draggedPair).
Proof.
  destruct (C10_flag_loaded_unvalidated demoBrowser objectFlagState draggedPair) as [H _].
  - vm_compute. reflexivity.
  - discriminate.
  - apply H. reflexivity.
Defined.

(** The claim as the spec has it fails for a stored object that has a
    key named [toString]: it is non-null and truthy, yet [start] does
    not behave as with [true] stored.  It raises at its log line, with
    no observer connected, where with [true] it returns with one. *)
Lemma C10_counterexample :
  let asBoolean :=
    opaqueFlagState <| storage ::= insert (pluginId, dataKey) (JBool (truthy opaqueFlag)) |> in
  storage opaqueFlagState !! (pluginId, dataKey) = Some opaqueFlag
  /\ opaqueFlag <> JNull
  /\ truthy opaqueFlag = true
  /\ start demoBrowser opaqueFlagState
     = Throw notPrimitive (opaqueFlagState <| isMoved := opaqueFlag |>)
  /\ observers (finalState (start demoBrowser opaqueFlagState)) = []
  /\ (exists s, start demoBrowser asBoolean = Ret tt s /\ observers s = [1%nat])
  /\ viewOutcome (start demoBrowser opaqueFlagState) <> viewOutcome (start demoBrowser asBoolean).
Proof.
  cbv zeta. split; [vm_compute; reflexivity|]. split; [discriminate|].
  split; [reflexivity|]. split; [vm_compute; reflexivity|]. split; [vm_compute; reflexivity|].
  split; [eexists; split; vm_compute; reflexivity|].
  intros H. vm_compute in H. discriminate.
Qed.

(** ** The absence debounce *)

Lemma Neutral_refl st : Neutral st st.
Proof. split; reflexivity. Qed.

Lemma Neutral_trans a b c : Neutral a b -> Neutral b c -> Neutral a c.
Proof.
  intros [] []. split; try congruence. etransitivity; eassumption.
Qed.

Lemma filter_snoc_cooldown (l : list Timer) id due :
  filter (fun t => isAbsence t = true) (l ++ [mkTimer id due CooldownEnd])
  = filter (fun t => isAbsence t = true) l.
Proof. rewrite filter_app. cbn. apply app_nil_r. Qed.

Ltac neutral :=
  let s := fresh "s" in let d := fresh "d" in
  intros s; destruct_state s d; cbn; split_vars;
  (split; unfold absenceTimers, wrapPresent; cbn; rewrite ?filter_snoc_cooldown; reflexivity).

Lemma queueLayoutReapply_neutral : forall st, Neutral st (queueLayoutReapply st).
Proof.
  unfold queueLayoutReapply, requestAnimationFrame, setTimeout, fresh, cancelAnimationFrame.
  neutral.
Qed.

Lemma cooldownEnd_neutral : forall st, Neutral st (cooldownEnd st).
Proof.
  intros st. unfold cooldownEnd.
  destruct (pendingThrottleCall _).
  - eapply Neutral_trans; [|apply queueLayoutReapply_neutral].
    destruct_state st d. split; reflexivity.
  - destruct_state st d. split; reflexivity.
Qed.

Lemma onMouseUp_neutral : forall st, Neutral st (onMouseUp st).
Proof. unfold onMouseUp. neutral. Qed.

Lemma onmousedown_neutral y : forall st, Neutral st (onmousedown y st).
Proof. unfold onmousedown. neutral. Qed.

Lemma onclick_neutral : forall st, Neutral st (onclick st).
Proof.
  intros st. unfold onclick. eapply Neutral_trans; [|apply queueLayoutReapply_neutral].
  unfold BdApi_saveData. destruct_state st d. split; reflexivity.
Qed.

Lemma onMouseMove_neutral B y : forall st, Neutral st (onMouseMove B y st).
Proof.
  intros st. unfold onMouseMove.
  repeat (match goal with |- context [if ?c then _ else _] => destruct c
                     | |- context [match ?x with _ => _ end] => destruct x end;
          try apply Neutral_refl).
  unfold BdApi_saveData.
  match goal with |- context [queueLayoutReapply ?s] =>
    pose proof (queueLayoutReapply_neutral s) as Hq; destruct (queueLayoutReapply s) end.
  eapply Neutral_trans; [|eapply Neutral_trans; [exact Hq|]].
  - destruct_state st d. split; reflexivity.
  - split; reflexivity.
Qed.

Lemma handleWindowResize_neutral B : forall st, Neutral st (handleWindowResize B st).
Proof.
  intros st. unfold handleWindowResize.
  repeat (match goal with |- context [if ?c then _ else _] => destruct c
                     | |- context [match ?x with _ => _ end] => destruct x end;
          try apply Neutral_refl).
  eapply Neutral_trans; [|apply queueLayoutReapply_neutral].
  destruct_state st d. destruct_dom d; split; reflexivity.
Qed.

(** The writers of a reconciliation pass. *)
Lemma tagContent_neutral : forall st, Neutral st (tagContent st).
Proof. intros st. destruct_state st d. destruct_dom d; split; reflexivity. Qed.

Lemma prepare_neutral : forall st, Neutral st (if needsUi st then addMoveButton st else st).
Proof.
  intros st. destruct (needsUi st); [|apply Neutral_refl].
  unfold addMoveButton, tagContent, onContent.
  destruct_state st d. destruct_dom d; cbn; split_vars; split; reflexivity.
Qed.

Lemma onSidebarStyle_neutral f : forall st, Neutral st (onSidebarStyle f st).
Proof. intros st. destruct_state st d. destruct_dom d; split; reflexivity. Qed.

Lemma applyMovedLayoutStyles_neutral h1 h2 r : forall st, Neutral st (applyMovedLayoutStyles h1 h2 r st).
Proof.
  intros st. rewrite applyMovedLayoutStyles_net.
  destruct_state st d. destruct_dom d; split; reflexivity.
Qed.

Lemma placeMoved_neutral : forall st, Neutral st (placeMoved st).
Proof.
  intros st. unfold placeMoved. destruct_state st d. destruct_dom d; cbn; split; reflexivity.
Qed.

Lemma placeOriginal_neutral : forall st, Neutral st (placeOriginal st).
Proof.
  intros st. unfold placeOriginal, query_membersListContainer.
  destruct_state st d. destruct_dom d; cbn; split_vars; split; reflexivity.
Qed.

Lemma addResizeListener_neutral : forall st, Neutral st (addResizeListener st).
Proof. unfold addResizeListener. neutral. Qed.

Lemma removeResizeListener_neutral : forall st, Neutral st (removeResizeListener st).
Proof. unfold removeResizeListener. neutral. Qed.

Lemma updateButtonVisualState_neutral b : forall st, Neutral st (updateButtonVisualState b st).
Proof. unfold updateButtonVisualState. neutral. Qed.

Lemma applyOriginalLayoutStyles_neutral : forall st, Neutral st (applyOriginalLayoutStyles st).
Proof.
  intros st. unfold applyOriginalLayoutStyles.
  match goal with |- context [if ?c then updateButtonVisualState ?b ?s else ?s'] =>
    assert (Hs : Neutral st s') end.
  { destruct_state st d. destruct_dom d;
      unfold query_byId_membersListContainer, query_membersListContainer,
        _resetSidebarListStyles, onContentStyle, onContent, onNavStyle, onSidebarStyle, onWrapStyle;
      cbn -[setProperty removeProperty String.eqb];
      repeat (match goal with |- context [String.eqb ?a ?b] => destruct (String.eqb a b) end);
      split; reflexivity. }
  match goal with |- context [if ?c then _ else _] => destruct c end; [|exact Hs].
  eapply Neutral_trans; [exact Hs|].
  eapply Neutral_trans; [|apply updateButtonVisualState_neutral].
  match goal with |- Neutral ?s _ => destruct s end. split; reflexivity.
Qed.

Lemma error_neutral l e : forall st, Neutral st (_error l e st).
Proof. unfold _error. neutral. Qed.

Lemma neutralM_ret {A} (a : A) : NeutralM (ret a).
Proof. intros s. apply Neutral_refl. Qed.

Lemma neutralM_throw {A} e : NeutralM (@throw A e).
Proof. intros s. apply Neutral_refl. Qed.

Lemma neutralM_touch B site : NeutralM (touch B site).
Proof. intros s. unfold touch. destruct (raises _ _ _); apply Neutral_refl. Qed.

Lemma neutralM_modify f : (forall st, Neutral st (f st)) -> NeutralM (modify f).
Proof. intros H s. apply H. Qed.

Lemma neutralM_bind {A C} (c : M A) (k : A -> M C) :
  NeutralM c -> (forall a, NeutralM (k a)) -> NeutralM (bind c k).
Proof.
  intros Hc Hk s. unfold bind. specialize (Hc s). destruct (c s); cbn in Hc |- *; [|exact Hc].
  eapply Neutral_trans; [exact Hc|apply Hk].
Qed.

Lemma neutralM_get_bind {A} (k : State -> M A) :
  (forall s, NeutralM (k s)) -> NeutralM (bind get k).
Proof. intros H s. apply (H s s). Qed.

Lemma neutralM_try_catch {A} (c : M A) h :
  NeutralM c -> (forall e, NeutralM (h e)) -> NeutralM (try_catch c h).
Proof.
  intros Hc Hh s. unfold try_catch. specialize (Hc s). destruct (c s); cbn in Hc |- *; [exact Hc|].
  eapply Neutral_trans; [exact Hc|apply Hh].
Qed.

Ltac neutralM :=
  repeat match goal with
         | |- NeutralM (ret _) => apply neutralM_ret
         | |- NeutralM (throw _) => apply neutralM_throw
         | |- NeutralM (touch _ _) => apply neutralM_touch
         | |- NeutralM (bind get _) => apply neutralM_get_bind; intros ?; cbv zeta
         | |- NeutralM (bind _ _) => apply neutralM_bind; [|intros ?]
         | |- NeutralM (modify _) => apply neutralM_modify
         | |- NeutralM (if ?c then _ else _) => destruct c
         | |- NeutralM (match ?x with _ => _ end) => destruct x
         end.

Lemma pass_neutral B : NeutralM (applyCurrentLayoutState B).
Proof.
  unfold applyCurrentLayoutState, applyCurrentLayoutState_body, movedBranch, originalBranch,
    updateVisuals.
  apply neutralM_try_catch; [|intros e]; neutralM;
    auto using tagContent_neutral, prepare_neutral, onSidebarStyle_neutral,
      applyMovedLayoutStyles_neutral, placeMoved_neutral, placeOriginal_neutral,
      addResizeListener_neutral, removeResizeListener_neutral, applyOriginalLayoutStyles_neutral,
      error_neutral.
  all: intros st; apply updateButtonVisualState_neutral.
Qed.

Lemma reapplyFrame_neutral B : NeutralM (reapplyFrame B).
Proof.
  unfold reapplyFrame. neutralM.
  - intros st. destruct_state st d. split; reflexivity.
  - apply pass_neutral.
  - intros st. destruct_state st d. split; reflexivity.
Qed.

Lemma subseteq_nil_inv {A} (l : list A) : l ⊆ [] -> l = [].
Proof. intros H. apply elem_of_nil_inv. intros x Hx. apply H in Hx. inversion Hx. Qed.

Lemma Safe_neutral T st st' : Neutral st st' -> Safe T st -> Safe T st'.
Proof.
  intros [Hc Ho Ht Hp Hs] [S1 S2 S3 S4]. split.
  - unfold Tracked in *. rewrite Forall_forall in *. intros t Hin. rewrite Ht. auto.
  - rewrite Forall_forall in *. auto.
  - intros Hw. rewrite Hp in Hw. apply subseteq_nil_inv. rewrite <- (S3 Hw). exact Hs.
  - rewrite Hc. exact S4.
Qed.

Lemma Tracked_neutral st st' : Neutral st st' -> Tracked st -> Tracked st'.
Proof.
  intros [Hc Ho Ht Hp Hs] S1. unfold Tracked in *. rewrite Forall_forall in *.
  intros t Hin. rewrite Ht. auto.
Qed.

Lemma Calmer_refl st : Calmer st st.
Proof. split; reflexivity. Qed.

Lemma Calmer_trans a b c : Calmer a b -> Calmer b c -> Calmer a c.
Proof. intros [] []. split; congruence. Qed.

Lemma Calmer_held st st' : Calmer st st' -> held st' = held st.
Proof. intros [_ _ Hd Hm]. unfold held. rewrite Hd, Hm. reflexivity. Qed.

Lemma Calmer_present st st' : Calmer st st' -> wrapPresent st' = wrapPresent st.
Proof. intros [_ _ Hd _]. unfold wrapPresent. rewrite Hd. reflexivity. Qed.

Lemma clearAbsenceTimer_spec st :
  Tracked st ->
  Calmer st (clearAbsenceTimer st)
  /\ absenceTimers (clearAbsenceTimer st) = []
  /\ nextId (clearAbsenceTimer st) = nextId st.
Proof.
  intros Ht. unfold Tracked, absenceTimers in Ht. rewrite Forall_forall in Ht.
  destruct_state st d. unfold clearAbsenceTimer, clearTimeout, absenceTimers in *. cbn in *.
  match goal with |- context [match ?x with Some _ => _ | None => _ end] =>
    destruct x as [id|] end; cbn.
  - split; [split; reflexivity|]. split; [|reflexivity].
    apply elem_of_nil_inv. intros t Hin.
    apply list_elem_of_filter in Hin as [Habs Hin].
    unfold dropTimer in Hin. apply list_elem_of_filter in Hin as [Hne Hin].
    specialize (Ht t). rewrite list_elem_of_filter in Ht.
    specialize (Ht (conj Habs Hin)). congruence.
  - split; [split; reflexivity|]. split; [|reflexivity].
    apply elem_of_nil_inv. intros t Hin. specialize (Ht t Hin). discriminate.
Qed.

Lemma Tracked_nil st : absenceTimers st = [] -> Tracked st.
Proof. intros H. unfold Tracked. rewrite H. constructor. Qed.

Lemma handleMemberListAbsence_spec st :
  Tracked st ->
  let st' := handleMemberListAbsence st in
  Calmer st st'
  /\ absenceTimers st' = [mkTimer (nextId st) (clock st + ABSENCE_CHECK_DELAY_MS) AbsenceCheck]
  /\ memberListAbsenceTimer st' = Some (nextId st).
Proof.
  intros Ht. cbv zeta. unfold handleMemberListAbsence.
  destruct (clearAbsenceTimer_spec st Ht) as ([C1 C2 C3 C4] & Hnil & C5).
  destruct (clearAbsenceTimer st) as [? ? ? ? ? ? ? ? ? ? ? ? ? ? ? ? ? ? ? ? ? ? d1 ? ? ? ? ? ? ? ? ? ? ? ?].
  unfold setTimeout, fresh, absenceTimers in *. cbn in *. subst.
  split; [split; reflexivity|]. split; [|reflexivity].
  rewrite filter_app, Hnil. reflexivity.
Qed.

Lemma scanAdded_calm nodes : forall st,
  Tracked st ->
  let st' := fold_left scanAdded nodes st in
  Calmer st st' /\ Tracked st' /\ absenceTimers st' ⊆ absenceTimers st.
Proof.
  induction nodes as [|n nodes IH]; intros st Ht; cbn.
  - split; [apply Calmer_refl|]. split; [exact Ht|reflexivity].
  - assert (E : scanAdded st n = clearAbsenceTimer st \/ scanAdded st n = st).
    { unfold scanAdded. destruct (_ && _); auto. }
    destruct E as [-> | ->].
    + destruct (clearAbsenceTimer_spec st Ht) as (C & Hnil & _).
      destruct (IH _ (Tracked_nil _ Hnil)) as (C' & T' & S').
      split; [eapply Calmer_trans; eassumption|]. split; [exact T'|].
      rewrite Hnil in S'. rewrite (subseteq_nil_inv _ S'). apply list_subseteq_nil.
    + apply IH. exact Ht.
Qed.

Lemma scanMutation_calm records : forall b st,
  Tracked st ->
  let r := fold_left scanMutation records (b, st) in
  Calmer st (snd r) /\ Tracked (snd r) /\ absenceTimers (snd r) ⊆ absenceTimers st.
Proof.
  induction records as [|m records IH]; intros b st Ht; cbn.
  - split; [apply Calmer_refl|]. split; [exact Ht|reflexivity].
  - destruct m as [name target|removed added]; cbn.
    + destruct (String.eqb name "style"); apply IH; exact Ht.
    + destruct (scanAdded_calm added st Ht) as (C & T' & S').
      destruct (IH true _ T') as (C'' & T'' & S'').
      split; [eapply Calmer_trans; eassumption|]. split; [exact T''|].
      etransitivity; eassumption.
Qed.

Lemma queueLayoutReapply_calmer st : Calmer st (queueLayoutReapply st).
Proof. destruct (queueLayoutReapply_untouched st). split; assumption. Qed.

Lemma Safe_nil T st :
  absenceTimers st = [] -> (T <= clock st + ABSENCE_CHECK_DELAY_MS)%nat -> Safe T st.
Proof.
  intros H Hh. split; [apply Tracked_nil; exact H | rewrite H; constructor | auto | exact Hh].
Qed.

Lemma observerCallback_safe T records st :
  Tracked st ->
  (T <= clock st + ABSENCE_CHECK_DELAY_MS)%nat ->
  Safe T (observerCallback records st) /\ Calmer st (observerCallback records st).
Proof.
  intros Ht Hh. unfold observerCallback.
  pose proof (scanMutation_calm records false st Ht) as Hscan. cbv zeta in Hscan.
  destruct (fold_left scanMutation records (false, st)) as [need st1]. cbn [snd] in Hscan.
  destruct Hscan as (C1 & T1 & _).
  set (st2 := if need then queueLayoutReapply st1 else st1).
  assert (C2 : Calmer st1 st2).
  { unfold st2. destruct need; [apply queueLayoutReapply_calmer | apply Calmer_refl]. }
  assert (T2 : Tracked st2).
  { unfold st2. destruct need; [|exact T1].
    eapply Tracked_neutral; [apply queueLayoutReapply_neutral | exact T1]. }
  assert (C : Calmer st st2) by (eapply Calmer_trans; eassumption).
  clearbody st2. clear C1 C2 T1 st1 need.
  destruct (membersWrap (document st2)) eqn:E.
  - destruct (clearAbsenceTimer_spec st2 T2) as (C3 & Hnil & _).
    assert (C' : Calmer st (clearAbsenceTimer st2)) by (eapply Calmer_trans; eassumption).
    split; [|exact C']. apply Safe_nil; [exact Hnil|]. rewrite (ca_clock _ _ C'). exact Hh.
  - destruct (handleMemberListAbsence_spec st2 T2) as (C3 & Habs & Htr). cbv zeta in *.
    assert (C' : Calmer st (handleMemberListAbsence st2)) by (eapply Calmer_trans; eassumption).
    split; [|exact C']. split.
    + unfold Tracked. rewrite Habs. repeat constructor. exact Htr.
    + rewrite Habs. repeat constructor. cbn. rewrite (ca_clock _ _ C). exact Hh.
    + intros Hp. rewrite (Calmer_present _ _ C3) in Hp. unfold wrapPresent in Hp.
      rewrite E in Hp. apply bool_decide_eq_true in Hp. destruct Hp as [? Hp]. discriminate.
    + rewrite (ca_clock _ _ C'). exact Hh.
Qed.

Lemma observerCallback_present records st :
  Tracked st ->
  wrapPresent st = true ->
  absenceTimers (observerCallback records st) = [].
Proof.
  intros Ht Hp. unfold observerCallback.
  pose proof (scanMutation_calm records false st Ht) as Hscan. cbv zeta in Hscan.
  destruct (fold_left scanMutation records (false, st)) as [need st1]. cbn [snd] in Hscan.
  destruct Hscan as (C1 & T1 & _).
  set (st2 := if need then queueLayoutReapply st1 else st1).
  assert (C2 : Calmer st1 st2).
  { unfold st2. destruct need; [apply queueLayoutReapply_calmer | apply Calmer_refl]. }
  assert (T2 : Tracked st2).
  { unfold st2. destruct need; [|exact T1].
    eapply Tracked_neutral; [apply queueLayoutReapply_neutral | exact T1]. }
  assert (C : Calmer st st2) by (eapply Calmer_trans; eassumption).
  clearbody st2. rewrite <- (Calmer_present _ _ C) in Hp. unfold wrapPresent in Hp.
  apply bool_decide_eq_true in Hp. destruct Hp as [mw Hp]. rewrite Hp.
  apply clearAbsenceTimer_spec. exact T2.
Qed.

(** A batch delivered to every connected observer. *)
Lemma deliver_fold T records (obs : list nat) : forall st,
  Tracked st ->
  (T <= clock st + ABSENCE_CHECK_DELAY_MS)%nat ->
  obs <> [] ->
  let st' := fold_left (fun st _ => observerCallback records st) obs st in
  Safe T st' /\ Calmer st st' /\ (wrapPresent st = true -> absenceTimers st' = []).
Proof.
  induction obs as [|o obs IH]; intros st Ht Hh Hne; [contradiction|]. cbn.
  destruct (observerCallback_safe T records st Ht Hh) as [S1 C1].
  destruct obs as [|o' obs'].
  - cbn. split; [exact S1|]. split; [exact C1|].
    intros Hp. apply observerCallback_present; assumption.
  - assert (Hh1 : (T <= clock (observerCallback records st) + ABSENCE_CHECK_DELAY_MS)%nat).
    { rewrite (ca_clock _ _ C1). exact Hh. }
    destruct (IH _ (sf_tracked _ _ S1) Hh1 ltac:(discriminate)) as (S2 & C2 & P2).
    split; [exact S2|]. split; [eapply Calmer_trans; eassumption|].
    intros Hp. apply P2. rewrite (Calmer_present _ _ C1). exact Hp.
Qed.

Lemma sidebarOverridden_true d : sidebarOverridden d = true <-> Overridden d.
Proof.
  unfold sidebarOverridden, Overridden, sidebarProp. rewrite andb_true_iff, !bool_decide_eq_true.
  destruct (sidebarList d) as [sl|]; cbn.
  - split; [intros [? ?]; eauto | intros (? & [= <-] & ? & ?); auto].
  - split; [intros [[? [=]] _] | intros (? & [=] & _)].
Qed.

Lemma held_true st : held st = true <-> truthy (isMoved st) = true /\ Overridden (document st).
Proof. unfold held. rewrite andb_true_iff, sidebarOverridden_true. reflexivity. Qed.

Lemma Keeps_refl st : Keeps st st.
Proof. split; auto. Qed.

Lemma Keeps_trans a b c : Keeps a b -> Keeps b c -> Keeps a c.
Proof. intros [] []. split; [congruence|auto]. Qed.

Lemma Keeps_held st st' : Keeps st st' -> held st = true -> held st' = true.
Proof.
  intros [Hm Ho]. rewrite !held_true. intros [Ht Hd]. rewrite Hm. auto.
Qed.

Lemma Calmer_keeps st st' : Calmer st st' -> Keeps st st'.
Proof. intros [_ _ Hd Hm]. split; [exact Hm|]. rewrite Hd. auto. Qed.

Lemma same_sidebar_keeps st st' :
  isMoved st' = isMoved st -> sidebarList (document st') = sidebarList (document st) ->
  Keeps st st'.
Proof. intros Hm Hs. split; [exact Hm|]. unfold Overridden. rewrite Hs. auto. Qed.

Lemma is_Some_setProperty k v (s : Style) j :
  is_Some (s !! j) -> is_Some (setProperty k v s !! j).
Proof. rewrite lookup_setProperty. case_decide; eauto. Qed.

Lemma onSidebarStyle_keeps k v st : Keeps st (onSidebarStyle (setProperty k v) st).
Proof.
  destruct_state st d. destruct_dom d; split; try reflexivity; unfold Overridden; cbn;
    intros (sl & [= <-] & H1 & H2); eexists; (split; [reflexivity|]);
    cbn; split; apply is_Some_setProperty; assumption.
Qed.

Lemma onNavStyle_keeps f st : Keeps st (onNavStyle f st).
Proof.
  destruct_state st d. destruct_dom d; split; try reflexivity; unfold Overridden; cbn;
    intros (sl & [= <-] & H1 & H2); eexists; (split; [reflexivity|]); cbn; auto.
Qed.

Lemma applyMovedLayoutStyles_keeps h1 h2 r st : Keeps st (applyMovedLayoutStyles h1 h2 r st).
Proof.
  rewrite applyMovedLayoutStyles_net.
  destruct_state st d. destruct_dom d; split; try reflexivity; unfold Overridden; cbn;
    intros (sl & [= <-] & H1 & H2); eexists; (split; [reflexivity|]);
    cbn; unfold movedSidebarStyle; split; repeat apply is_Some_setProperty; assumption.
Qed.

Ltac keeps_same :=
  let s := fresh "s" in let d := fresh "d" in
  intros s; destruct_state s d; destruct_dom d; cbn; split_vars;
  apply same_sidebar_keeps; reflexivity.

Lemma tagContent_keeps : forall st, Keeps st (tagContent st).
Proof. unfold tagContent, onContent. keeps_same. Qed.

Lemma prepare_keeps : forall st, Keeps st (if needsUi st then addMoveButton st else st).
Proof.
  intros st. destruct (needsUi st); [|apply Keeps_refl]. revert st.
  unfold addMoveButton, tagContent, onContent. keeps_same.
Qed.

Lemma placeMoved_keeps : forall st, Keeps st (placeMoved st).
Proof. unfold placeMoved. keeps_same. Qed.

Lemma addResizeListener_keeps : forall st, Keeps st (addResizeListener st).
Proof. unfold addResizeListener. keeps_same. Qed.

Lemma updateButtonVisualState_keeps b : forall st, Keeps st (updateButtonVisualState b st).
Proof. unfold updateButtonVisualState. keeps_same. Qed.

Lemma error_keeps l e : forall st, Keeps st (_error l e st).
Proof. unfold _error. keeps_same. Qed.

Lemma keepsT_ret {A} (a : A) : KeepsT (ret a).
Proof. intros s _. apply Keeps_refl. Qed.

Lemma keepsT_throw {A} e : KeepsT (@throw A e).
Proof. intros s _. apply Keeps_refl. Qed.

Lemma keepsT_touch B site : KeepsT (touch B site).
Proof. intros s _. unfold touch. destruct (raises _ _ _); apply Keeps_refl. Qed.

Lemma keepsT_modify f : (forall st, Keeps st (f st)) -> KeepsT (modify f).
Proof. intros H s _. apply H. Qed.

Lemma keepsT_bind {A C} (c : M A) (k : A -> M C) :
  KeepsT c -> (forall a, KeepsT (k a)) -> KeepsT (bind c k).
Proof.
  intros Hc Hk s Ht. unfold bind. specialize (Hc s Ht).
  destruct (c s) as [a s1|e s1]; cbn in Hc |- *; [|exact Hc].
  eapply Keeps_trans; [exact Hc|]. apply Hk. rewrite (ke_isMoved _ _ Hc). exact Ht.
Qed.

Lemma keepsT_get_bind {A} (k : State -> M A) :
  (forall s, truthy (isMoved s) = true -> Keeps s (finalState (k s s))) -> KeepsT (bind get k).
Proof. intros H s Ht. apply (H s Ht). Qed.

Lemma keepsT_try_catch {A} (c : M A) h :
  KeepsT c -> (forall e, KeepsT (h e)) -> KeepsT (try_catch c h).
Proof.
  intros Hc Hh s Ht. unfold try_catch. specialize (Hc s Ht).
  destruct (c s) as [a s1|e s1]; cbn in Hc |- *; [exact Hc|].
  eapply Keeps_trans; [exact Hc|]. apply Hh. rewrite (ke_isMoved _ _ Hc). exact Ht.
Qed.

Ltac keepsT :=
  repeat match goal with
         | |- KeepsT (ret _) => apply keepsT_ret
         | |- KeepsT (throw _) => apply keepsT_throw
         | |- KeepsT (touch _ _) => apply keepsT_touch
         | |- KeepsT (bind (modify _) _) => apply keepsT_bind; [apply keepsT_modify|intros ?]
         | |- KeepsT (bind (touch _ _) _) => apply keepsT_bind; [apply keepsT_touch|intros ?]
         | |- KeepsT (modify _) => apply keepsT_modify
         end.

Ltac keeps_resume s Hs :=
  match goal with
  | |- Keeps s (finalState (?c s)) => cut (KeepsT c); [intros HC; exact (HC s Hs)|]
  end.

Lemma movedBranch_keeps B : KeepsT (movedBranch B).
Proof.
  unfold movedBranch. keepsT.
  apply keepsT_get_bind. intros s Hs. cbv zeta.
  destruct (Qle_bool _ 0); [apply Keeps_refl|].
  keeps_resume s Hs. keepsT; [apply onSidebarStyle_keeps|].
  apply keepsT_get_bind. intros s1 Hs1. cbv zeta.
  keeps_resume s1 Hs1.
  keepsT; auto using applyMovedLayoutStyles_keeps, placeMoved_keeps, addResizeListener_keeps.
Qed.

Lemma updateVisuals_keeps B : KeepsT (updateVisuals B).
Proof. unfold updateVisuals. keepsT. intros st. apply updateButtonVisualState_keeps. Qed.

Lemma body_keeps B : KeepsT (applyCurrentLayoutState_body B).
Proof.
  unfold applyCurrentLayoutState_body. keepsT.
  apply keepsT_get_bind. intros s Hs.
  destruct (membersWrap (document s)); [|apply Keeps_refl].
  destruct (sidebarList (document s)); [|apply Keeps_refl].
  destruct (negb _); [apply Keeps_refl|].
  keeps_resume s Hs. keepsT; [apply tagContent_keeps | apply prepare_keeps |].
  apply keepsT_get_bind. intros s1 Hs1. rewrite Hs1.
  keeps_resume s1 Hs1.
  apply keepsT_bind; [apply movedBranch_keeps|].
  intros [|]; [apply updateVisuals_keeps | apply keepsT_ret].
Qed.

Lemma pass_keeps B : KeepsT (applyCurrentLayoutState B).
Proof.
  unfold applyCurrentLayoutState. apply keepsT_try_catch; [apply body_keeps|].
  intros e. keepsT. apply error_keeps.
Qed.

Lemma reapplyFrame_keeps B : KeepsT (reapplyFrame B).
Proof.
  unfold reapplyFrame. keepsT.
  - intros st. destruct_state st d. apply same_sidebar_keeps; reflexivity.
  - apply keepsT_bind; [apply pass_keeps|]. intros _. keepsT.
    intros st. destruct_state st d. apply same_sidebar_keeps; reflexivity.
Qed.

Lemma reapplyFrame_held B st :
  held st = true -> held (finalState (reapplyFrame B st)) = true.
Proof.
  intros H. apply (Keeps_held st); [|exact H].
  apply reapplyFrame_keeps. apply held_true in H. tauto.
Qed.

Lemma handleWindowResize_held B st :
  held st = true -> held (handleWindowResize B st) = true.
Proof.
  apply Keeps_held. unfold handleWindowResize.
  repeat (match goal with |- context [if ?c then _ else _] => destruct c
                     | |- context [match ?x with _ => _ end] => destruct x end;
          try apply Keeps_refl).
  eapply Keeps_trans; [|apply Calmer_keeps, queueLayoutReapply_calmer].
  eapply Keeps_trans; [|apply onNavStyle_keeps].
  eapply Keeps_trans; [|apply onSidebarStyle_keeps].
  apply onSidebarStyle_keeps.
Qed.

Lemma cooldownEnd_calmer st : Calmer st (cooldownEnd st).
Proof.
  unfold cooldownEnd. destruct (pendingThrottleCall _).
  - eapply Calmer_trans; [|apply queueLayoutReapply_calmer].
    destruct_state st d. split; reflexivity.
  - destruct_state st d. split; reflexivity.
Qed.

Lemma onMouseMove_calmer B y st : Calmer st (onMouseMove B y st).
Proof.
  unfold onMouseMove.
  repeat (match goal with |- context [if ?c then _ else _] => destruct c
                     | |- context [match ?x with _ => _ end] => destruct x end;
          try apply Calmer_refl).
  unfold BdApi_saveData.
  match goal with |- context [queueLayoutReapply ?s] =>
    pose proof (queueLayoutReapply_calmer s) as Hq; destruct (queueLayoutReapply s) end.
  eapply Calmer_trans; [|eapply Calmer_trans; [exact Hq|]].
  - destruct_state st d. split; reflexivity.
  - split; reflexivity.
Qed.

Lemma onmousedown_calmer y st : Calmer st (onmousedown y st).
Proof.
  unfold onmousedown. destruct (negb _); [apply Calmer_refl|].
  destruct_state st d. split; reflexivity.
Qed.

Lemma onMouseUp_calmer st : Calmer st (onMouseUp st).
Proof. destruct_state st d. split; reflexivity. Qed.

Lemma absenceChecks_app l1 l2 : absenceChecks (l1 ++ l2) = absenceChecks l1 ++ absenceChecks l2.
Proof. apply filter_app. Qed.

Lemma dropTimer_neutral id st : Neutral st (st <| timers ::= dropTimer id |>).
Proof.
  destruct_state st d. split; try reflexivity. unfold absenceTimers, dropTimer. cbn.
  intros t Hin. apply list_elem_of_filter in Hin as [Ha Hin].
  apply list_elem_of_filter in Hin as [_ Hin]. apply list_elem_of_filter. auto.
Qed.

Lemma dropTimer_calmer id st : Calmer st (st <| timers ::= dropTimer id |>).
Proof. destruct_state st d. split; reflexivity. Qed.

Lemma fireTimer_cooldown t st log :
  isAbsence t = false ->
  let r := fireTimer (st, log) t in
  Neutral st (fst r) /\ Calmer st (fst r)
  /\ absenceChecks (snd r) = absenceChecks log.
Proof.
  intros Ha. unfold fireTimer. cbv zeta.
  destruct (pending _ _); [|cbn; auto using Neutral_refl, Calmer_refl].
  unfold isAbsence in Ha. destruct (t_cb t); [|discriminate]. cbn [fst snd].
  split; [|split].
  - eapply Neutral_trans; [apply dropTimer_neutral | apply cooldownEnd_neutral].
  - eapply Calmer_trans; [apply dropTimer_calmer | apply cooldownEnd_calmer].
  - rewrite absenceChecks_app. cbn. apply app_nil_r.
Qed.

Lemma fireTimer_fold l : forall st log,
  Forall (fun t => isAbsence t = false) l ->
  let r := fold_left fireTimer l (st, log) in
  Neutral st (fst r) /\ Calmer st (fst r)
  /\ absenceChecks (snd r) = absenceChecks log.
Proof.
  induction l as [|t l IH]; intros st log Hl; cbn [fold_left].
  - cbn. auto using Neutral_refl, Calmer_refl.
  - inversion Hl as [|? ? Ht Hl']; subst.
    destruct (fireTimer_cooldown t st log Ht) as (N1 & C1 & A1).
    destruct (fireTimer (st, log) t) as [st1 log1]. cbn [fst snd] in *.
    destruct (IH st1 log1 Hl') as (N2 & C2 & A2).
    split; [eapply Neutral_trans; eassumption|].
    split; [eapply Calmer_trans; eassumption|]. congruence.
Qed.

Lemma advance_clock T st :
  Safe T st ->
  let st1 := st <| clock ::= S |> in
  Safe T st1 /\ absenceTimers st1 = absenceTimers st /\ timers st1 = timers st
  /\ clock st1 = S (clock st) /\ wrapPresent st1 = wrapPresent st
  /\ observers st1 = observers st /\ held st1 = held st.
Proof.
  intros [S1 S2 S3 S4]. destruct_state st d.
  unfold Tracked, absenceTimers, wrapPresent, held in *. cbn in *.
  split; [split; [assumption|assumption|assumption|cbn; lia]|].
  repeat split; reflexivity.
Qed.

Lemma tick_safe T st :
  Safe T st ->
  (wrapPresent st = true \/ S (clock st) < T)%nat ->
  let r := tick st in
  Safe T (fst r) /\ wrapPresent (fst r) = wrapPresent st /\ clock (fst r) = S (clock st)
  /\ observers (fst r) = observers st /\ held (fst r) = held st
  /\ absenceChecks (snd r) = [].
Proof.
  intros HS Hb. unfold tick. cbv zeta.
  destruct (advance_clock T st HS) as (HS1 & Ha & Ht & Hc & Hp & Ho & Hh). cbv zeta in *.
  set (st1 := st <| clock ::= S |>) in *. clearbody st1.
  assert (Hl : Forall (fun t => isAbsence t = false)
                 (filter (fun t => due (clock st1) t = true) (timers st1))).
  { apply Forall_forall. intros t Hin. apply list_elem_of_filter in Hin as [Hd Hin].
    destruct (isAbsence t) eqn:E; [exfalso|reflexivity].
    assert (Hin' : t ∈ absenceTimers st1) by (apply list_elem_of_filter; auto).
    destruct Hb as [Hb|Hb].
    - rewrite (sf_present _ _ HS1) in Hin' by congruence. inversion Hin'.
    - pose proof (sf_due _ _ HS1) as Hdue. rewrite Forall_forall in Hdue.
      specialize (Hdue t Hin'). unfold due in Hd. apply Nat.leb_le in Hd. lia. }
  destruct (fireTimer_fold _ st1 [] Hl) as (N & C & A). cbv zeta in *.
  split; [eapply Safe_neutral; eassumption|].
  split; [rewrite (ne_present _ _ N); exact Hp|].
  split; [rewrite (ne_clock _ _ N); exact Hc|].
  split; [rewrite (ne_observers _ _ N); exact Ho|].
  split; [rewrite (Calmer_held _ _ C); exact Hh|]. exact A.
Qed.

Lemma fireFrame_fold B ids : forall st log,
  let r := fold_left (fireFrame B) ids (st, log) in
  Neutral st (fst r) /\ (held st = true -> held (fst r) = true)
  /\ absenceChecks (snd r) = absenceChecks log.
Proof.
  induction ids as [|i ids IH]; intros st log; cbn [fold_left].
  - cbn. auto using Neutral_refl.
  - pose proof (reapplyFrame_neutral B st) as N1.
    pose proof (reapplyFrame_held B st) as H1.
    assert (E : exists log1, fireFrame B (st, log) i = (finalState (reapplyFrame B st), log1)
                             /\ absenceChecks log1 = absenceChecks log).
    { unfold fireFrame. destruct (reapplyFrame B st); eexists; (split; [reflexivity|]);
        rewrite absenceChecks_app; apply app_nil_r. }
    destruct E as (log1 & -> & A1).
    destruct (IH (finalState (reapplyFrame B st)) log1) as (N2 & H2 & A2).
    split; [eapply Neutral_trans; eassumption|]. split; [auto|congruence].
Qed.

Lemma clear_frames_neutral st : Neutral st (st <| frames := [] |>).
Proof. destruct_state st d. split; reflexivity. Qed.

Lemma clear_frames_calmer st : Calmer st (st <| frames := [] |>).
Proof. destruct_state st d. split; reflexivity. Qed.

Lemma animationFrame_neutral B st :
  let r := animationFrame B st in
  Neutral st (fst r) /\ (held st = true -> held (fst r) = true)
  /\ absenceChecks (snd r) = [].
Proof.
  unfold animationFrame. cbv zeta.
  destruct (fireFrame_fold B (frames st) (st <| frames := [] |>) []) as (N & H & A).
  cbv zeta in *. split; [eapply Neutral_trans; [apply clear_frames_neutral|exact N]|].
  split; [|exact A]. intros Hh. apply H. rewrite (Calmer_held _ _ (clear_frames_calmer st)).
  exact Hh.
Qed.

Lemma ticks_cons ev evs : ticks (ev :: evs) = (ticks [ev] + ticks evs)%nat.
Proof. unfold ticks. cbn. destruct (decide (isTick ev = true)); reflexivity. Qed.

Lemma ticks_other ev : isTick ev = false -> ticks [ev] = 0%nat.
Proof. intros H. unfold ticks. cbn. rewrite H. reflexivity. Qed.

Lemma run_cons B ev evs st :
  run B (ev :: evs) st
  = (fst (run B evs (fst (step B ev st))),
     snd (step B ev st) ++ snd (run B evs (fst (step B ev st)))).
Proof.
  cbn [run]. destruct (step B ev st) as [st1 log1]. cbn [fst snd].
  destruct (run B evs st1); reflexivity.
Qed.

Lemma run_app B evs1 : forall evs2 st,
  run B (evs1 ++ evs2) st
  = (fst (run B evs2 (fst (run B evs1 st))),
     snd (run B evs1 st) ++ snd (run B evs2 (fst (run B evs1 st)))).
Proof.
  induction evs1 as [|ev evs1 IH]; intros evs2 st.
  - cbn. destruct (run B evs2 st); reflexivity.
  - rewrite <- app_comm_cons, !run_cons, IH. cbn [fst snd]. rewrite app_assoc. reflexivity.
Qed.

Lemma ticks_tick : ticks [Tick] = 1%nat.
Proof. reflexivity. Qed.

Lemma ticks_frame : ticks [AnimationFrame] = 0%nat.
Proof. reflexivity. Qed.

Lemma ticks_batch change records : ticks [Mutations change records] = 0%nat.
Proof. reflexivity. Qed.

Lemma carried_neutral T ev st st' :
  isTick ev = false ->
  Safe T st -> Neutral st st' ->
  (isClick ev = false -> held st = true -> held st' = true) ->
  Carried T ev st (st', []).
Proof.
  intros Hev HS N Hh. unfold Carried. cbn [fst snd].
  split; [eapply Safe_neutral; eassumption|].
  split; [apply (ne_present _ _ N)|].
  split; [rewrite (ne_clock _ _ N), (ticks_other _ Hev); lia|].
  split; [apply (ne_observers _ _ N)|]. split; [reflexivity|exact Hh].
Qed.

Lemma host_change T change st :
  (forall d, membersWrap (change d) = membersWrap d /\ sidebarList (change d) = sidebarList d) ->
  Safe T st ->
  let st0 := st <| document ::= change |> in
  Safe T st0 /\ wrapPresent st0 = wrapPresent st /\ clock st0 = clock st
  /\ observers st0 = observers st /\ held st0 = held st.
Proof.
  intros Hc [S1 S2 S3 S4]. destruct_state st d. cbv zeta. destruct (Hc d) as [E1 E2].
  split; [split|].
  - exact S1.
  - exact S2.
  - unfold wrapPresent in *. cbn in *. rewrite E1. exact S3.
  - exact S4.
  - unfold wrapPresent, held, sidebarOverridden, sidebarProp. cbn. rewrite E1, E2.
    repeat split; reflexivity.
Qed.

Lemma steady_step B T ev st :
  steady ev -> Safe T st -> observers st <> [] ->
  (wrapPresent st = true \/ clock st + ticks [ev] < T)%nat ->
  Carried T ev st (step B ev st).
Proof.
  intros Hev HS Ho Hb.
  destruct ev as [| |change records| |y|y| | |]; cbn [step].
  - destruct (tick_safe T st HS) as (S1 & P1 & C1 & O1 & H1 & A1).
    { rewrite ticks_tick in Hb. destruct Hb as [Hb|Hb]; [left; exact Hb|right; lia]. }
    cbv zeta in *. unfold Carried. rewrite ticks_tick.
    split; [exact S1|]. split; [exact P1|]. split; [rewrite C1; lia|].
    split; [exact O1|]. split; [exact A1|].
    intros _ Hh. rewrite H1. exact Hh.
  - destruct (animationFrame_neutral B st) as (N & H & A). cbv zeta in *.
    unfold Carried. split; [eapply Safe_neutral; eassumption|].
    split; [apply (ne_present _ _ N)|].
    split; [rewrite (ne_clock _ _ N), ticks_frame; lia|].
    split; [apply (ne_observers _ _ N)|]. split; [exact A|]. intros _. exact H.
  - destruct (host_change T change st Hev HS) as (S0 & P0 & C0 & O0 & H0). cbv zeta in *.
    set (st0 := st <| document ::= change |>) in *. clearbody st0.
    unfold deliver.
    destruct (deliver_fold T records (observers st0) st0 (sf_tracked _ _ S0) (sf_horizon _ _ S0))
      as (S1 & C1 & _); [congruence|]. cbv zeta in *.
    unfold Carried. cbn [fst snd].
    split; [exact S1|]. split; [rewrite (Calmer_present _ _ C1); exact P0|].
    split; [rewrite (ca_clock _ _ C1), C0, ticks_batch; lia|].
    split; [rewrite (ca_observers _ _ C1); exact O0|]. split; [reflexivity|].
    intros _ Hh. rewrite (Calmer_held _ _ C1), H0. exact Hh.
  - apply carried_neutral; [reflexivity|exact HS| |].
    + destruct (resizeListener st); [apply handleWindowResize_neutral|apply Neutral_refl].
    + intros _. destruct (resizeListener st); [apply handleWindowResize_held|auto].
  - apply carried_neutral; [reflexivity|exact HS| |].
    + destruct (resizeHandle st); [apply onmousedown_neutral|apply Neutral_refl].
    + intros _ Hh. destruct (resizeHandle st); [|exact Hh].
      rewrite (Calmer_held _ _ (onmousedown_calmer y st)). exact Hh.
  - apply carried_neutral; [reflexivity|exact HS| |].
    + destruct (mousemoveListener st); [apply onMouseMove_neutral|apply Neutral_refl].
    + intros _ Hh. destruct (mousemoveListener st); [|exact Hh].
      rewrite (Calmer_held _ _ (onMouseMove_calmer B y st)). exact Hh.
  - apply carried_neutral; [reflexivity|exact HS| |].
    + destruct (mouseupListener st); [apply onMouseUp_neutral|apply Neutral_refl].
    + intros _ Hh. destruct (mouseupListener st); [|exact Hh].
      rewrite (Calmer_held _ _ (onMouseUp_calmer st)). exact Hh.
  - apply carried_neutral; [reflexivity|exact HS| |discriminate].
    destruct (_ && _); [apply onclick_neutral|apply Neutral_refl].
  - apply carried_neutral; [reflexivity|exact HS|apply queueLayoutReapply_neutral|].
    intros _ Hh. rewrite (Calmer_held _ _ (queueLayoutReapply_calmer st)). exact Hh.
Qed.

Lemma steady_run B T evs : forall st,
  Forall steady evs -> Safe T st -> observers st <> [] ->
  (wrapPresent st = true \/ clock st + ticks evs < T)%nat ->
  let r := run B evs st in
  Safe T (fst r) /\ wrapPresent (fst r) = wrapPresent st
  /\ observers (fst r) = observers st
  /\ absenceChecks (snd r) = []
  /\ (noClick evs = true -> held st = true -> held (fst r) = true).
Proof.
  induction evs as [|ev evs IH]; intros st Hevs HS Ho Hb; cbv zeta.
  - cbn. auto.
  - inversion Hevs as [|? ? Hev Hevs']; subst. rewrite run_cons. cbn [fst snd].
    rewrite ticks_cons in Hb.
    destruct (steady_step B T ev st Hev HS Ho) as (S1 & P1 & C1 & O1 & A1 & H1).
    { destruct Hb as [Hb|Hb]; [left; exact Hb|right; lia]. }
    destruct (IH (fst (step B ev st)) Hevs' S1) as (S2 & P2 & O2 & A2 & H2).
    { congruence. }
    { destruct Hb as [Hb|Hb]; [left; congruence|right; lia]. }
    split; [exact S2|]. split; [congruence|]. split; [congruence|].
    split; [rewrite absenceChecks_app, A1, A2; reflexivity|].
    cbn [noClick forallb]. rewrite andb_true_iff, negb_true_iff. intros [Hc Hn] Hh. auto.
Qed.

Lemma host_swap change st :
  (forall d, sidebarList (change d) = sidebarList d) ->
  Tracked st ->
  let st0 := st <| document ::= change |> in
  Tracked st0 /\ clock st0 = clock st /\ observers st0 = observers st
  /\ held st0 = held st
  /\ wrapPresent st0 = bool_decide (is_Some (membersWrap (change (document st)))).
Proof.
  intros Hc S1. destruct_state st d. cbv zeta. split; [exact S1|].
  unfold wrapPresent, held, sidebarOverridden, sidebarProp. cbn. rewrite (Hc d).
  repeat split; reflexivity.
Qed.

Lemma absenceCheck_document st :
  document (absenceCheck st)
  = if wrapPresent st then document st else document (_resetSidebarListStyles st).
Proof.
  unfold absenceCheck, wrapPresent.
  assert (E : forall s, document (s <| memberListAbsenceTimer := None |>) = document s).
  { intros s. destruct_state s d. reflexivity. }
  rewrite E. destruct (membersWrap (document st)) as [c|] eqn:Hw.
  - rewrite bool_decide_eq_true_2 by eauto. apply (ca_document _ _ (queueLayoutReapply_calmer st)).
  - rewrite bool_decide_eq_false_2; [reflexivity|]. intros [? [=]].
Qed.

(** The container goes and stays away for less than the delay. *)
Lemma removal_phase B st removed during :
  observers st <> [] ->
  Tracked st ->
  Forall steady during ->
  (ticks during < ABSENCE_CHECK_DELAY_MS)%nat ->
  let r := run B (Mutations removeContainer removed :: during) st in
  Tracked (fst r) /\ observers (fst r) = observers st
  /\ absenceChecks (snd r) = []
  /\ (noClick during = true -> held st = true -> held (fst r) = true).
Proof.
  intros Ho Ht Hd Hn. cbv zeta. rewrite run_cons. cbn [fst snd step]. unfold deliver.
  destruct (host_swap removeContainer st) as (T0 & C0 & O0 & H0 & P0);
    [intros d; destruct d; reflexivity | exact Ht |]. cbv zeta in *.
  set (st0 := st <| document ::= removeContainer |>) in *. clearbody st0.
  destruct (deliver_fold (clock st + ABSENCE_CHECK_DELAY_MS) removed (observers st0) st0 T0)
    as (S1 & C1 & _); [lia | congruence |]. cbv zeta in *.
  set (st1 := fold_left _ (observers st0) st0) in *. clearbody st1.
  destruct (steady_run B (clock st + ABSENCE_CHECK_DELAY_MS) during st1 Hd S1)
    as (S2 & P2 & O2 & A2 & H2).
  { rewrite (ca_observers _ _ C1). congruence. }
  { right. rewrite (ca_clock _ _ C1), C0. lia. }
  cbv zeta in *.
  split; [exact (sf_tracked _ _ S2)|].
  split; [rewrite O2, (ca_observers _ _ C1); exact O0|].
  split; [exact A2|].
  intros Hc Hh. apply H2; [exact Hc|]. rewrite (Calmer_held _ _ C1), H0. exact Hh.
Qed.

(** The container is back. *)
Lemma return_phase B st c added after :
  observers st <> [] ->
  Tracked st ->
  Forall steady after ->
  let r := run B (Mutations (insertContainer c) added :: after) st in
  absenceChecks (snd r) = []
  /\ (noClick after = true -> held st = true -> held (fst r) = true).
Proof.
  intros Ho Ht Ha. cbv zeta. rewrite run_cons. cbn [fst snd step]. unfold deliver.
  destruct (host_swap (insertContainer c) st) as (T3 & C3 & O3 & H3 & P3);
    [intros d; destruct d; reflexivity | exact Ht |]. cbv zeta in *.
  assert (P3' : wrapPresent (st <| document ::= insertContainer c |>) = true).
  { rewrite P3. destruct (document st). apply bool_decide_eq_true_2. cbn. eauto. }
  set (st3 := st <| document ::= insertContainer c |>) in *. clearbody st3.
  destruct (deliver_fold 0 added (observers st3) st3 T3) as (S4 & C4 & _);
    [lia | congruence |]. cbv zeta in *.
  set (st4 := fold_left _ (observers st3) st3) in *. clearbody st4.
  destruct (steady_run B 0 after st4 Ha S4) as (S5 & P5 & O5 & A5 & H5).
  { rewrite (ca_observers _ _ C4). congruence. }
  { left. rewrite (Calmer_present _ _ C4). exact P3'. }
  cbv zeta in *. split; [exact A5|].
  intros Hc Hh. apply H5; [exact Hc|]. rewrite (Calmer_held _ _ C4), H3. exact Hh.
Qed.

Lemma ticks_take k : forall evs, (ticks (take k evs) <= ticks evs)%nat.
Proof.
  induction k as [|k IH]; intros [|ev evs]; cbn [take]; try (unfold ticks; cbn; lia).
  rewrite (ticks_cons ev evs), (ticks_cons ev (take k evs)). specialize (IH evs). lia.
Qed.

Lemma noClick_take k : forall evs, noClick evs = true -> noClick (take k evs) = true.
Proof.
  induction k as [|k IH]; intros [|ev evs]; cbn; try reflexivity.
  rewrite !andb_true_iff. intros [? ?]. split; [assumption|]. apply IH. assumption.
Qed.

(** C8.  Absence debounce.  The plugin is running ([observers] is not
    empty) and every pending absence timer is the one it tracks.  The
    host removes the container and delivers a batch; fewer than
    [ABSENCE_CHECK_DELAY_MS] milliseconds pass, with any frames,
    batches, resizes, pointer events and audit requests in between;
    the host inserts a container and delivers a batch; anything steady
    follows.  At every point [k] of that episode: the absence timer has
    not fired; and, in MOVED mode with the height and bottom-padding
    overrides of the upper region in place and no click on the button,
    both overrides are still in place.  When the timer does fire, its
    callback changes the page only if the container is missing, and
    then as [_resetSidebarListStyles] does. *)
Theorem C8_absence_debounce B st removed during c added after k :
  observers st <> [] ->
  Tracked st ->
  Forall steady during ->
  Forall steady after ->
  (ticks during < ABSENCE_CHECK_DELAY_MS)%nat ->
  let episode :=
    Mutations removeContainer removed :: during
    ++ Mutations (insertContainer c) added :: after in
  let r := run B (take k episode) st in
  absenceChecks (snd r) = []
  /\ (truthy (isMoved st) = true ->
      sidebarOverridden (document st) = true ->
      noClick (during ++ after) = true ->
      sidebarOverridden (document (fst r)) = true)
  /\ (forall s, document (absenceCheck s)
                = if wrapPresent s then document s else document (_resetSidebarListStyles s)).
Proof.
  intros Ho Ht Hd Ha Hn. cbv zeta.
  split; [|split]; [| |apply absenceCheck_document].
  - destruct k as [|k]; [reflexivity|]. cbn [take]. rewrite firstn_app.
    destruct (removal_phase B st removed (take k during) Ho Ht) as (T1 & O1 & A1 & _).
    { apply Forall_take. exact Hd. }
    { pose proof (ticks_take k during). lia. }
    cbv zeta in *.
    destruct (k - length during)%nat as [|j] eqn:E.
    + cbn [take firstn]. rewrite app_nil_r. exact A1.
    + cbn [take firstn]. rewrite app_comm_cons, run_app. cbn [snd].
      destruct (return_phase B (fst (run B (Mutations removeContainer removed :: take k during) st))
                  c added (take j after)) as (A2 & _);
        [congruence | exact T1 | apply Forall_take; exact Ha |].
      cbv zeta in *. rewrite absenceChecks_app, A1. exact A2.
  - intros Hm Hs Hc. unfold noClick in Hc. rewrite forallb_app, andb_true_iff in Hc.
    destruct Hc as [Hc1 Hc2].
    assert (Hh : held st = true) by (unfold held; rewrite Hm, Hs; reflexivity).
    cut (held (fst (run B (take k (Mutations removeContainer removed :: during
                                   ++ Mutations (insertContainer c) added :: after)) st)) = true).
    { unfold held. rewrite andb_true_iff. tauto. }
    destruct k as [|k]; [exact Hh|]. cbn [take]. rewrite firstn_app.
    destruct (removal_phase B st removed (take k during) Ho Ht) as (T1 & O1 & _ & H1).
    { apply Forall_take. exact Hd. }
    { pose proof (ticks_take k during). lia. }
    cbv zeta in *. specialize (H1 (noClick_take k during Hc1) Hh).
    destruct (k - length during)%nat as [|j] eqn:E.
    + cbn [take firstn]. rewrite app_nil_r. exact H1.
    + cbn [take firstn]. rewrite app_comm_cons, run_app. cbn [fst].
      destruct (return_phase B (fst (run B (Mutations removeContainer removed :: take k during) st))
                  c added (take j after)) as (_ & H2);
        [congruence | exact T1 | apply Forall_take; exact Ha |].
      cbv zeta in *. apply H2; [apply noClick_take; exact Hc2 | exact H1].
Qed.

Lemma C8_witness :
  (absenceChecks (snd (run demoBrowser (take 4 flicker) movedState)) = []
   /\ sidebarOverridden (document (fst (run demoBrowser (take 4 flicker) movedState))) = true)
  /\ (absenceChecks (snd (run demoBrowser (take (length flicker) flicker) movedState)) = []
      /\ sidebarOverridden
           (document (fst (run demoBrowser (take (length flicker) flicker) movedState))) = true).
Proof.
  split.
  - destruct (C8_absence_debounce demoBrowser movedState flickerRemoved flickerDuring
                flickerContainer flickerAdded flickerAfter 4) as (H1 & H2 & _).
    + vm_compute. discriminate.
    + unfold Tracked. vm_compute. constructor.
    + repeat constructor.
    + unfold flickerAfter. repeat constructor.
    + vm_compute. lia.
    + split; [exact H1|]. apply H2; vm_compute; reflexivity.
  - destruct (C8_absence_debounce demoBrowser movedState flickerRemoved flickerDuring
                flickerContainer flickerAdded flickerAfter (length flicker)) as (H1 & H2 & _).
    + vm_compute. discriminate.
    + unfold Tracked. vm_compute. constructor.
    + repeat constructor.
    + unfold flickerAfter. repeat constructor.
    + vm_compute. lia.
    + split; [exact H1|]. apply H2; vm_compute; reflexivity.
Defined.

(** An absence that lasts the whole delay: the timer fires once, finds
    the container missing and releases the overrides. *)
Example long_absence_releases :
  let r := run demoBrowser longAbsence movedState in
  absenceChecks (snd r) = [RanAbsenceCheck false]
  /\ sidebarOverridden (document movedState) = true
  /\ sidebarOverridden (document (fst r)) = false.
Proof. vm_compute. auto. Qed.

(** ** What a reconciliation pass leaves alone *)

Lemma keptByM_ret {T A} (p : State -> T) (a : A) : KeptByM p (ret a).
Proof. intros st. reflexivity. Qed.

Lemma keptByM_throw {T A} (p : State -> T) e : KeptByM p (@throw A e).
Proof. intros st. reflexivity. Qed.

Lemma keptByM_touch {T} (p : State -> T) B site : KeptByM p (touch B site).
Proof. intros st. unfold touch. destruct (raises _ _ _); reflexivity. Qed.

Lemma keptByM_modify {T} (p : State -> T) f : KeptBy p f -> KeptByM p (modify f).
Proof. intros H st. apply H. Qed.

Lemma keptByM_bind {T A C} (p : State -> T) (c : M A) (k : A -> M C) :
  KeptByM p c -> (forall a, KeptByM p (k a)) -> KeptByM p (bind c k).
Proof.
  intros Hc Hk st. unfold bind. specialize (Hc st).
  destruct (c st) as [a s1|e s1]; cbn in Hc |- *; [|exact Hc].
  rewrite Hk. exact Hc.
Qed.

Lemma keptByM_get_bind {T A} (p : State -> T) (k : State -> M A) :
  (forall s, KeptByM p (k s)) -> KeptByM p (bind get k).
Proof. intros H st. apply (H st st). Qed.

Lemma keptByM_try_catch {T A} (p : State -> T) (c : M A) h :
  KeptByM p c -> (forall e, KeptByM p (h e)) -> KeptByM p (try_catch c h).
Proof.
  intros Hc Hh st. unfold try_catch. specialize (Hc st).
  destruct (c st) as [a s1|e s1]; cbn in Hc |- *; [exact Hc|].
  rewrite Hh. exact Hc.
Qed.

Ltac keptM :=
  repeat match goal with
         | |- KeptByM _ (ret _) => apply keptByM_ret
         | |- KeptByM _ (throw _) => apply keptByM_throw
         | |- KeptByM _ (touch _ _) => apply keptByM_touch
         | |- KeptByM _ (bind (modify _) _) => apply keptByM_bind; [apply keptByM_modify|intros ?]
         | |- KeptByM _ (bind (touch _ _) _) => apply keptByM_bind; [apply keptByM_touch|intros ?]
         | |- KeptByM _ (bind get _) => apply keptByM_get_bind; intros ?
         | |- KeptByM _ (modify _) => apply keptByM_modify
         | |- KeptByM _ (bind _ _) => apply keptByM_bind; [|intros ?]
         | |- KeptByM _ (if ?c then _ else _) => destruct c
         | |- KeptByM _ (match ?x with _ => _ end) => destruct x
         | |- KeptByM _ (let _ := _ in _) => cbv zeta
         end.

(** Whatever every writer of the pass keeps, the pass keeps. *)
Lemma pass_kept {T} (p : State -> T) B :
  KeptBy p tagContent ->
  KeptBy p addMoveButton ->
  (forall f, KeptBy p (onSidebarStyle f)) ->
  (forall h1 h2 r, KeptBy p (applyMovedLayoutStyles h1 h2 r)) ->
  KeptBy p placeMoved ->
  KeptBy p addResizeListener ->
  KeptBy p applyOriginalLayoutStyles ->
  KeptBy p placeOriginal ->
  KeptBy p removeResizeListener ->
  (forall b, KeptBy p (updateButtonVisualState b)) ->
  (forall l e, KeptBy p (_error l e)) ->
  KeptByM p (applyCurrentLayoutState B).
Proof.
  intros H1 H2 H3 H4 H5 H6 H7 H8 H9 H10 H11.
  assert (Hprep : KeptBy p (fun st => if needsUi st then addMoveButton st else st)).
  { intros st. destruct (needsUi st); [apply H2|reflexivity]. }
  assert (Hvis : KeptBy p (fun st => updateButtonVisualState (truthy (isMoved st)) st)).
  { intros st. apply H10. }
  unfold applyCurrentLayoutState. apply keptByM_try_catch.
  - unfold applyCurrentLayoutState_body, movedBranch, originalBranch, updateVisuals.
    keptM; auto.
  - intros e. keptM. apply H11.
Qed.

Create HintDb writers.
#[global] Hint Unfold addMoveButton tagContent onContent onContentStyle onWrapStyle onSidebarStyle
  onNavStyle placeMoved placeOriginal addResizeListener removeResizeListener
  updateButtonVisualState _error applyOriginalLayoutStyles _resetSidebarListStyles
  applyMovedLayoutStyles query_byId_membersListContainer query_membersListContainer : writers.

Ltac kept :=
  let s := fresh "s" in let d := fresh "d" in
  intros; unfold KeptBy; intros s; autounfold with writers;
  destruct_state s d; destruct_dom d; cbn; split_vars; reflexivity.

Lemma outside_tagContent : KeptBy outsidePass tagContent.
Proof. kept. Qed.

Lemma outside_addMoveButton : KeptBy outsidePass addMoveButton.
Proof. kept. Qed.

Lemma outside_onSidebarStyle f : KeptBy outsidePass (onSidebarStyle f).
Proof. kept. Qed.

Lemma outside_onNavStyle f : KeptBy outsidePass (onNavStyle f).
Proof. kept. Qed.

Lemma outside_applyMovedLayoutStyles h1 h2 r : KeptBy outsidePass (applyMovedLayoutStyles h1 h2 r).
Proof. kept. Qed.

Lemma outside_placeMoved : KeptBy outsidePass placeMoved.
Proof. kept. Qed.

Lemma outside_addResizeListener : KeptBy outsidePass addResizeListener.
Proof. kept. Qed.

Lemma outside_applyOriginalLayoutStyles : KeptBy outsidePass applyOriginalLayoutStyles.
Proof. kept. Qed.

Lemma outside_placeOriginal : KeptBy outsidePass placeOriginal.
Proof. kept. Qed.

Lemma outside_removeResizeListener : KeptBy outsidePass removeResizeListener.
Proof. kept. Qed.

Lemma outside_updateButtonVisualState b : KeptBy outsidePass (updateButtonVisualState b).
Proof. kept. Qed.

Lemma outside_error l e : KeptBy outsidePass (_error l e).
Proof. kept. Qed.

Lemma pass_outside B : KeptByM outsidePass (applyCurrentLayoutState B).
Proof.
  apply pass_kept;
    auto using outside_tagContent, outside_addMoveButton, outside_onSidebarStyle,
      outside_applyMovedLayoutStyles, outside_placeMoved, outside_addResizeListener,
      outside_applyOriginalLayoutStyles, outside_placeOriginal, outside_removeResizeListener,
      outside_updateButtonVisualState, outside_error.
Qed.

(** X1.  A reconciliation pass, whatever it finds and however it ends,
    leaves alone the persisted data, the two proportions, the drag, the
    scheduler and the timers, frames, intervals and observers of the
    host. *)
Theorem X1_pass_keeps_outside B st :
  outsidePass (finalState (applyCurrentLayoutState B st)) = outsidePass st.
Proof. apply pass_outside. Qed.

(** The part of [outsidePass] the scheduler lives in. *)
Lemma outside_sched st st' :
  outsidePass st' = outsidePass st ->
  isThrottling st' = isThrottling st /\ timers st' = timers st /\ frames st' = frames st.
Proof. unfold outsidePass. intros H. injection H. intros. auto. Qed.

(** ** The scheduler after a [stop] *)

Lemma filter_filter_nil {A} (P Q : A -> Prop) `{forall x, Decision (P x)} `{forall x, Decision (Q x)}
    (l : list A) :
  filter P l = [] -> filter P (filter Q l) = [].
Proof.
  intros Hn. apply elem_of_nil_inv. intros x Hx.
  apply list_elem_of_filter in Hx as [HP Hx]. apply list_elem_of_filter in Hx as [_ Hx].
  assert (Hin : x ∈ filter P l) by (apply list_elem_of_filter; auto).
  rewrite Hn in Hin. inversion Hin.
Qed.

Lemma cooldowns_drop id l :
  filter (fun t => isCooldown t = true) l = [] ->
  filter (fun t => isCooldown t = true) (dropTimer id l) = [].
Proof. apply filter_filter_nil. Qed.

Lemma cooldowns_snoc_absence l id due :
  filter (fun t => isCooldown t = true) (l ++ [mkTimer id due AbsenceCheck])
  = filter (fun t => isCooldown t = true) l.
Proof. rewrite filter_app. cbn. apply app_nil_r. Qed.

Ltac wedged :=
  let s := fresh "s" in let d := fresh "d" in
  intros s [H1 [H2 H3]]; destruct_state s d; unfold Wedged, cooldowns in *; cbn in *;
  subst; cbn; split_vars;
  (split; [reflexivity|]; split; [|reflexivity]);
  cbn; rewrite ?cooldowns_snoc_absence; repeat apply cooldowns_drop; assumption.

Lemma queueLayoutReapply_wedged : forall st, Wedged st -> Wedged (queueLayoutReapply st).
Proof. unfold queueLayoutReapply, cancelAnimationFrame, dropId. wedged. Qed.

Lemma clearAbsenceTimer_wedged : forall st, Wedged st -> Wedged (clearAbsenceTimer st).
Proof. unfold clearAbsenceTimer, clearTimeout. wedged. Qed.

Lemma handleMemberListAbsence_wedged :
  forall st, Wedged st -> Wedged (handleMemberListAbsence st).
Proof.
  unfold handleMemberListAbsence, clearAbsenceTimer, clearTimeout, setTimeout, fresh. wedged.
Qed.

Lemma sidebar_writer_wedged f : forall st, Wedged st -> Wedged (onSidebarStyle f st).
Proof. intros st H. destruct_state st d. exact H. Qed.

Lemma nav_writer_wedged f : forall st, Wedged st -> Wedged (onNavStyle f st).
Proof. intros st H. destruct_state st d. exact H. Qed.

Lemma resetSidebar_wedged : forall st, Wedged st -> Wedged (_resetSidebarListStyles st).
Proof.
  intros st H. unfold _resetSidebarListStyles. destruct (sidebarList _); [|exact H].
  auto using sidebar_writer_wedged, nav_writer_wedged.
Qed.

Lemma absenceCheck_wedged : forall st, Wedged st -> Wedged (absenceCheck st).
Proof.
  intros st H. unfold absenceCheck.
  assert (E : forall s, Wedged s -> Wedged (s <| memberListAbsenceTimer := None |>)).
  { intros s Hs. destruct_state s d. exact Hs. }
  apply E. destruct (membersWrap _);
    auto using queueLayoutReapply_wedged, resetSidebar_wedged.
Qed.

Lemma scanAdded_wedged nodes : forall st, Wedged st -> Wedged (fold_left scanAdded nodes st).
Proof.
  induction nodes as [|n nodes IH]; intros st H; cbn [fold_left]; [exact H|].
  apply IH. unfold scanAdded. destruct (_ && _); auto using clearAbsenceTimer_wedged.
Qed.

Lemma scanMutation_wedged records : forall b st,
  Wedged st -> Wedged (snd (fold_left scanMutation records (b, st))).
Proof.
  induction records as [|m records IH]; intros b st H; cbn [fold_left]; [exact H|].
  destruct m as [name target|removed added]; cbn [scanMutation].
  - destruct (String.eqb name "style"); apply IH; exact H.
  - apply IH. apply scanAdded_wedged. exact H.
Qed.

Lemma observerCallback_wedged records : forall st,
  Wedged st -> Wedged (observerCallback records st).
Proof.
  intros st H. unfold observerCallback.
  pose proof (scanMutation_wedged records false st H) as H1.
  destruct (fold_left scanMutation records (false, st)) as [need st1]. cbn [snd] in H1.
  assert (H2 : Wedged (if need then queueLayoutReapply st1 else st1)).
  { destruct need; auto using queueLayoutReapply_wedged. }
  destruct (membersWrap _);
    auto using clearAbsenceTimer_wedged, handleMemberListAbsence_wedged.
Qed.

Lemma deliver_wedged records st : Wedged st -> Wedged (deliver records st).
Proof.
  unfold deliver. generalize (observers st). intros obs. revert st.
  induction obs as [|o obs IH]; intros st H; cbn [fold_left]; [exact H|].
  apply IH. apply observerCallback_wedged. exact H.
Qed.

Lemma handleWindowResize_wedged B : forall st, Wedged st -> Wedged (handleWindowResize B st).
Proof.
  intros st H. unfold handleWindowResize.
  repeat (match goal with |- context [if ?c then _ else _] => destruct c
                     | |- context [match ?x with _ => _ end] => destruct x end;
          try exact H).
  auto using queueLayoutReapply_wedged, sidebar_writer_wedged, nav_writer_wedged.
Qed.

Lemma onMouseMove_wedged B y : forall st, Wedged st -> Wedged (onMouseMove B y st).
Proof.
  intros st H. unfold onMouseMove.
  repeat (match goal with |- context [if ?c then _ else _] => destruct c
                     | |- context [match ?x with _ => _ end] => destruct x end;
          try exact H).
  unfold BdApi_saveData.
  match goal with |- context [queueLayoutReapply ?s] =>
    assert (Hq : Wedged (queueLayoutReapply s));
    [apply queueLayoutReapply_wedged; destruct_state st d; exact H|];
    destruct (queueLayoutReapply s) end.
  exact Hq.
Qed.

Lemma onclick_wedged : forall st, Wedged st -> Wedged (onclick st).
Proof.
  intros st H. unfold onclick, BdApi_saveData. cbv zeta.
  apply queueLayoutReapply_wedged. destruct_state st d. exact H.
Qed.

Lemma onmousedown_wedged y : forall st, Wedged st -> Wedged (onmousedown y st).
Proof.
  intros st H. unfold onmousedown. destruct (negb _); [exact H|].
  destruct_state st d. exact H.
Qed.

Lemma onMouseUp_wedged : forall st, Wedged st -> Wedged (onMouseUp st).
Proof. intros st H. destruct_state st d. exact H. Qed.

Lemma executions_app l1 l2 : executions (l1 ++ l2) = (executions l1 + executions l2)%nat.
Proof. unfold executions. rewrite filter_app, length_app. reflexivity. Qed.

Lemma fireTimer_wedged l : forall st log,
  Forall (fun t => isCooldown t = false) l ->
  Wedged st ->
  Wedged (fst (fold_left fireTimer l (st, log)))
  /\ executions (snd (fold_left fireTimer l (st, log))) = executions log.
Proof.
  induction l as [|t l IH]; intros st log Hl H; cbn [fold_left]; [cbn; auto|].
  inversion Hl as [|? ? Ht Hl']; subst.
  assert (E : exists st1 log1, fireTimer (st, log) t = (st1, log1)
                               /\ Wedged st1 /\ executions log1 = executions log).
  { unfold fireTimer. destruct (pending _ _); [|eauto].
    unfold isCooldown in Ht. destruct (t_cb t); [discriminate|].
    eexists _, _. split; [reflexivity|]. split.
    - apply absenceCheck_wedged. destruct H as (H1 & H2 & H3).
      destruct_state st d. unfold Wedged, cooldowns in *. cbn in *.
      split; [assumption|]. split; [apply cooldowns_drop|]; assumption.
    - rewrite executions_app.
      match goal with |- context [executions [?f]] =>
        replace (executions [f]) with 0%nat by reflexivity end. lia. }
  destruct E as (st1 & log1 & -> & W1 & E1).
  destruct (IH st1 log1 Hl' W1) as (W2 & E2). split; [exact W2|congruence].
Qed.

Lemma tick_wedged st :
  Wedged st -> Wedged (fst (tick st)) /\ executions (snd (tick st)) = 0%nat.
Proof.
  intros H. unfold tick. cbv zeta.
  assert (H1 : Wedged (st <| clock ::= S |>)).
  { destruct_state st d. exact H. }
  set (st1 := st <| clock ::= S |>) in *. clearbody st1.
  apply fireTimer_wedged; [|exact H1].
  apply Forall_forall. intros t Hin. apply list_elem_of_filter in Hin as [_ Hin].
  destruct (isCooldown t) eqn:E; [exfalso|reflexivity].
  destruct H1 as (_ & H2 & _). unfold cooldowns in H2.
  assert (Hc : t ∈ filter (fun t => isCooldown t = true) (timers st1))
    by (apply list_elem_of_filter; auto).
  rewrite H2 in Hc. inversion Hc.
Qed.

Lemma step_wedged B ev st :
  Wedged st -> Wedged (fst (step B ev st)) /\ executions (snd (step B ev st)) = 0%nat.
Proof.
  intros H. destruct ev as [| |change records| |y|y| | |]; cbn [step fst snd];
    try (split; [|reflexivity]).
  - apply tick_wedged. exact H.
  - unfold animationFrame. destruct H as (H1 & H2 & H3). rewrite H3. cbn.
    split; [|reflexivity]. destruct_state st d. cbn in *. subst. repeat split; assumption.
  - apply deliver_wedged. destruct_state st d. exact H.
  - destruct (resizeListener st); auto using handleWindowResize_wedged.
  - destruct (resizeHandle st); auto using onmousedown_wedged.
  - destruct (mousemoveListener st); auto using onMouseMove_wedged.
  - destruct (mouseupListener st); auto using onMouseUp_wedged.
  - destruct (_ && _); auto using onclick_wedged.
  - apply queueLayoutReapply_wedged. exact H.
Qed.

Lemma run_wedged B evs : forall st,
  Wedged st -> executions (snd (run B evs st)) = 0%nat.
Proof.
  induction evs as [|ev evs IH]; intros st H; [reflexivity|].
  rewrite run_cons. cbn [snd]. rewrite executions_app.
  destruct (step_wedged B ev st H) as (H1 & ->). rewrite (IH _ H1). reflexivity.
Qed.

Lemma filter_tracked_nil {A} (P : A -> Prop) `{forall x, Decision (P x)} (key : A -> nat)
    (l : list A) id :
  Forall (fun x => Some id = Some (key x)) (filter P l) ->
  filter P (filter (fun x => key x ≠ id) l) = [].
Proof.
  intros Hall. rewrite Forall_forall in Hall.
  apply elem_of_nil_inv. intros x Hx.
  apply list_elem_of_filter in Hx as [HP Hx]. apply list_elem_of_filter in Hx as [Hne Hx].
  assert (Hin : x ∈ filter P l) by (apply list_elem_of_filter; auto).
  specialize (Hall x Hin). congruence.
Qed.

Lemma stop_stages st : stop st = applyOriginalLayoutStyles (stopSurface (stopServices st)).
Proof. reflexivity. Qed.

Lemma stopSurface_wedged st : Wedged st -> Wedged (stopSurface st).
Proof.
  intros H. unfold stopSurface.
  repeat match goal with
         | |- context [match ?x with Some _ => _ | None => _ end] => destruct x
         end; destruct_state st d; exact H.
Qed.

Lemma outside_wedged st st' : outsidePass st' = outsidePass st -> Wedged st -> Wedged st'.
Proof.
  intros H. apply outside_sched in H as (K1 & K2 & K3).
  unfold Wedged, cooldowns. rewrite K1, K2, K3. auto.
Qed.

Lemma applyOriginalLayoutStyles_wedged st : Wedged st -> Wedged (applyOriginalLayoutStyles st).
Proof. apply outside_wedged, outside_applyOriginalLayoutStyles. Qed.

Lemma cooldowns_drop_tracked id l :
  Forall (fun t => Some id = Some (t_id t)) (filter (fun t => isCooldown t = true) l) ->
  filter (fun t => isCooldown t = true) (dropTimer id l) = [].
Proof. apply (filter_tracked_nil _ t_id). Qed.

(** [stop] inside a cooldown leaves the scheduler wedged. *)
Lemma stop_wedged st :
  isThrottling st = true ->
  Forall (fun t => reapplyTimeout st = Some (t_id t)) (cooldowns st) ->
  Forall (fun id => animationFrameId st = Some id) (frames st) ->
  Wedged (stop st).
Proof.
  intros Ht Hc Hf. rewrite stop_stages.
  apply applyOriginalLayoutStyles_wedged, stopSurface_wedged.
  destruct_state st d.
  unfold Wedged, stopServices, cooldowns, clearAbsenceTimer, clearInterval, clearTimeout,
    cancelAnimationFrame, disconnect in *. cbn in *. subst.
  repeat match goal with
         | |- context [match ?x with Some _ => _ | None => _ end] => is_var x; destruct x; cbn
         end.
  all: split; [reflexivity|].
  all: split.
  all: repeat first [apply cooldowns_drop_tracked; assumption | apply cooldowns_drop].
  all: try (unfold dropId; apply elem_of_nil_inv; intros x Hx;
            apply list_elem_of_filter in Hx as [Hne Hx];
            rewrite Forall_forall in Hf; specialize (Hf x Hx); congruence).
  all: apply elem_of_nil_inv; intros x Hx; rewrite Forall_forall in Hc;
       rewrite Forall_forall in Hf;
       first [specialize (Hc x Hx) | specialize (Hf x Hx)]; discriminate.
Qed.

Lemma start_wedged B st : Wedged st -> Wedged (finalState (start B st)).
Proof.
  set (p := fun x : State => (isThrottling x, (timers x, frames x))).
  assert (K : KeptByM p (start B)).
  { unfold start.
    repeat match goal with
           | |- KeptByM _ (bind get _) => apply keptByM_get_bind; intros ?
           | |- KeptByM _ (let _ := _ in _) => cbv zeta
           | |- KeptByM _ (ret _) => apply keptByM_ret
           | |- KeptByM _ (throw _) => apply keptByM_throw
           | |- KeptByM _ (if ?c then _ else _) => destruct c
           | |- KeptByM _ (match ?x with _ => _ end) => destruct x
           | |- KeptByM _ (modify _) => apply keptByM_modify
           | |- KeptByM _ (applyCurrentLayoutState _) =>
               let s := fresh "s" in
               intros s; destruct (outside_sched _ _ (pass_outside B s)) as (? & ? & ?);
               unfold p; congruence
           | |- KeptByM _ (bind _ _) => apply keptByM_bind; [|intros ?]
           end.
    all: let s := fresh "s" in let d := fresh "d" in
         intros s; destruct_state s d;
         unfold p, setupObserver, setInterval, observe, fresh, disconnect; cbn; split_vars;
         reflexivity. }
  intros H. specialize (K st). unfold p in K. injection K as K1 K2 K3.
  unfold Wedged, cooldowns. rewrite K1, K2, K3. exact H.
Qed.

(** X2.  [stop] during a cooldown clears the cooldown timer but leaves
    [isThrottling] set, and [start] does not reset it: on the restarted
    instance every request is parked as a pending call that nothing
    picks up, and the scheduler never runs a pass again, whatever
    happens. *)
Theorem X2_stop_in_cooldown_wedges_scheduler B st evs :
  isThrottling st = true ->
  Forall (fun t => reapplyTimeout st = Some (t_id t)) (cooldowns st) ->
  Forall (fun id => animationFrameId st = Some id) (frames st) ->
  let restarted := finalState (start B (stop st)) in
  isThrottling (fst (run B evs restarted)) = true
  /\ executions (snd (run B evs restarted)) = 0%nat.
Proof.
  intros Ht Hc Hf. cbv zeta.
  pose proof (start_wedged B _ (stop_wedged st Ht Hc Hf)) as W.
  split; [|apply run_wedged; exact W].
  revert W. generalize (finalState (start B (stop st))). clear.
  induction evs as [|ev evs IH]; intros st W; [apply W|].
  rewrite run_cons. cbn [fst]. apply IH. apply step_wedged. exact W.
Qed.

Lemma X2_witness :
  let restarted := finalState (start demoBrowser (stop coolingState)) in
  isThrottling (fst (run demoBrowser busyEvents restarted)) = true
  /\ executions (snd (run demoBrowser busyEvents restarted)) = 0%nat.
Proof.
  apply (X2_stop_in_cooldown_wedges_scheduler demoBrowser coolingState busyEvents).
  - vm_compute. reflexivity.
  - unfold cooldowns. vm_compute. repeat constructor.
  - vm_compute. repeat constructor.
Defined.

(** ** The periodic audit *)

Lemma audit_cases B pf st :
  checkAndReapplyLayout B pf st = st
  \/ checkAndReapplyLayout B pf st = prepared st
  \/ checkAndReapplyLayout B pf st = queueLayoutReapply (prepared st).
Proof.
  unfold checkAndReapplyLayout, prepared.
  repeat match goal with
         | |- context [match ?x with Some _ => _ | None => _ end] => destruct x
         | |- context [if ?c then _ else _] => destruct c
         end; auto.
Qed.

Lemma prepared_styles st :
  pageStyles (document (prepared st)) = pageStyles (document st)
  /\ storage (prepared st) = storage st.
Proof.
  destruct_state st d. destruct_dom d; unfold prepared, tagContent, onContent, addMoveButton;
    cbn; repeat (match goal with |- context [if ?c then _ else _] => destruct c end; cbn);
    repeat case_match; auto.
Qed.

(** X3.  The audit repairs nothing itself: it leaves every inline style
    of the page, the mode, the proportions and the persisted data as they
    are, and when the container, the upper region, the boundary section
    or the content node is missing it changes nothing at all. *)
Theorem X3_audit_writes_no_style B pf st :
  let st' := checkAndReapplyLayout B pf st in
  pageStyles (document st') = pageStyles (document st)
  /\ isMoved st' = isMoved st
  /\ sidebarHeightPercentage st' = sidebarHeightPercentage st
  /\ membersHeightPercentage st' = membersHeightPercentage st
  /\ storage st' = storage st
  /\ (membersWrap (document st) = None \/ sidebarList (document st) = None
      \/ userIDSection (document st) = false
      \/ query_membersListContainer (document st) = None -> st' = st).
Proof.
  cbv zeta. split; [|split; [|split; [|split; [|split]]]].
  1-5: destruct (audit_cases B pf st) as [-> | [-> | ->]]; try reflexivity;
       destruct (prepared_fields st) as (F1 & F2 & F3 & _);
       destruct (prepared_styles st) as (F4 & F5);
       try destruct (queueLayoutReapply_untouched (prepared st));
       congruence.
  unfold checkAndReapplyLayout, query_userIDSection, query_membersListContainer.
  destruct (membersWrap (document st)) as [mw|]; [|reflexivity].
  destruct (sidebarList (document st)) as [sl|]; [|reflexivity].
  cbn. intros [H|[H|[H|H]]]; try discriminate; rewrite H; try reflexivity.
  destruct (negb _); reflexivity.
Qed.


Lemma Qle_bool_false_pos x : 0 < x -> Qle_bool x 0 = false.
Proof.
  intros H. apply not_true_iff_false. rewrite Qle_bool_iff. intros H'.
  apply (Qlt_irrefl 0). eapply Qlt_le_trans; eassumption.
Qed.

Ltac look :=
  unfold setProperty, removeProperty;
  repeat first [ rewrite lookup_insert_eq
               | rewrite lookup_insert_ne by discriminate
               | rewrite lookup_delete_eq
               | rewrite lookup_delete_ne by discriminate ].






(** Preparation leaves the control surface in memory, new elements
    detached. *)
Lemma prepared_ui st mw :
  membersWrap (document st) = Some mw ->
  needsUi (prepared st) = false
  /\ (exists mw0, membersWrap (document (prepared st)) = Some mw0
                  /\ mw_node mw0 = mw_node mw
                  /\ mlc_node <$> mw_content mw0 = mlc_node <$> mw_content mw)
  /\ exists w h, wrapperDiv (prepared st) = Some w /\ resizeHandle (prepared st) = Some h
       /\ (wrapperDiv st = Some w \/ wr_parent w = Detached)
       /\ (resizeHandle st = Some h \/ rh_parent h = Detached).
Proof.
  intros Hmw.
  destruct st as [? bt wd ? rh ? ? ? ? ? ? ? ? ? ? ? ? ? ? ? ? ? d ? ? ? ? ? ? ? ? ? ? ? ?].
  destruct_dom d; try discriminate.
  all: cbn in Hmw; injection Hmw as <-.
  all: destruct bt, wd, rh.
  all: unfold prepared, needsUi, tagContent, onContent, addMoveButton;
       cbn -[newWrapper newHandle].
  all: split; [reflexivity|]; (split; [eexists; split; [reflexivity|]; split; reflexivity|]).
  all: eexists _, _; split; [reflexivity|]; split; [reflexivity|]; split; auto.
Qed.



Lemma visual_surface b st w h :
  wrapperDiv st = Some w ->
  resizeHandle st = Some h ->
  needsUi (updateButtonVisualState b st) = needsUi st
  /\ isMoved (updateButtonVisualState b st) = isMoved st
  /\ resizeHandle (updateButtonVisualState b st) = Some h
  /\ exists w', wrapperDiv (updateButtonVisualState b st) = Some w'
       /\ wr_parent w' = wr_parent w
       /\ wr_style w' !! "display" = wr_style w !! "display".
Proof.
  intros Hw Hh. destruct_state st d. cbn in Hw, Hh. subst.
  unfold updateButtonVisualState, needsUi. cbn.
  match goal with |- context [if ?c then _ else _] => destruct c end; cbn.
  - repeat split; eauto.
  - repeat split. destruct w as [ws wp wsub wt wb]. eexists. split; [reflexivity|]. cbn.
    split; [reflexivity|]. look. reflexivity.
Qed.

Lemma tagContent_tagged st :
  (forall c, query_membersListContainer (document st) = Some c ->
             mlc_id c = "bd-members-list-container"%string) ->
  tagContent st = st.
Proof.
  intros H. destruct_state st d. destruct_dom d; cbn in H |- *; try reflexivity.
  all: pose proof (H _ eq_refl) as E; cbn in E; subst; reflexivity.
Qed.




(** ** Passes in MOVED mode *)

Section Moded.

Context (R : State -> State -> Prop).
Hypothesis R_refl : forall s, R s s.
Hypothesis R_trans : forall a b c, R a b -> R b c -> R a c.
Hypothesis R_mode : forall s s', R s s' -> isMoved s' = isMoved s.

Lemma modedM_ret {A} (a : A) : ModedM R (ret a).
Proof. intros s _. apply R_refl. Qed.

Lemma modedM_throw {A} e : ModedM R (@throw A e).
Proof. intros s _. apply R_refl. Qed.

Lemma modedM_touch B site : ModedM R (touch B site).
Proof. intros s _. unfold touch. destruct (raises _ _ _); apply R_refl. Qed.

Lemma modedM_modify f : (forall st, R st (f st)) -> ModedM R (modify f).
Proof. intros H s _. apply H. Qed.

Lemma modedM_bind {A C} (c : M A) (k : A -> M C) :
  ModedM R c -> (forall a, ModedM R (k a)) -> ModedM R (bind c k).
Proof.
  intros Hc Hk s Ht. unfold bind. specialize (Hc s Ht).
  destruct (c s) as [a s1|e s1]; cbn in Hc |- *; [|exact Hc].
  eapply R_trans; [exact Hc|]. apply Hk. rewrite (R_mode _ _ Hc). exact Ht.
Qed.

Lemma modedM_get_bind {A} (k : State -> M A) :
  (forall s, truthy (isMoved s) = true -> R s (finalState (k s s))) -> ModedM R (bind get k).
Proof. intros H s Ht. apply (H s Ht). Qed.

Lemma modedM_try_catch {A} (c : M A) h :
  ModedM R c -> (forall e, ModedM R (h e)) -> ModedM R (try_catch c h).
Proof.
  intros Hc Hh s Ht. unfold try_catch. specialize (Hc s Ht).
  destruct (c s) as [a s1|e s1]; cbn in Hc |- *; [exact Hc|].
  eapply R_trans; [exact Hc|]. apply Hh. rewrite (R_mode _ _ Hc). exact Ht.
Qed.

Ltac modedM :=
  repeat match goal with
         | |- ModedM _ (ret _) => apply modedM_ret
         | |- ModedM _ (throw _) => apply modedM_throw
         | |- ModedM _ (touch _ _) => apply modedM_touch
         | |- ModedM _ (bind (modify _) _) => apply modedM_bind; [apply modedM_modify|intros ?]
         | |- ModedM _ (bind (touch _ _) _) => apply modedM_bind; [apply modedM_touch|intros ?]
         | |- ModedM _ (modify _) => apply modedM_modify
         end.

Ltac moded_resume s Hs :=
  match goal with
  | |- R s (finalState (?c s)) => cut (ModedM R c); [intros HC; exact (HC s Hs)|]
  end.

(** What every writer on the MOVED path does, a pass started in MOVED mode
    does. *)
Lemma pass_moded B :
  (forall st, R st (tagContent st)) ->
  (forall st, R st (addMoveButton st)) ->
  (forall f st, R st (onSidebarStyle f st)) ->
  (forall h1 h2 r st, R st (applyMovedLayoutStyles h1 h2 r st)) ->
  (forall st, R st (placeMoved st)) ->
  (forall st, R st (addResizeListener st)) ->
  (forall b st, R st (updateButtonVisualState b st)) ->
  (forall l e st, R st (_error l e st)) ->
  ModedM R (applyCurrentLayoutState B).
Proof.
  intros H1 H2 H3 H4 H5 H6 H7 H8.
  assert (Hprep : forall st, R st (if needsUi st then addMoveButton st else st)).
  { intros st. destruct (needsUi st); [apply H2|apply R_refl]. }
  assert (Hmoved : ModedM R (movedBranch B)).
  { unfold movedBranch. modedM.
    apply modedM_get_bind. intros s Hs. cbv zeta.
    destruct (Qle_bool _ 0); [apply R_refl|].
    moded_resume s Hs. modedM; [apply H3|].
    apply modedM_get_bind. intros s1 Hs1. cbv zeta.
    moded_resume s1 Hs1. modedM; auto. }
  assert (Hvis : ModedM R (updateVisuals B)).
  { unfold updateVisuals. modedM. intros st. apply H7. }
  unfold applyCurrentLayoutState. apply modedM_try_catch.
  - unfold applyCurrentLayoutState_body. modedM.
    apply modedM_get_bind. intros s Hs.
    destruct (membersWrap (document s)); [|apply R_refl].
    destruct (sidebarList (document s)); [|apply R_refl].
    destruct (negb _); [apply R_refl|].
    moded_resume s Hs. modedM; [apply H1 | apply Hprep |].
    apply modedM_get_bind. intros s1 Hs1. rewrite Hs1.
    moded_resume s1 Hs1.
    apply modedM_bind; [exact Hmoved|].
    intros [|]; [exact Hvis | apply modedM_ret].
  - intros e. modedM. apply H8.
Qed.

End Moded.

Lemma StaysInContent_refl st : StaysInContent st st.
Proof. split; auto. Qed.

Lemma StaysInContent_trans a b c :
  StaysInContent a b -> StaysInContent b c -> StaysInContent a c.
Proof. intros [] []. split; [congruence|auto]. Qed.

Ltac stays_put :=
  intros;
  lazymatch goal with
  | |- StaysInContent ?st _ =>
    split;
    [ let d := fresh "d" in
      autounfold with writers; destruct_state st d; destruct_dom d; cbn; split_vars; reflexivity
    | let mw := fresh "mw" in let c := fresh "c" in let w := fresh "w" in
      let Hmw := fresh "Hmw" in let Hc := fresh "Hc" in let Hw := fresh "Hw" in
      let Hp := fresh "Hp" in let d := fresh "d" in
      intros (mw & c & w & Hmw & Hc & Hw & Hp);
      destruct_state st d; cbn in Hmw, Hw; subst;
      destruct d as [omw osl sec]; cbn in Hmw; subst;
      destruct mw as [n s oc]; cbn in Hc; subst;
      destruct c as [cn cid cs]; destruct w as [ws wp wsub wt wb]; cbn in Hp; subst;
      autounfold with writers; unfold wrapperInContent;
      cbn -[setProperty removeProperty newHandle];
      rewrite ?Nat.eqb_refl; cbn -[setProperty removeProperty newHandle];
      repeat (match goal with
              | |- context [match ?x with _ => _ end] => is_var x; destruct x
              | |- context [if ?c then _ else _] => destruct c
              end; cbn -[setProperty removeProperty newHandle]);
      rewrite ?Nat.eqb_refl; cbn -[setProperty removeProperty newHandle];
      eexists _, _, _; repeat split; reflexivity ]
  end.

Lemma stays_tagContent : forall st, StaysInContent st (tagContent st).
Proof. stays_put. Qed.

Lemma stays_addMoveButton : forall st, StaysInContent st (addMoveButton st).
Proof. stays_put. Qed.

Lemma stays_onSidebarStyle f : forall st, StaysInContent st (onSidebarStyle f st).
Proof. stays_put. Qed.

Lemma stays_applyMovedLayoutStyles h1 h2 r :
  forall st, StaysInContent st (applyMovedLayoutStyles h1 h2 r st).
Proof. stays_put. Qed.

Lemma stays_placeMoved : forall st, StaysInContent st (placeMoved st).
Proof. stays_put. Qed.

Lemma stays_addResizeListener : forall st, StaysInContent st (addResizeListener st).
Proof. stays_put. Qed.

Lemma stays_updateButtonVisualState b :
  forall st, StaysInContent st (updateButtonVisualState b st).
Proof. stays_put. Qed.

Lemma stays_error l e : forall st, StaysInContent st (_error l e st).
Proof. stays_put. Qed.

Lemma pass_stays B st :
  truthy (isMoved st) = true -> StaysInContent st (finalState (applyCurrentLayoutState B st)).
Proof.
  revert st. apply (pass_moded StaysInContent StaysInContent_refl StaysInContent_trans).
  - intros s s' H. apply H.
  - apply stays_tagContent.
  - apply stays_addMoveButton.
  - intros f. apply stays_onSidebarStyle.
  - intros h1 h2 r. apply stays_applyMovedLayoutStyles.
  - apply stays_placeMoved.
  - apply stays_addResizeListener.
  - intros b. apply stays_updateButtonVisualState.
  - intros l e. apply stays_error.
Qed.

(** No writer of the pass adds or removes one of the four nodes. *)
Lemma pass_presence B : KeptByM (fun st => presence (document st)) (applyCurrentLayoutState B).
Proof. apply pass_kept; kept. Qed.

Lemma prepared_stays st : StaysInContent st (prepared st).
Proof.
  unfold prepared. eapply StaysInContent_trans; [apply stays_tagContent|].
  destruct (needsUi _); [apply stays_addMoveButton|apply StaysInContent_refl].
Qed.

(** X5.  The MOVED pass re-parents the button wrapper only when the
    container does not contain it, so a wrapper that hangs inside the
    content node (where the ORIGINAL layout puts it) stays there; the
    audit wants it to be a child of the container.  In such a state the
    audit requests a reapply, and the pass that follows, however it
    ends, leaves the state such: the audit never settles. *)
Theorem X5_audit_never_settles_after_toggle B pf st :
  Misplaced st ->
  checkAndReapplyLayout B pf st = queueLayoutReapply (prepared st)
  /\ Misplaced (finalState (applyCurrentLayoutState B st)).
Proof.
  intros (Hm & Hin & Hsl & Hsec). split.
  - destruct (prepared_stays st) as [M0 W0]. specialize (W0 Hin).
    destruct W0 as (mw0 & c0 & w0 & Hmw0 & Hc0 & Hw0 & Hp0).
    destruct Hin as (mw & c & w & Hmw & Hc & Hw & Hp). destruct Hsl as [sl Hsl].
    unfold checkAndReapplyLayout, query_userIDSection. rewrite Hmw, Hsl, Hsec, Hc. cbn [negb].
    fold (prepared st).
    assert (E : placementDeviates (prepared st) mw c = true); [|rewrite E; reflexivity].
    unfold placementDeviates, query_wrapperDiv, inDocument.
    rewrite M0, Hm, Hw0, Hmw0. cbn. rewrite Hp0. cbn. rewrite Hc0, Nat.eqb_refl. cbn.
    rewrite Hp0. reflexivity.
  - destruct (pass_stays B st Hm) as [M1 W1].
    pose proof (pass_presence B st) as P1. cbv beta in P1. unfold presence in P1.
    injection P1 as _ _ P3 P4.
    split; [rewrite M1; exact Hm|]. split; [exact (W1 Hin)|]. split.
    + apply (bool_decide_unpack _). rewrite P3. apply bool_decide_pack. exact Hsl.
    + rewrite P4. exact Hsec.
Qed.

Lemma X5_witness :
  checkAndReapplyLayout demoBrowser demoParseFloat toggledState
  = queueLayoutReapply (prepared toggledState)
  /\ Misplaced (finalState (applyCurrentLayoutState demoBrowser toggledState)).
Proof.
  apply (X5_audit_never_settles_after_toggle demoBrowser demoParseFloat toggledState).
  split; [reflexivity|]. split; [|split; [vm_compute; eauto|reflexivity]].
  eexists _, _, _.
  split; [vm_compute; reflexivity|].
  split; [vm_compute; reflexivity|].
  split; [vm_compute; reflexivity|].
  vm_compute. reflexivity.
Defined.

(** ** The ORIGINAL pass and the audit *)

Lemma pass_original_quiet B st :
  (forall site d, raises B site d = None) ->
  is_Some (membersWrap (document st)) ->
  is_Some (sidebarList (document st)) ->
  userIDSection (document st) = true ->
  truthy (isMoved (prepared st)) = false ->
  applyCurrentLayoutState B st =
  Ret tt (updateButtonVisualState (truthy (isMoved (afterOriginal (prepared st))))
            (afterOriginal (prepared st))).
Proof.
  intros quiet [mw Hmw] [sl Hsl] Hsec Hmode.
  unfold applyCurrentLayoutState, try_catch, applyCurrentLayoutState_body.
  rewrite (bind_touch B quiet), bind_get. cbv beta.
  unfold query_userIDSection. rewrite Hmw, Hsl, Hsec. cbn [negb].
  rewrite !bind_modify, bind_get. fold (prepared st). rewrite Hmode.
  unfold originalBranch.
  unfold bind at 1. unfold bind at 1. rewrite (touch_quiet B quiet).
  unfold bind at 1. unfold modify at 1. unfold bind at 1. rewrite (touch_quiet B quiet).
  unfold bind at 1. unfold modify at 1. unfold modify at 1.
  rewrite (updateVisuals_quiet B quiet). reflexivity.
Qed.

(** The ORIGINAL procedure on the control surface: at most the colour
    and the text of the button change. *)
Lemma applyOriginalLayoutStyles_surface st w h :
  wrapperDiv st = Some w ->
  resizeHandle st = Some h ->
  truthy (isMoved st) = false ->
  let st1 := applyOriginalLayoutStyles st in
  needsUi st1 = needsUi st
  /\ truthy (isMoved st1) = false
  /\ bdResizeListenerAdded st1 = bdResizeListenerAdded st
  /\ resizeHandle st1 = Some h
  /\ exists w', wrapperDiv st1 = Some w' /\ wr_parent w' = wr_parent w
       /\ wr_style w' !! "display" = wr_style w !! "display".
Proof.
  intros Hw Hh Hm. cbv zeta.
  set (p := fun s : State =>
              (needsUi s, isMoved s, bdResizeListenerAdded s, resizeHandle s, wrapperDiv s)).
  assert (Kw : forall f, KeptBy p (onWrapStyle f)) by kept.
  assert (Kc : forall f, KeptBy p (onContentStyle f)) by kept.
  assert (Ks : KeptBy p _resetSidebarListStyles) by kept.
  assert (E : exists s1, p s1 = p st
                /\ applyOriginalLayoutStyles st
                   = if bool_decide (is_Some (wrapperDiv s1)) && subContainerDiv s1 && button s1
                     then updateButtonVisualState false (s1 <| isMoved := JBool false |>)
                     else s1).
  { unfold applyOriginalLayoutStyles. cbv zeta. eexists. split; [|reflexivity].
    repeat match goal with
           | |- context [match ?x with Some _ => _ | None => _ end] => destruct x
           end;
      rewrite ?Kc, ?Ks, ?Kw; reflexivity. }
  destruct E as (s1 & K & ->). unfold p in K. clear p Kw Kc Ks.
  injection K as K1 K2 K3 K4 K5.
  destruct (_ && _).
  - assert (Hw1 : wrapperDiv (s1 <| isMoved := JBool false |>) = Some w)
      by (destruct_state s1 d; cbn in *; congruence).
    assert (Hh1 : resizeHandle (s1 <| isMoved := JBool false |>) = Some h)
      by (destruct_state s1 d; cbn in *; congruence).
    destruct (visual_surface false _ w h Hw1 Hh1) as (NV & MV & HV & wV & WV & PwV & DwV).
    rewrite NV, MV, HV.
    split; [destruct_state s1 d; exact K1|].
    split; [destruct_state s1 d; reflexivity|].
    split; [rewrite <- K3; unfold updateButtonVisualState;
            destruct (_ || _); destruct_state s1 d; reflexivity|].
    split; [reflexivity|]. eauto.
  - split; [exact K1|]. split; [rewrite K2; exact Hm|]. split; [exact K3|].
    split; [congruence|]. exists w. split; [congruence|]. auto.
Qed.

Lemma placeOriginal_surface st mw c w h :
  membersWrap (document st) = Some mw ->
  mw_content mw = Some c ->
  wrapperDiv st = Some w ->
  resizeHandle st = Some h ->
  let st2 := placeOriginal st in
  needsUi st2 = needsUi st
  /\ isMoved st2 = isMoved st
  /\ exists w' h', wrapperDiv st2 = Some w' /\ resizeHandle st2 = Some h'
       /\ wr_parent w' = InContent (mlc_node c) /\ rh_parent h' = Detached
       /\ wr_style w' !! "display" = Some (Kw "flex").
Proof.
  intros Hmw Hc Hw Hh. cbv zeta.
  destruct_state st d. cbn in Hmw, Hw, Hh. subst.
  unfold placeOriginal, query_membersListContainer, needsUi. cbn. rewrite Hmw. cbn. rewrite Hc.
  destruct w as [ws wp wsub wt wb], h as [hs hp hin]. cbn.
  split; [reflexivity|]. split; [reflexivity|].
  eexists _, _. split; [reflexivity|]. split; [reflexivity|]. cbn.
  split; [|split].
  - destruct wp as [|n|n]; cbn; try reflexivity.
    destruct (Nat.eqb_spec n (mlc_node c)); [subst|]; reflexivity.
  - destruct hp; reflexivity.
  - destruct (contentContains c wp); cbn; look; reflexivity.
Qed.

Lemma removeResizeListener_surface st :
  needsUi (removeResizeListener st) = needsUi st
  /\ isMoved (removeResizeListener st) = isMoved st
  /\ wrapperDiv (removeResizeListener st) = wrapperDiv st
  /\ resizeHandle (removeResizeListener st) = resizeHandle st.
Proof.
  unfold removeResizeListener. destruct (bdResizeListenerAdded st);
    destruct_state st d; repeat split; reflexivity.
Qed.

Lemma afterOriginal_surface st0 mw0 c0 w0 h0 :
  membersWrap (document st0) = Some mw0 ->
  mw_content mw0 = Some c0 ->
  wrapperDiv st0 = Some w0 ->
  resizeHandle st0 = Some h0 ->
  truthy (isMoved st0) = false ->
  let st3 := afterOriginal st0 in
  needsUi st3 = needsUi st0
  /\ truthy (isMoved st3) = false
  /\ exists w h, wrapperDiv st3 = Some w /\ resizeHandle st3 = Some h
       /\ wr_parent w = InContent (mlc_node c0) /\ rh_parent h = Detached
       /\ wr_style w !! "display" = Some (Kw "flex").
Proof.
  intros Hmw Hc Hw Hh Hm. cbv zeta. unfold afterOriginal.
  destruct (applyOriginalLayoutStyles_surface st0 w0 h0 Hw Hh Hm)
    as (N1 & M1 & _ & H1 & w1 & W1 & Pw1 & Dw1). cbv zeta in *.
  assert (Hd1 : exists mw1 c1, membersWrap (document (applyOriginalLayoutStyles st0)) = Some mw1
                               /\ mw_content mw1 = Some c1 /\ mlc_node c1 = mlc_node c0).
  { rewrite applyOriginalLayoutStyles_document. unfold originalDom. rewrite Hmw. cbn.
    eexists _, _. split; [reflexivity|]. cbn. rewrite Hc. cbn. split; [reflexivity|].
    destruct (String.eqb _ _); reflexivity. }
  destruct Hd1 as (mw1 & c1 & Hmw1 & Hc1 & Hn1).
  destruct (placeOriginal_surface _ mw1 c1 w1 h0 Hmw1 Hc1 W1 H1)
    as (N2 & M2 & w2 & h2 & W2 & H2 & Pw2 & Ph2 & Dw2). cbv zeta in *.
  destruct (removeResizeListener_surface (placeOriginal (applyOriginalLayoutStyles st0)))
    as (N3 & M3 & W3 & H3).
  split; [congruence|]. split; [rewrite M3, M2; exact M1|].
  exists w2, h2. rewrite W3, H3. repeat split; try assumption. congruence.
Qed.


Lemma placeOriginal_document st : document (placeOriginal st) = document st.
Proof.
  unfold placeOriginal. cbv zeta.
  repeat match goal with
         | |- context [match ?x with _ => _ end] => destruct x
         | |- context [if ?c then _ else _] => destruct c
         end; destruct_state st d; reflexivity.
Qed.

Lemma removeResizeListener_document st : document (removeResizeListener st) = document st.
Proof. unfold removeResizeListener. destruct (bdResizeListenerAdded st); destruct_state st d; reflexivity. Qed.

Lemma afterOriginal_document st : document (afterOriginal st) = originalDom (document st).
Proof.
  unfold afterOriginal.
  rewrite removeResizeListener_document, placeOriginal_document.
  apply applyOriginalLayoutStyles_document.
Qed.

Lemma original_lookups s0 s1 s2 :
  (originalWrapStyle s0 !! "position" = None /\ originalWrapStyle s0 !! "width" = None
   /\ originalWrapStyle s0 !! "height" = None /\ originalWrapStyle s0 !! "flex-direction" = None
   /\ originalWrapStyle s0 !! "display" = None /\ originalWrapStyle s0 !! "z-index" = None)
  /\ releasedSidebarStyle s1 !! "height" = None
  /\ originalContentStyle s2 !! "height" = None
  /\ originalContentStyle s2 !! "overflow-y" = None.
Proof.
  unfold originalWrapStyle, releasedSidebarStyle, originalContentStyle. cbv zeta.
  repeat split; look; reflexivity.
Qed.

(** The styles the ORIGINAL procedure leaves pass the style checks of the
    audit whenever the available height is positive. *)
Lemma original_styles_pass_audit B pf st mw sl c s0 s1 s2 :
  truthy (isMoved st) = false ->
  0 < availableHeight B (document st) ->
  mw_style mw = originalWrapStyle s0 ->
  sl_style sl = releasedSidebarStyle s1 ->
  mlc_style c = originalContentStyle s2 ->
  stylesDeviate B pf st mw sl c = false.
Proof.
  intros Hm Hpos E0 E1 E2.
  unfold stylesDeviate. cbv zeta. fold (availableHeight B (document st)).
  rewrite (Qle_bool_false_pos _ Hpos), Hm, E0, E1, E2.
  destruct (original_lookups s0 s1 s2) as ((W1 & W2 & W3 & W4 & W5 & W6) & S1 & C1 & C2).
  rewrite W1, W2, W3, W4, W5, W6, S1, C1, C2. reflexivity.
Qed.

Lemma placement_in_content st mw c w h :
  truthy (isMoved st) = false ->
  membersWrap (document st) = Some mw ->
  mw_content mw = Some c ->
  wrapperDiv st = Some w ->
  resizeHandle st = Some h ->
  wr_parent w = InContent (mlc_node c) ->
  rh_parent h = Detached ->
  wr_style w !! "display" = Some (Kw "flex") ->
  placementDeviates st mw c = false.
Proof.
  intros Hm Hmw Hc Hw Hh Pw Ph Dw.
  unfold placementDeviates, query_wrapperDiv, query_resizeHandle, inDocument.
  rewrite Hm, Hmw, Hw, Hh. cbn. rewrite Pw, Ph. cbn. rewrite Hc, Nat.eqb_refl. cbn.
  rewrite Pw, Dw. cbn. rewrite Nat.eqb_refl. reflexivity.
Qed.

Lemma originalDom_prepared st mw sl c :
  membersWrap (document st) = Some mw ->
  sidebarList (document st) = Some sl ->
  mw_content mw = Some c ->
  let d' := originalDom (document (prepared st)) in
  userIDSection d' = userIDSection (document st)
  /\ exists mw' sl' c' s0 s1 s2,
       membersWrap d' = Some mw' /\ sidebarList d' = Some sl' /\ mw_content mw' = Some c'
       /\ mlc_id c' = "bd-members-list-container"%string
       /\ mw_style mw' = originalWrapStyle s0
       /\ sl_style sl' = releasedSidebarStyle s1
       /\ mlc_style c' = originalContentStyle s2.
Proof.
  intros Hmw Hsl Hc.
  destruct st as [? bt wd ? rh ? ? ? ? ? ? ? ? ? ? ? ? ? ? ? ? ? d ? ? ? ? ? ? ? ? ? ? ? ?].
  destruct_dom d; try discriminate.
  all: cbn in Hmw, Hsl; injection Hmw as <-; injection Hsl as <-; cbn in Hc; try discriminate.
  all: injection Hc as <-.
  all: destruct bt, wd, rh.
  all: unfold prepared, needsUi, tagContent, onContent, addMoveButton, originalDom;
       cbn -[newWrapper newHandle setProperty removeProperty originalWrapStyle
             releasedSidebarStyle originalContentStyle].
  all: split; [reflexivity|]; eexists _, _, _, _, _, _; repeat split; reflexivity.
Qed.

(** X6.  On a host that does not raise, an ORIGINAL pass that finds its
    four nodes runs to its end and leaves the button wrapper inside the
    content node; as long as the available height is positive, the
    audit then changes nothing and requests nothing. *)
Theorem X6_audit_settled_after_original_pass B pf st mw sl c :
  (forall site d, raises B site d = None) ->
  membersWrap (document st) = Some mw ->
  sidebarList (document st) = Some sl ->
  userIDSection (document st) = true ->
  mw_content mw = Some c ->
  truthy (isMoved st) = false ->
  let st' := finalState (applyCurrentLayoutState B st) in
  0 < availableHeight B (document st') ->
  applyCurrentLayoutState B st = Ret tt st'
  /\ wrapperInContent st'
  /\ checkAndReapplyLayout B pf st' = st'.
Proof.
  intros quiet Hmw Hsl Hsec Hc Hm st' Hpos.
  destruct (prepared_fields st) as (F1 & _).
  assert (Hm0 : truthy (isMoved (prepared st)) = false) by (rewrite F1; exact Hm).
  pose proof (pass_original_quiet B st quiet (mk_is_Some _ _ Hmw) (mk_is_Some _ _ Hsl) Hsec Hm0)
    as Hpass.
  assert (E' : st' = updateButtonVisualState (truthy (isMoved (afterOriginal (prepared st))))
                       (afterOriginal (prepared st))).
  { unfold st'. rewrite Hpass. reflexivity. }
  split; [rewrite Hpass, E'; reflexivity|].
  destruct (prepared_ui st mw Hmw) as (N0 & (mw0 & Hmw0 & Hn0 & Hc0) & w0 & h0 & W0 & H0 & _).
  rewrite Hc in Hc0. destruct (mw_content mw0) as [c0|] eqn:Hc0e; [|discriminate].
  cbn in Hc0. injection Hc0 as Hc0.
  destruct (afterOriginal_surface (prepared st) mw0 c0 w0 h0 Hmw0 Hc0e W0 H0 Hm0)
    as (NA & MA & wA & hA & WA & HA & PwA & PhA & DwA).
  destruct (visual_surface (truthy (isMoved (afterOriginal (prepared st)))) _ wA hA WA HA)
    as (NV & MV & HV & wV & WV & PwV & DwV).
  rewrite <- E' in NV, MV, HV, WV.
  assert (Hdoc : document st' = originalDom (document (prepared st))).
  { rewrite E', updateButtonVisualState_document. apply afterOriginal_document. }
  destruct (originalDom_prepared st mw sl c Hmw Hsl Hc)
    as (Hsec' & mw' & sl' & c' & s0 & s1 & s2 & Dmw & Dsl & Dc & Did & S0 & S1 & S2).
  cbv zeta in Hsec', Dmw, Dsl. rewrite <- Hdoc in Hsec', Dmw, Dsl.
  assert (Dn : mlc_node c' = mlc_node c0).
  { revert Dmw Dc. rewrite Hdoc. unfold originalDom. rewrite Hmw0. cbn.
    intros [= <-]. cbn. rewrite Hc0e. cbn. intros [= <-].
    destruct (String.eqb _ _); reflexivity. }
  assert (Mf : truthy (isMoved st') = false) by (rewrite MV; exact MA).
  assert (Pw' : wr_parent wV = InContent (mlc_node c')) by (rewrite PwV, PwA, Dn; reflexivity).
  split.
  { exists mw', c', wV. auto. }
  unfold checkAndReapplyLayout, query_userIDSection.
  rewrite Dmw, Dsl, Hsec', Hsec, Dc. cbn [negb].
  rewrite tagContent_tagged.
  2:{ unfold query_membersListContainer. rewrite Dmw. cbn. rewrite Dc.
      intros ? [= <-]. exact Did. }
  rewrite NV, NA, N0.
  rewrite (placement_in_content st' mw' c' wV hA); try assumption.
  - rewrite (original_styles_pass_audit B pf st' mw' sl' c' s0 s1 s2); auto.
  - rewrite DwV. exact DwA.
Qed.

Lemma X6_witness :
  let st' := finalState (applyCurrentLayoutState demoBrowser originalState) in
  applyCurrentLayoutState demoBrowser originalState = Ret tt st'
  /\ wrapperInContent st'
  /\ checkAndReapplyLayout demoBrowser demoParseFloat st' = st'.
Proof.
  eapply (X6_audit_settled_after_original_pass demoBrowser demoParseFloat originalState).
  - reflexivity.
  - vm_compute. reflexivity.
  - vm_compute. reflexivity.
  - reflexivity.
  - reflexivity.
  - reflexivity.
  - vm_compute. reflexivity.
Defined.

(** ** Invariants of the lifecycle *)

Lemma presM_ret P {A} (a : A) : PresM P (ret a).
Proof. intros s H. exact H. Qed.

Lemma presM_throw P {A} e : PresM P (@throw A e).
Proof. intros s H. exact H. Qed.

Lemma presM_modify P f : (forall st, P st -> P (f st)) -> PresM P (modify f).
Proof. intros H s Hs. apply H. exact Hs. Qed.

Lemma presM_bind P {A C} (c : M A) (k : A -> M C) :
  PresM P c -> (forall a, PresM P (k a)) -> PresM P (bind c k).
Proof.
  intros Hc Hk s Hs. unfold bind. specialize (Hc s Hs).
  destruct (c s) as [a s1|e s1]; cbn in Hc |- *; [|exact Hc]. apply Hk. exact Hc.
Qed.

Lemma presM_get_bind P {A} (k : State -> M A) :
  (forall s, PresM P (k s)) -> PresM P (bind get k).
Proof. intros H s Hs. apply (H s s Hs). Qed.

(** Whatever depends on the state only through [outsidePass] survives a
    pass. *)
Lemma presM_pass P B :
  (forall s s', outsidePass s' = outsidePass s -> P s -> P s') ->
  PresM P (applyCurrentLayoutState B).
Proof. intros H s Hs. apply (H s); [apply pass_outside|exact Hs]. Qed.

(** [start] keeps what its steps keep. *)
Lemma presM_start P B :
  (forall v st, P st -> P (st <| isMoved := v |>)) ->
  (forall a st, P st -> P (st <| sidebarHeightPercentage := a |>)) ->
  (forall b st, P st -> P (st <| membersHeightPercentage := b |>)) ->
  (forall st, P st -> P (setupObserver st)) ->
  (forall s s', outsidePass s' = outsidePass s -> P s -> P s') ->
  (forall st, P st -> P (let '(id, st) := setInterval st in st <| failsafeIntervalId := Some id |>)) ->
  PresM P (start B).
Proof.
  intros H1 H2 H3 H4 H5 H6. unfold start.
  repeat match goal with
         | |- PresM _ (bind get _) => apply presM_get_bind; intros ?
         | |- PresM _ (let _ := _ in _) => cbv zeta
         | |- PresM _ (ret _) => apply presM_ret
         | |- PresM _ (throw _) => apply presM_throw
         | |- PresM _ (if ?c then _ else _) => destruct c
         | |- PresM _ (match ?x with _ => _ end) => destruct x
         | |- PresM _ (modify _) => apply presM_modify
         | |- PresM _ (applyCurrentLayoutState _) => apply presM_pass; exact H5
         | |- PresM _ (bind _ _) => apply presM_bind; [|intros ?]
         end; auto.
Qed.

Lemma outside_observer s s' :
  outsidePass s' = outsidePass s -> observer s' = observer s /\ observers s' = observers s.
Proof. unfold outsidePass. intros H. injection H. intros. auto. Qed.

Lemma setupObserver_one st : OneObserver st -> OneObserver (setupObserver st).
Proof.
  unfold OneObserver, setupObserver, observe, disconnect, fresh, dropId.
  intros H. destruct_state st d. cbn in *.
  match goal with
  | |- context [match ?x with Some _ => _ | None => _ end] => destruct x as [id|]
  end; cbn; subst; cbn; [|reflexivity].
  destruct (decide (id ≠ id)); [congruence|reflexivity].
Qed.

(** X7.  Calling [start] again does not pile up observers: if the
    connected observers are the one the instance tracks, they still are
    after [start], whether it returns or throws, and [stop] then leaves
    none connected. *)
Theorem X7_at_most_one_observer B st :
  OneObserver st ->
  let st' := finalState (start B st) in
  OneObserver st' /\ observers (stop st') = [].
Proof.
  intros H. cbv zeta.
  assert (H' : OneObserver (finalState (start B st))).
  { revert st H. apply presM_start.
    - intros v st H. destruct_state st d. exact H.
    - intros v st H. destruct_state st d. exact H.
    - intros v st H. destruct_state st d. exact H.
    - apply setupObserver_one.
    - intros s s' E H. apply outside_observer in E as [E1 E2].
      unfold OneObserver. rewrite E1, E2. exact H.
    - intros st H. destruct_state st d. exact H. }
  split; [exact H'|].
  rewrite stop_stages.
  destruct (outside_observer _ _ (outside_applyOriginalLayoutStyles
                                    (stopSurface (stopServices (finalState (start B st))))))
    as [_ ->].
  assert (K : forall s, observers (stopSurface s) = observers s).
  { intros s. unfold stopSurface.
    repeat match goal with
           | |- context [match ?x with Some _ => _ | None => _ end] => destruct x
           end; destruct_state s d; reflexivity. }
  rewrite K. clear K.
  generalize dependent (finalState (start B st)). intros s H'.
  unfold OneObserver in H'. destruct_state s d.
  unfold stopServices, clearAbsenceTimer, clearInterval, clearTimeout, cancelAnimationFrame,
    disconnect, dropId in *. cbn in *.
  repeat match goal with
         | |- context [match ?x with Some _ => _ | None => _ end] => is_var x; destruct x; cbn
         end; subst; cbn; try reflexivity.
  all: match goal with |- context [decide (?a ≠ ?a)] => destruct (decide (a ≠ a)) end;
       [congruence|reflexivity].
Qed.

Lemma X7_witness :
  let st' := finalState (start demoBrowser movedState) in
  OneObserver st' /\ observers (stop st') = [].
Proof.
  apply (X7_at_most_one_observer demoBrowser movedState). reflexivity.
Defined.

(** ** What survives a restart *)

Lemma presM_touch P B site : PresM P (touch B site).
Proof. intros s H. unfold touch. destruct (raises _ _ _); exact H. Qed.

Lemma presM_try_catch P {A} (c : M A) h :
  PresM P c -> (forall e, PresM P (h e)) -> PresM P (try_catch c h).
Proof.
  intros Hc Hh s Hs. unfold try_catch. specialize (Hc s Hs).
  destruct (c s) as [a s1|e s1]; cbn in Hc |- *; [exact Hc|]. apply Hh. exact Hc.
Qed.

(** What every writer of the pass preserves, the pass preserves. *)
Lemma pass_pres P B :
  (forall st, P st -> P (tagContent st)) ->
  (forall st, P st -> P (addMoveButton st)) ->
  (forall f st, P st -> P (onSidebarStyle f st)) ->
  (forall h1 h2 r st, P st -> P (applyMovedLayoutStyles h1 h2 r st)) ->
  (forall st, P st -> P (placeMoved st)) ->
  (forall st, P st -> P (addResizeListener st)) ->
  (forall st, P st -> P (applyOriginalLayoutStyles st)) ->
  (forall st, P st -> P (placeOriginal st)) ->
  (forall st, P st -> P (removeResizeListener st)) ->
  (forall b st, P st -> P (updateButtonVisualState b st)) ->
  (forall l e st, P st -> P (_error l e st)) ->
  PresM P (applyCurrentLayoutState B).
Proof.
  intros H1 H2 H3 H4 H5 H6 H7 H8 H9 H10 H11.
  assert (Hprep : forall st, P st -> P (if needsUi st then addMoveButton st else st)).
  { intros st. destruct (needsUi st); auto. }
  assert (Hvis : forall st, P st -> P (updateButtonVisualState (truthy (isMoved st)) st)).
  { intros st. apply H10. }
  unfold applyCurrentLayoutState. apply presM_try_catch.
  - unfold applyCurrentLayoutState_body, movedBranch, originalBranch, updateVisuals.
    repeat match goal with
           | |- PresM _ (ret _) => apply presM_ret
           | |- PresM _ (touch _ _) => apply presM_touch
           | |- PresM _ (modify _) => apply presM_modify
           | |- PresM _ (bind get _) => apply presM_get_bind; intros ?
           | |- PresM _ (if ?c then _ else _) => destruct c
           | |- PresM _ (match ?x with _ => _ end) => destruct x
           | |- PresM _ (let _ := _ in _) => cbv zeta
           | |- PresM _ (bind _ _) => apply presM_bind; [|intros ?]
           end; auto.
  - intros e. apply presM_bind; [apply presM_modify; apply H11|intros _; apply presM_throw].
Qed.

Ltac pres_flag :=
  let s := fresh "s" in let d := fresh "d" in let H := fresh "H" in
  intros; lazymatch goal with
          | H : isMoved ?s = _ |- _ =>
              revert H; autounfold with writers; destruct_state s d; destruct_dom d;
              cbn; intros H; split_vars; first [exact H | reflexivity]
          end.

(** A pass leaves a boolean flag as it is. *)
Lemma pass_keeps_boolean_flag B b st :
  isMoved st = JBool b -> isMoved (finalState (applyCurrentLayoutState B st)) = JBool b.
Proof.
  destruct b.
  - intros H.
    assert (K : ModedM (fun s s' => isMoved s' = isMoved s) (applyCurrentLayoutState B)).
    { apply pass_moded; try congruence; intros; unfold KeptBy.
      all: match goal with |- isMoved (?f ?s) = isMoved ?s =>
             let d := fresh "d" in
             autounfold with writers; destruct_state s d; destruct_dom d; cbn; split_vars;
             reflexivity end. }
    rewrite K; [exact H|]. rewrite H. reflexivity.
  - revert st. apply (pass_pres (fun s => isMoved s = JBool false)); pres_flag.
Qed.

(** X8.  A click on the button persists the mode and the two
    proportions: a new instance constructed on the saved data and
    started, on any page and host, comes up with the flag and the
    proportions the old instance had after the click. *)
Theorem X8_click_survives_restart B st d :
  let st1 := onclick st in
  let st2 := finalState (start B (constructor d (storage st1))) in
  isMoved st1 = JBool (negb (truthy (isMoved st)))
  /\ isMoved st2 = isMoved st1
  /\ sidebarHeightPercentage st2 = sidebarHeightPercentage st1
  /\ membersHeightPercentage st2 = membersHeightPercentage st1.
Proof.
  cbv zeta.
  assert (E1 : isMoved (onclick st) = JBool (negb (truthy (isMoved st)))
               /\ sidebarHeightPercentage (onclick st) = sidebarHeightPercentage st
               /\ membersHeightPercentage (onclick st) = membersHeightPercentage st
               /\ storage (onclick st)
                  = <[(pluginId, heightsDataKey) := heightsObject st]>
                      (<[(pluginId, dataKey) := JBool (negb (truthy (isMoved st)))]> (storage st))).
  { unfold onclick, BdApi_saveData. cbv zeta.
    match goal with |- context [queueLayoutReapply ?s] =>
      destruct (queueLayoutReapply_untouched s) as [_ _ _ _ Q1 Q2 Q3 Q4 _];
      rewrite Q1, Q2, Q3, Q4 end.
    destruct_state st d0. repeat split; reflexivity. }
  destruct E1 as (F1 & F2 & F3 & F4). split; [exact F1|].
  rewrite F1, F2, F3, F4.
  set (b := negb (truthy (isMoved st))).
  set (m := <[(pluginId, heightsDataKey) := heightsObject st]>
              (<[(pluginId, dataKey) := JBool b]> (storage st))).
  unfold start. rewrite bind_get. cbv beta zeta.
  assert (L1 : BdApi_loadData pluginId dataKey (constructor d m) = JBool b).
  { unfold BdApi_loadData, constructor, m. cbn.
    rewrite lookup_insert_ne by discriminate. rewrite lookup_insert_eq. reflexivity. }
  assert (L2 : BdApi_loadData pluginId heightsDataKey (constructor d m) = heightsObject st).
  { unfold BdApi_loadData, constructor, m. cbn. rewrite lookup_insert_eq. reflexivity. }
  assert (G0 : truthy (heightsObject st) = true) by reflexivity.
  assert (G1 : getProp (heightsObject st) "sidebar" = JNum (sidebarHeightPercentage st))
    by reflexivity.
  assert (G2 : getProp (heightsObject st) "members" = JNum (membersHeightPercentage st))
    by reflexivity.
  rewrite L1, L2, G0, G1, G2. cbn [isNull isUndefined negb andb toStringRaises].
  rewrite bind_modify_ret, !bind_modify.
  unfold bind.
  match goal with
  | |- context [applyCurrentLayoutState B ?s] =>
      pose proof (pass_keeps_boolean_flag B b s) as Hflag;
      pose proof (pass_outside B s) as Hout;
      assert (Hs : isMoved s = JBool b /\ sidebarHeightPercentage s = sidebarHeightPercentage st
                   /\ membersHeightPercentage s = membersHeightPercentage st);
      [|destruct (applyCurrentLayoutState B s) as [[] s'|e s']]
  end.
  { unfold setupObserver, observe, fresh, constructor. cbn. auto. }
  - cbn [finalState] in Hflag, Hout. destruct Hs as (S1 & S2 & S3). specialize (Hflag S1).
    unfold outsidePass in Hout. injection Hout. intros.
    assert (K : forall x, let y := (let '(id, st0) := setInterval x in
                                    st0 <| failsafeIntervalId := Some id |>) in
                          isMoved y = isMoved x
                          /\ sidebarHeightPercentage y = sidebarHeightPercentage x
                          /\ membersHeightPercentage y = membersHeightPercentage x).
    { intros x. destruct_state x dx. repeat split; reflexivity. }
    unfold modify. cbn [finalState]. destruct (K s') as (K1 & K2 & K3). cbv zeta in *.
    rewrite K1, K2, K3. repeat split; congruence.
  - cbn [finalState] in Hflag, Hout |- *. destruct Hs as (S1 & S2 & S3). specialize (Hflag S1).
    unfold outsidePass in Hout. injection Hout. intros. repeat split; congruence.
Qed.

(** ** One frame at a time *)

Lemma dropId_single id : dropId id [id] = [].
Proof. unfold dropId. cbn. destruct (decide (id <> id)) as [n|_]; [contradiction|reflexivity]. Qed.

Lemma same_flight st st' :
  frames st' = frames st -> animationFrameId st' = animationFrameId st ->
  SingleFlight st -> SingleFlight st'.
Proof. unfold SingleFlight. intros -> ->. auto. Qed.

Lemma outside_flight st st' : outsidePass st' = outsidePass st -> SingleFlight st -> SingleFlight st'.
Proof.
  intros H. apply same_flight.
  - apply outside_sched in H. tauto.
  - unfold outsidePass in H. injection H. intros. assumption.
Qed.

Lemma queueLayoutReapply_flight st : SingleFlight st -> SingleFlight (queueLayoutReapply st).
Proof.
  intros [H|(id & H1 & H2)]; destruct_state st d; cbn in *; subst;
    unfold SingleFlight, queueLayoutReapply, requestAnimationFrame, setTimeout, fresh,
      cancelAnimationFrame; cbn -[dropId]; rewrite ?dropId_single;
    repeat (match goal with
            | |- context [match ?x with _ => _ end] => is_var x; destruct x
            | |- context [if ?c then _ else _] => is_var c; destruct c
            end; cbn); eauto.
Qed.

Ltac flight_same :=
  let s := fresh "s" in let d := fresh "d" in
  intros s; apply same_flight; destruct_state s d; cbn; split_vars; reflexivity.

Lemma clearAbsenceTimer_flight : forall st, SingleFlight st -> SingleFlight (clearAbsenceTimer st).
Proof. unfold clearAbsenceTimer, clearTimeout. flight_same. Qed.

Lemma handleMemberListAbsence_flight :
  forall st, SingleFlight st -> SingleFlight (handleMemberListAbsence st).
Proof.
  unfold handleMemberListAbsence, clearAbsenceTimer, clearTimeout, setTimeout, fresh.
  flight_same.
Qed.

Lemma sidebar_writer_flight f : forall st, SingleFlight st -> SingleFlight (onSidebarStyle f st).
Proof. intros st. apply outside_flight, outside_onSidebarStyle. Qed.

Lemma nav_writer_flight f : forall st, SingleFlight st -> SingleFlight (onNavStyle f st).
Proof. intros st. apply outside_flight, outside_onNavStyle. Qed.

Lemma resetSidebar_flight : forall st, SingleFlight st -> SingleFlight (_resetSidebarListStyles st).
Proof.
  intros st H. unfold _resetSidebarListStyles. destruct (sidebarList _); [|exact H].
  auto using sidebar_writer_flight, nav_writer_flight.
Qed.

Lemma absenceCheck_flight : forall st, SingleFlight st -> SingleFlight (absenceCheck st).
Proof.
  intros st H. unfold absenceCheck.
  assert (E : forall s, SingleFlight s -> SingleFlight (s <| memberListAbsenceTimer := None |>)).
  { flight_same. }
  apply E. destruct (membersWrap _); auto using queueLayoutReapply_flight, resetSidebar_flight.
Qed.

Lemma cooldownEnd_flight : forall st, SingleFlight st -> SingleFlight (cooldownEnd st).
Proof.
  intros st H. unfold cooldownEnd. cbv zeta.
  assert (E : forall s, SingleFlight s ->
                        SingleFlight (s <| isThrottling := false |> <| reapplyTimeout := None |>)).
  { flight_same. }
  assert (F : forall s, SingleFlight s -> SingleFlight (s <| pendingThrottleCall := false |>)).
  { flight_same. }
  destruct (pendingThrottleCall _); auto using queueLayoutReapply_flight.
Qed.

Lemma scanAdded_flight nodes :
  forall st, SingleFlight st -> SingleFlight (fold_left scanAdded nodes st).
Proof.
  induction nodes as [|n nodes IH]; intros st H; cbn [fold_left]; [exact H|].
  apply IH. unfold scanAdded. destruct (_ && _); auto using clearAbsenceTimer_flight.
Qed.

Lemma scanMutation_flight records : forall b st,
  SingleFlight st -> SingleFlight (snd (fold_left scanMutation records (b, st))).
Proof.
  induction records as [|m records IH]; intros b st H; cbn [fold_left]; [exact H|].
  destruct m as [name target|removed added]; cbn [scanMutation].
  - destruct (String.eqb name "style"); apply IH; exact H.
  - apply IH. apply scanAdded_flight. exact H.
Qed.

Lemma observerCallback_flight records : forall st,
  SingleFlight st -> SingleFlight (observerCallback records st).
Proof.
  intros st H. unfold observerCallback.
  pose proof (scanMutation_flight records false st H) as H1.
  destruct (fold_left scanMutation records (false, st)) as [need st1]. cbn [snd] in H1.
  assert (H2 : SingleFlight (if need then queueLayoutReapply st1 else st1)).
  { destruct need; auto using queueLayoutReapply_flight. }
  destruct (membersWrap _);
    auto using clearAbsenceTimer_flight, handleMemberListAbsence_flight.
Qed.

Lemma deliver_flight records st : SingleFlight st -> SingleFlight (deliver records st).
Proof.
  unfold deliver. generalize (observers st). intros obs. revert st.
  induction obs as [|o obs IH]; intros st H; cbn [fold_left]; [exact H|].
  apply IH. apply observerCallback_flight. exact H.
Qed.

Lemma handleWindowResize_flight B :
  forall st, SingleFlight st -> SingleFlight (handleWindowResize B st).
Proof.
  intros st H. unfold handleWindowResize.
  repeat (match goal with |- context [if ?c then _ else _] => destruct c
                     | |- context [match ?x with _ => _ end] => destruct x end;
          try exact H).
  auto using queueLayoutReapply_flight, sidebar_writer_flight, nav_writer_flight.
Qed.

Lemma onMouseMove_flight B y : forall st, SingleFlight st -> SingleFlight (onMouseMove B y st).
Proof.
  intros st H. unfold onMouseMove.
  repeat (match goal with |- context [if ?c then _ else _] => destruct c
                     | |- context [match ?x with _ => _ end] => destruct x end;
          try exact H).
  unfold BdApi_saveData.
  match goal with |- context [queueLayoutReapply ?s] =>
    assert (Hq : SingleFlight (queueLayoutReapply s));
    [apply queueLayoutReapply_flight; destruct_state st d; exact H|];
    destruct (queueLayoutReapply s) end.
  exact Hq.
Qed.

Lemma onclick_flight : forall st, SingleFlight st -> SingleFlight (onclick st).
Proof.
  intros st H. unfold onclick, BdApi_saveData. cbv zeta.
  apply queueLayoutReapply_flight. destruct_state st d. exact H.
Qed.

Lemma onmousedown_flight y : forall st, SingleFlight st -> SingleFlight (onmousedown y st).
Proof.
  intros st H. unfold onmousedown. destruct (negb _); [exact H|].
  destruct_state st d. exact H.
Qed.

Lemma onMouseUp_flight : forall st, SingleFlight st -> SingleFlight (onMouseUp st).
Proof. intros st H. destruct_state st d. exact H. Qed.

Lemma fireTimer_flight l : forall st log,
  SingleFlight st ->
  SingleFlight (fst (fold_left fireTimer l (st, log)))
  /\ executions (snd (fold_left fireTimer l (st, log))) = executions log.
Proof.
  induction l as [|t l IH]; intros st log H; cbn [fold_left]; [cbn; auto|].
  assert (E : exists st1 log1, fireTimer (st, log) t = (st1, log1)
                               /\ SingleFlight st1 /\ executions log1 = executions log).
  { unfold fireTimer. destruct (pending _ _); [|eauto].
    assert (D : SingleFlight (st <| timers ::= dropTimer (t_id t) |>)).
    { revert H. apply same_flight; destruct_state st d; reflexivity. }
    destruct (t_cb t); eexists _, _; (split; [reflexivity|]); split;
      auto using cooldownEnd_flight, absenceCheck_flight.
    all: rewrite executions_app;
      match goal with |- context [executions [?f]] =>
        replace (executions [f]) with 0%nat by reflexivity end; lia. }
  destruct E as (st1 & log1 & -> & W1 & E1).
  destruct (IH st1 log1 W1) as (W2 & E2). split; [exact W2|congruence].
Qed.

Lemma tick_flight st :
  SingleFlight st -> SingleFlight (fst (tick st)) /\ executions (snd (tick st)) = 0%nat.
Proof.
  intros H. unfold tick. cbv zeta. apply fireTimer_flight.
  revert H. apply same_flight; destruct_state st d; reflexivity.
Qed.

(** The frame callback leaves no frame behind and forgets its id when
    the pass returns. *)
Lemma reapplyFrame_flight B st :
  frames st = [] -> frames (finalState (reapplyFrame B st)) = [].
Proof.
  intros H. unfold reapplyFrame. rewrite bind_modify. unfold bind.
  match goal with |- context [applyCurrentLayoutState B ?s] =>
    pose proof (pass_outside B s) as K; apply outside_sched in K as (_ & _ & K);
    assert (F : frames s = []) by (destruct_state st d; exact H);
    destruct (applyCurrentLayoutState B s) as [[] s'|e s'] end;
    cbn [finalState] in K |- *; [|congruence].
  unfold modify. cbn [finalState]. destruct_state s' d'. cbn in *. congruence.
Qed.

Lemma animationFrame_flight B st :
  SingleFlight st ->
  frames (fst (animationFrame B st)) = []
  /\ (executions (snd (animationFrame B st)) <= 1)%nat.
Proof.
  intros H. unfold animationFrame. cbv zeta.
  assert (C : frames (st <| frames := [] |>) = []) by (destruct_state st d; reflexivity).
  destruct H as [->|(id & -> & _)]; cbn [fold_left fst snd].
  - split; [exact C|]. replace (executions []) with 0%nat by reflexivity. lia.
  - unfold fireFrame.
    pose proof (reapplyFrame_flight B _ C) as F.
    destruct (reapplyFrame B _); cbn [finalState fst snd] in *; split; try exact F.
    all: rewrite executions_app;
      match goal with |- context [executions [?f]] =>
        replace (executions [f]) with 1%nat by reflexivity end;
      replace (executions []) with 0%nat by reflexivity; lia.
Qed.

Lemma step_flight B ev st :
  SingleFlight st ->
  SingleFlight (fst (step B ev st))
  /\ (executions (snd (step B ev st)) <= if isFrameEvent ev then 1 else 0)%nat.
Proof.
  intros H. destruct ev as [| |change records| |y|y| | |]; cbn [step fst snd isFrameEvent];
    try (split; [|cbn; lia]).
  - destruct (tick_flight st H) as (H1 & ->). auto.
  - destruct (animationFrame_flight B st H) as (H1 & H2). split; [left; exact H1|exact H2].
  - apply deliver_flight. revert H. apply same_flight; destruct_state st d; reflexivity.
  - destruct (resizeListener st); auto using handleWindowResize_flight.
  - destruct (resizeHandle st); auto using onmousedown_flight.
  - destruct (mousemoveListener st); auto using onMouseMove_flight.
  - destruct (mouseupListener st); auto using onMouseUp_flight.
  - destruct (_ && _); auto using onclick_flight.
  - apply queueLayoutReapply_flight. exact H.
Qed.

(** ** What the host holds for the plugin *)

Lemma elem_of_dropTimer id l t : t ∈ dropTimer id l <-> t_id t <> id /\ t ∈ l.
Proof. exact (list_elem_of_filter (fun t => t_id t <> id) l t). Qed.

Lemma Forall_dropTimer (P : Timer -> Prop) id l : Forall P l -> Forall P (dropTimer id l).
Proof.
  rewrite !Forall_forall. intros H t Ht. apply elem_of_dropTimer in Ht as [_ Ht]. auto.
Qed.

Lemma Forall_dropId (P : nat -> Prop) id l : Forall P l -> Forall P (dropId id l).
Proof.
  rewrite !Forall_forall. intros H t Ht. apply list_elem_of_filter in Ht as [_ Ht]. auto.
Qed.

Lemma dropId_named id l : Forall (fun i => Some id = Some i) l -> dropId id l = [].
Proof.
  intros H. rewrite Forall_forall in H. apply elem_of_nil_inv. intros x Hx.
  apply list_elem_of_filter in Hx as [Hne Hx]. specialize (H x Hx). congruence.
Qed.

Lemma unnamed_nil {A} (key : A -> nat) l : Forall (fun x => None = Some (key x)) l -> l = [].
Proof. intros H. destruct H; [reflexivity|discriminate]. Qed.

Lemma timersOK_drop n l thr rt ab id :
  TimersOK n l thr rt ab -> TimersOK n (dropTimer id l) thr rt ab.
Proof.
  intros [H1 H2 H3 H4]. split; auto using Forall_dropTimer.
  intros t t' Ht Ht'. apply elem_of_dropTimer in Ht as [_ Ht].
  apply elem_of_dropTimer in Ht' as [_ Ht']. auto.
Qed.

Lemma timersOK_bump n m l thr rt ab :
  (n <= m)%nat -> TimersOK n l thr rt ab -> TimersOK m l thr rt ab.
Proof.
  intros Hle [H1 H2 H3 H4]. split; auto.
  eapply Forall_impl; [exact H1|]. cbn. intros. lia.
Qed.

Lemma timersOK_throttle n l thr rt ab : TimersOK n l thr rt ab -> TimersOK n l true rt ab.
Proof. intros [H1 H2 H3 H4]. split; auto. discriminate. Qed.

(** Once the timer [reapplyTimeout] names is dropped, no cooldown timer
    is pending. *)
Lemma timersOK_drop_cooldown n l thr thr' id ab :
  TimersOK n l thr (Some id) ab -> TimersOK n (dropTimer id l) thr' None ab.
Proof.
  intros H. pose proof (timersOK_drop _ _ _ _ _ id H) as [H1 H2 H3 H4].
  assert (C : Forall (fun t => isCooldown t = false) (dropTimer id l)).
  { rewrite Forall_forall in H3 |- *. intros t Ht. specialize (H3 t Ht).
    apply elem_of_dropTimer in Ht as [Hne _].
    unfold timerNamed in H3. unfold isCooldown. destruct (t_cb t); [congruence|reflexivity]. }
  split; auto.
  rewrite Forall_forall in H3, C |- *. intros t Ht. specialize (H3 t Ht). specialize (C t Ht).
  unfold timerNamed, isCooldown in *. destruct (t_cb t); [discriminate|exact H3].
Qed.

Lemma timersOK_no_cooldown n l thr thr' ab :
  TimersOK n l thr None ab -> TimersOK n l thr' None ab.
Proof.
  intros [H1 H2 H3 H4]. split; auto. intros _.
  rewrite Forall_forall in H3 |- *. intros t Ht. specialize (H3 t Ht).
  unfold timerNamed, isCooldown in *. destruct (t_cb t); [discriminate|reflexivity].
Qed.

Lemma timersOK_drop_absence n l thr rt id :
  TimersOK n l thr rt (Some id) -> TimersOK n (dropTimer id l) thr rt None.
Proof.
  intros H. pose proof (timersOK_drop _ _ _ _ _ id H) as [H1 H2 H3 H4].
  split; auto.
  rewrite Forall_forall in H3 |- *. intros t Ht. specialize (H3 t Ht).
  apply elem_of_dropTimer in Ht as [Hne _].
  unfold timerNamed in *. destruct (t_cb t); [exact H3|congruence].
Qed.

Lemma timersOK_add_cooldown n m l rt ab due :
  (n <= m)%nat ->
  TimersOK n l false rt ab ->
  TimersOK (S m) (l ++ [mkTimer m due CooldownEnd]) true (Some m) ab.
Proof.
  intros Hle [H1 H2 H3 H4]. specialize (H4 eq_refl).
  rewrite Forall_forall in H1, H3, H4. split.
  - apply Forall_app. split; [|repeat constructor; cbn; lia].
    apply Forall_forall. intros t Ht. specialize (H1 t Ht). cbn in H1. lia.
  - intros t t' Ht Ht' E. apply elem_of_app in Ht as [Ht|Ht], Ht' as [Ht'|Ht'].
    + auto.
    + apply list_elem_of_singleton in Ht'. subst t'. cbn in E. specialize (H1 t Ht).
      cbn in H1. lia.
    + apply list_elem_of_singleton in Ht. subst t. cbn in E. specialize (H1 t' Ht').
      cbn in H1. lia.
    + apply list_elem_of_singleton in Ht, Ht'. congruence.
  - apply Forall_app. split; [|repeat constructor].
    apply Forall_forall. intros t Ht. specialize (H3 t Ht). specialize (H4 t Ht).
    unfold timerNamed, isCooldown in *. destruct (t_cb t); [discriminate|exact H3].
  - discriminate.
Qed.

Lemma timersOK_add_absence n m l thr rt due :
  (n <= m)%nat ->
  TimersOK n l thr rt None ->
  TimersOK (S m) (l ++ [mkTimer m due AbsenceCheck]) thr rt (Some m).
Proof.
  intros Hle [H1 H2 H3 H4].
  rewrite Forall_forall in H1, H3. split.
  - apply Forall_app. split; [|repeat constructor; cbn; lia].
    apply Forall_forall. intros t Ht. specialize (H1 t Ht). cbn in H1. lia.
  - intros t t' Ht Ht' E. apply elem_of_app in Ht as [Ht|Ht], Ht' as [Ht'|Ht'].
    + auto.
    + apply list_elem_of_singleton in Ht'. subst t'. cbn in E. specialize (H1 t Ht).
      cbn in H1. lia.
    + apply list_elem_of_singleton in Ht. subst t. cbn in E. specialize (H1 t' Ht').
      cbn in H1. lia.
    + apply list_elem_of_singleton in Ht, Ht'. congruence.
  - apply Forall_app. split; [|repeat constructor].
    apply Forall_forall. intros t Ht. specialize (H3 t Ht).
    unfold timerNamed in *. destruct (t_cb t); [exact H3|discriminate].
  - intros E. apply Forall_app. split; [auto|repeat constructor].
Qed.

Ltac open_state st :=
  destruct st as [ob ? ? ? ? ? ? af fi ? ? ? ? ? ? ? rt thr ? ab ? ? ? ? n tm fr iv os ? ? ? ? ? ?].

Lemma same_accounted st st' : services st' = services st -> Accounted st -> Accounted st'.
Proof.
  unfold services. intros E [H1 H2 H3 H4]. injection E. intros.
  split; repeat match goal with H : _ st' = _ |- _ => rewrite H; clear H end; assumption.
Qed.

Ltac same_services :=
  match goal with
  | |- services _ = services ?s =>
      let d := fresh "d" in destruct_state s d; cbn; split_vars; reflexivity
  end.

Lemma queueLayoutReapply_accounted st : Accounted st -> Accounted (queueLayoutReapply st).
Proof.
  intros [H1 H2 H3 H4]. open_state st. cbn in *.
  unfold queueLayoutReapply, requestAnimationFrame, setTimeout, fresh, cancelAnimationFrame.
  assert (F : match af with Some id => dropId id fr | None => fr end = []).
  { destruct af; [apply dropId_named|apply (unnamed_nil id)]; exact H2. }
  destruct af, thr; cbn -[dropId] in *; rewrite ?F; split; cbn; auto.
  all: try (repeat constructor; fail).
  all: eapply timersOK_add_cooldown; [|eassumption]; lia.
Qed.

Lemma clearAbsenceTimer_accounted st : Accounted st -> Accounted (clearAbsenceTimer st).
Proof.
  intros [H1 H2 H3 H4]. open_state st. cbn in *.
  unfold clearAbsenceTimer, clearTimeout. destruct ab; cbn -[dropId dropTimer]; split;
    cbn -[dropId dropTimer]; auto.
  - apply timersOK_drop_absence. exact H1.
  - apply Forall_dropId. exact H4.
Qed.

Lemma handleMemberListAbsence_accounted st :
  Accounted st -> Accounted (handleMemberListAbsence st).
Proof.
  intros H. unfold handleMemberListAbsence. cbv zeta.
  apply clearAbsenceTimer_accounted in H.
  assert (E : memberListAbsenceTimer (clearAbsenceTimer st) = None).
  { unfold clearAbsenceTimer. destruct (memberListAbsenceTimer st) eqn:E; [|exact E].
    destruct_state st d. reflexivity. }
  revert H E. generalize (clearAbsenceTimer st). clear st. intros st [H1 H2 H3 H4] E.
  open_state st. cbn in *. subst. unfold setTimeout, fresh. cbn. split; cbn; auto.
  eapply timersOK_add_absence; [|eassumption]; lia.
Qed.

(** The callbacks of a timer that is pending, run as the event loop runs
    them. *)
Lemma cooldown_fired_accounted st t :
  Accounted st -> t ∈ timers st -> t_cb t = CooldownEnd ->
  Accounted (st <| timers ::= dropTimer (t_id t) |> <| isThrottling := false |>
                <| reapplyTimeout := None |>).
Proof.
  intros [H1 H2 H3 H4] Ht Hc. open_state st. cbn in *. split; cbn; auto.
  assert (N : rt = Some (t_id t)).
  { destruct H1 as [_ _ N _]. rewrite Forall_forall in N. specialize (N t Ht).
    unfold timerNamed in N. rewrite Hc in N. exact N. }
  subst rt. eapply timersOK_drop_cooldown. exact H1.
Qed.

Lemma cooldownEnd_accounted st t :
  Accounted st -> t ∈ timers st -> t_cb t = CooldownEnd ->
  Accounted (cooldownEnd (st <| timers ::= dropTimer (t_id t) |>)).
Proof.
  intros H Ht Hc. unfold cooldownEnd. cbv zeta.
  pose proof (cooldown_fired_accounted st t H Ht Hc) as A.
  match goal with |- Accounted (if ?c then _ else _) => destruct c end; [|exact A].
  apply queueLayoutReapply_accounted. revert A. apply same_accounted. same_services.
Qed.

Lemma sidebar_writer_services f st : services (onSidebarStyle f st) = services st.
Proof. same_services. Qed.

Lemma nav_writer_services f st : services (onNavStyle f st) = services st.
Proof. same_services. Qed.

Lemma resetSidebar_services st : services (_resetSidebarListStyles st) = services st.
Proof.
  unfold _resetSidebarListStyles. destruct (sidebarList _); [|reflexivity].
  repeat first [rewrite sidebar_writer_services | rewrite nav_writer_services]. reflexivity.
Qed.

Lemma dropTimer_accounted id st : Accounted st -> Accounted (st <| timers ::= dropTimer id |>).
Proof.
  intros [H1 H2 H3 H4]. open_state st. cbn in *. split; cbn -[dropTimer]; auto.
  apply timersOK_drop. exact H1.
Qed.

Lemma absence_fired_accounted st t :
  Accounted st -> t ∈ timers st -> t_cb t = AbsenceCheck ->
  Accounted (st <| timers ::= dropTimer (t_id t) |> <| memberListAbsenceTimer := None |>).
Proof.
  intros [H1 H2 H3 H4] Ht Hc. open_state st. cbn in *. split; cbn; auto.
  assert (N : ab = Some (t_id t)).
  { destruct H1 as [_ _ N _]. rewrite Forall_forall in N. specialize (N t Ht).
    unfold timerNamed in N. rewrite Hc in N. exact N. }
  subst ab. eapply timersOK_drop_absence. exact H1.
Qed.

Lemma queueLayoutReapply_commutes st :
  (queueLayoutReapply st) <| memberListAbsenceTimer := None |>
  = queueLayoutReapply (st <| memberListAbsenceTimer := None |>).
Proof.
  destruct_state st d.
  unfold queueLayoutReapply, requestAnimationFrame, setTimeout, fresh, cancelAnimationFrame.
  cbn. split_vars; reflexivity.
Qed.

Lemma resetSidebar_commutes st :
  services ((_resetSidebarListStyles st) <| memberListAbsenceTimer := None |>)
  = services (st <| memberListAbsenceTimer := None |>).
Proof.
  pose proof (resetSidebar_services st) as E. revert E.
  generalize (_resetSidebarListStyles st). intros s' E.
  unfold services in *. injection E. intros.
  destruct_state st d. destruct_state s' d'. cbn in *. congruence.
Qed.

Lemma absenceCheck_accounted st t :
  Accounted st -> t ∈ timers st -> t_cb t = AbsenceCheck ->
  Accounted (absenceCheck (st <| timers ::= dropTimer (t_id t) |>)).
Proof.
  intros H Ht Hc. unfold absenceCheck. cbv zeta.
  pose proof (absence_fired_accounted st t H Ht Hc) as A.
  destruct (membersWrap _).
  - rewrite queueLayoutReapply_commutes. apply queueLayoutReapply_accounted, A.
  - revert A. apply same_accounted, resetSidebar_commutes.
Qed.

(** *** Handlers, for any invariant of the services *)

Section Handlers.
Context (P : State -> Prop).
Hypothesis P_same : forall st st', services st' = services st -> P st -> P st'.
Hypothesis P_queue : forall st, P st -> P (queueLayoutReapply st).
Hypothesis P_clear : forall st, P st -> P (clearAbsenceTimer st).
Hypothesis P_arm : forall st, P st -> P (handleMemberListAbsence st).

Lemma scanAdded_inv nodes : forall st, P st -> P (fold_left scanAdded nodes st).
Proof.
  induction nodes as [|n nodes IH]; intros st H; cbn [fold_left]; [exact H|].
  apply IH. unfold scanAdded. destruct (_ && _); auto.
Qed.

Lemma scanMutation_inv records : forall b st,
  P st -> P (snd (fold_left scanMutation records (b, st))).
Proof.
  induction records as [|m records IH]; intros b st H; cbn [fold_left]; [exact H|].
  destruct m as [name target|removed added]; cbn [scanMutation].
  - destruct (String.eqb name "style"); apply IH; exact H.
  - apply IH. apply scanAdded_inv. exact H.
Qed.

Lemma observerCallback_inv records st : P st -> P (observerCallback records st).
Proof.
  intros H. unfold observerCallback.
  pose proof (scanMutation_inv records false st H) as H1.
  destruct (fold_left scanMutation records (false, st)) as [need st1]. cbn [snd] in H1.
  assert (H2 : P (if need then queueLayoutReapply st1 else st1)) by (destruct need; auto).
  destruct (membersWrap _); auto.
Qed.

Lemma deliver_inv records st : P st -> P (deliver records st).
Proof.
  unfold deliver. generalize (observers st). intros obs. revert st.
  induction obs as [|o obs IH]; intros st H; cbn [fold_left]; [exact H|].
  apply IH. apply observerCallback_inv. exact H.
Qed.

Lemma handleWindowResize_inv B st : P st -> P (handleWindowResize B st).
Proof.
  intros H. unfold handleWindowResize.
  repeat (match goal with |- context [if ?c then _ else _] => destruct c
                     | |- context [match ?x with _ => _ end] => destruct x end;
          try exact H).
  apply P_queue.
  repeat first [eapply P_same; [apply sidebar_writer_services|]
               |eapply P_same; [apply nav_writer_services|]].
  exact H.
Qed.

Lemma onMouseMove_inv B y st : P st -> P (onMouseMove B y st).
Proof.
  intros H. unfold onMouseMove.
  repeat (match goal with |- context [if ?c then _ else _] => destruct c
                     | |- context [match ?x with _ => _ end] => destruct x end;
          try exact H).
  unfold BdApi_saveData.
  match goal with |- context [queueLayoutReapply ?s] =>
    assert (Hq : P (queueLayoutReapply s));
    [apply P_queue; revert H; apply P_same; same_services|];
    revert Hq; generalize (queueLayoutReapply s) end.
  intros ?. apply P_same. same_services.
Qed.

Lemma onclick_inv st : P st -> P (onclick st).
Proof.
  intros H. unfold onclick, BdApi_saveData. cbv zeta.
  apply P_queue. revert H. apply P_same. same_services.
Qed.

Lemma onmousedown_inv y st : P st -> P (onmousedown y st).
Proof.
  intros H. unfold onmousedown. destruct (negb _); [exact H|].
  revert H. apply P_same. same_services.
Qed.

Lemma onMouseUp_inv st : P st -> P (onMouseUp st).
Proof. apply P_same. same_services. Qed.

(** Every event but the passing of time and the rendering of a frame. *)
Lemma step_inv B ev st :
  isTick ev = false -> isFrameEvent ev = false -> P st -> P (fst (step B ev st)).
Proof.
  intros E1 E2 H. destruct ev as [| |change records| |y|y| | |]; try discriminate;
    cbn [step fst].
  - apply deliver_inv. revert H. apply P_same. same_services.
  - destruct (resizeListener st); auto using handleWindowResize_inv.
  - destruct (resizeHandle st); auto using onmousedown_inv.
  - destruct (mousemoveListener st); auto using onMouseMove_inv.
  - destruct (mouseupListener st); auto using onMouseUp_inv.
  - destruct (_ && _); auto using onclick_inv.
  - apply P_queue. exact H.
Qed.

Lemma step_log B ev st :
  isTick ev = false -> isFrameEvent ev = false -> snd (step B ev st) = [].
Proof. intros E1 E2. destruct ev; try discriminate; reflexivity. Qed.
End Handlers.

(** *** Timers that fire *)

Lemma Grows_refl st : Grows st st.
Proof. repeat split; auto. Qed.

Lemma Grows_trans a b c : Grows a b -> Grows b c -> Grows a c.
Proof.
  intros (H0 & H1 & H2 & H3) (K0 & K1 & K2 & K3). split; [congruence|]. split; [lia|]. split.
  - intros t Ht. destruct (K2 t Ht) as [Hb|Hb]; [|right; lia]. destruct (H2 t Hb); auto.
  - intros t Ht Hlt. destruct (H3 t Ht Hlt) as [Hb|Hb].
    + apply K3; [exact Hb|lia].
    + right. intros t' Ht' E. destruct (K2 t' Ht') as [Hb'|Hb']; [|lia].
      exact (Hb t' Hb' E).
Qed.

Lemma same_grows st st' :
  clock st' = clock st -> nextId st' = nextId st -> timers st' = timers st -> Grows st st'.
Proof. intros E0 E1 E2. unfold Grows. rewrite E0, E1, E2. repeat split; auto. Qed.

Lemma services_grows st st' : services st' = services st -> Grows st st'.
Proof. unfold services. intros E. injection E. intros. apply same_grows; assumption. Qed.

Lemma queueLayoutReapply_grows st : Grows st (queueLayoutReapply st).
Proof.
  open_state st.
  unfold Grows, queueLayoutReapply, requestAnimationFrame, setTimeout, fresh, cancelAnimationFrame.
  destruct af, thr; cbn; (split; [reflexivity|]); (split; [lia|]); split; auto.
  all: try (intros t Ht _; left; apply elem_of_app; left; exact Ht).
  all: intros t Ht; apply elem_of_app in Ht as [Ht|Ht]; [auto|];
    apply list_elem_of_singleton in Ht; subst t; cbn; right; lia.
Qed.

Lemma dropTimer_grows id st : Grows st (st <| timers ::= dropTimer id |>).
Proof.
  open_state st. split; [reflexivity|]. split; cbn; [lia|]. split.
  - intros t Ht. apply elem_of_dropTimer in Ht as [_ Ht]. auto.
  - intros t Ht _. destruct (decide (t_id t = id)) as [E|E].
    + right. intros t' Ht'. apply elem_of_dropTimer in Ht' as [Hne _]. congruence.
    + left. apply elem_of_dropTimer. auto.
Qed.

Lemma cooldownEnd_grows st : Grows st (cooldownEnd st).
Proof.
  unfold cooldownEnd. cbv zeta.
  destruct (pendingThrottleCall _).
  - eapply Grows_trans; [|apply queueLayoutReapply_grows]. apply same_grows;
      destruct_state st d; reflexivity.
  - apply same_grows; destruct_state st d; reflexivity.
Qed.

Lemma absenceCheck_grows st : Grows st (absenceCheck st).
Proof.
  unfold absenceCheck. cbv zeta.
  assert (E : forall s, Grows s (s <| memberListAbsenceTimer := None |>)).
  { intros s. apply same_grows; destruct_state s d; reflexivity. }
  eapply Grows_trans; [|apply E].
  destruct (membersWrap _); [apply queueLayoutReapply_grows|].
  apply services_grows, resetSidebar_services.
Qed.

Lemma Compatible_grows l st st' : Grows st st' -> Compatible l st -> Compatible l st'.
Proof.
  intros (G0 & G1 & G2 & G3) HC. unfold Compatible in *. eapply Forall_impl; [exact HC|].
  cbn. intros t (H0 & H1 & H2 & H3).
  split; [lia|]. split; [lia|]. split.
  - intros t' Ht' E. destruct (G2 t' Ht') as [Hold|Hnew]; [auto|lia].
  - destruct H3 as [H3|H3]; [apply G3; assumption|].
    right. intros t' Ht' E. destruct (G2 t' Ht') as [Hold|Hnew]; [|lia].
    exact (H3 t' Hold E).
Qed.

Lemma Compatible_own st l :
  Accounted st -> l ⊆ timers st -> Forall (fun t => (t_due t <= clock st)%nat) l ->
  Compatible l st.
Proof.
  intros [[H1 H2 _ _] _ _ _] Hsub Hdue. apply Forall_forall. intros t Ht.
  rewrite Forall_forall in H1, Hdue. split; [apply Hdue; exact Ht|].
  split; [apply H1; auto|]. split; [|left; auto]. intros t' Ht' E. apply H2; auto.
Qed.

Lemma pending_elem id l : pending id l = true -> exists t, t ∈ l /\ t_id t = id.
Proof.
  unfold pending. intros H. apply existsb_exists in H as (t & Ht & E).
  apply Nat.eqb_eq in E. exists t. split; [apply list_elem_of_In; exact Ht|exact E].
Qed.

Lemma fireTimer_accounted l : forall st log,
  Accounted st -> Compatible l st ->
  Accounted (fst (fold_left fireTimer l (st, log))).
Proof.
  induction l as [|t l IH]; intros st log H C; cbn [fold_left]; [exact H|].
  inversion C as [|? ? (_ & C1 & C2 & _) C']; subst.
  assert (E : exists st1 log1, fireTimer (st, log) t = (st1, log1)
                               /\ Accounted st1 /\ Grows st st1).
  { unfold fireTimer. destruct (pending _ _) eqn:Hp; [|eauto using Grows_refl].
    apply pending_elem in Hp as (t' & Ht' & E). specialize (C2 t' Ht' E).
    rewrite <- E. destruct (t_cb t) eqn:Hc; eexists _, _; (split; [reflexivity|]); split.
    - apply cooldownEnd_accounted; auto.
    - eapply Grows_trans; [apply dropTimer_grows|apply cooldownEnd_grows].
    - apply absenceCheck_accounted; auto.
    - eapply Grows_trans; [apply dropTimer_grows|apply absenceCheck_grows]. }
  destruct E as (st1 & log1 & -> & A1 & G1).
  apply IH; [exact A1|]. eapply Compatible_grows; eassumption.
Qed.

Lemma tick_snapshot st :
  Accounted st ->
  let st1 := st <| clock ::= S |> in
  Accounted st1 /\ Compatible (filter (fun t => due (clock st1) t = true) (timers st1)) st1.
Proof.
  intros H. cbv zeta.
  assert (H1 : Accounted (st <| clock ::= S |>)).
  { destruct H as [H1 H2 H3 H4]. open_state st. split; assumption. }
  split; [exact H1|]. apply Compatible_own; [exact H1| |].
  - intros t Ht. apply list_elem_of_filter in Ht as [_ Ht]. exact Ht.
  - apply Forall_forall. intros t Ht. apply list_elem_of_filter in Ht as [Hd _].
    unfold due in Hd. apply Nat.leb_le in Hd. exact Hd.
Qed.

Lemma tick_accounted st : Accounted st -> Accounted (fst (tick st)).
Proof.
  intros H. unfold tick. cbv zeta. destruct (tick_snapshot st H) as [H1 C].
  apply fireTimer_accounted; assumption.
Qed.

(** *** Frames that run *)

Lemma outside_services st st' : outsidePass st' = outsidePass st -> services st' = services st.
Proof. unfold outsidePass, services. intros H. injection H. intros. congruence. Qed.

Lemma reapplyFrame_accounted B st :
  Accounted st -> frames st = [] ->
  Accounted (finalState (reapplyFrame B st)) /\ frames (finalState (reapplyFrame B st)) = [].
Proof.
  intros H F. unfold reapplyFrame. rewrite bind_modify. unfold bind.
  match goal with |- context [applyCurrentLayoutState B ?s] =>
    pose proof (pass_outside B s) as K; apply outside_services in K;
    assert (A : Accounted s /\ frames s = [])
      by (split; [revert H; apply same_accounted; same_services|destruct_state st d; exact F]);
    destruct (applyCurrentLayoutState B s) as [[] s'|e s'] end;
    cbn [finalState] in K |- *; destruct A as [A1 A2].
  - assert (F' : frames s' = []).
    { unfold services in K. injection K. intros. congruence. }
    apply (same_accounted _ _ K) in A1. clear K. unfold modify. cbn [finalState].
    destruct A1 as [H1 H2 H3 H4]. open_state s'. cbn in *. subst. split; [|reflexivity].
    split; cbn; auto.
  - split; [revert A1; apply same_accounted; exact K|].
    unfold services in K. injection K. intros. congruence.
Qed.

Lemma fireFrame_accounted B ids : forall st log,
  Accounted st -> frames st = [] ->
  Accounted (fst (fold_left (fireFrame B) ids (st, log))).
Proof.
  induction ids as [|i ids IH]; intros st log H F; cbn [fold_left]; [exact H|].
  destruct (reapplyFrame_accounted B st H F) as [A1 F1].
  unfold fireFrame. destruct (reapplyFrame B st); cbn [finalState] in A1, F1; apply IH; assumption.
Qed.

Lemma animationFrame_accounted B st : Accounted st -> Accounted (fst (animationFrame B st)).
Proof.
  intros H. unfold animationFrame. cbv zeta. apply fireFrame_accounted.
  - destruct H as [H1 H2 H3 H4]. open_state st. split; cbn; auto.
  - destruct_state st d. reflexivity.
Qed.

Lemma step_accounted B ev st : Accounted st -> Accounted (fst (step B ev st)).
Proof.
  intros H. destruct (isTick ev) eqn:E1; [|destruct (isFrameEvent ev) eqn:E2].
  - destruct ev; try discriminate. apply tick_accounted. exact H.
  - destruct ev; try discriminate. apply animationFrame_accounted. exact H.
  - apply (step_inv Accounted same_accounted queueLayoutReapply_accounted
             clearAbsenceTimer_accounted handleMemberListAbsence_accounted); assumption.
Qed.

(** *** From construction to [stop] *)

Lemma triple_pres (P : State -> Prop) {A} (c : M A) : PresM P c -> Triple P c P P.
Proof. intros H s Hs. specialize (H s Hs). destruct (c s); exact H. Qed.

Lemma triple_bind (P R Q E : State -> Prop) {A C} (c : M A) (k : A -> M C) :
  Triple P c R E -> (forall a, Triple R (k a) Q E) -> Triple P (bind c k) Q E.
Proof.
  intros Hc Hk s Hs. unfold bind. specialize (Hc s Hs).
  destruct (c s) as [a s1|e s1]; [|exact Hc]. apply Hk. exact Hc.
Qed.

Lemma triple_get_bind (P Q E : State -> Prop) {A} (k : State -> M A) :
  (forall s, Triple P (k s) Q E) -> Triple P (bind get k) Q E.
Proof. intros H s Hs. apply (H s s Hs). Qed.

Lemma triple_modify (P Q E : State -> Prop) f :
  (forall s, P s -> Q (f s)) -> Triple P (modify f) Q E.
Proof. intros H s Hs. apply H. exact Hs. Qed.

Lemma triple_exit (P Q E E' : State -> Prop) {A} (c : M A) :
  (forall s, E s -> E' s) -> Triple P c Q E -> Triple P c Q E'.
Proof. intros H Hc s Hs. specialize (Hc s Hs). destruct (c s); auto. Qed.

Lemma constructor_accounted d m : Accounted (constructor d m) /\ intervals (constructor d m) = [].
Proof.
  split; [|reflexivity]. split; cbn; auto. split; auto.
  intros t t' Ht. inversion Ht.
Qed.

Lemma setupObserver_accounted st : Accounted st -> Accounted (setupObserver st).
Proof.
  intros [H1 H2 H3 H4]. open_state st. cbn in *.
  unfold setupObserver, observe, disconnect, fresh.
  assert (F : match ob with Some id => dropId id os | None => os end = []).
  { destruct ob; [apply dropId_named|apply (unnamed_nil id)]; exact H3. }
  destruct ob; cbn -[dropId] in *; rewrite ?F; split; cbn; auto.
  all: try (repeat constructor; fail).
  all: eapply timersOK_bump; [|eassumption]; lia.
Qed.

(** One [start] on an instance that has no interval running. *)
Lemma start_accounted B st :
  Accounted st -> intervals st = [] -> Accounted (finalState (start B st)).
Proof.
  intros H I.
  set (P := fun s => Accounted s /\ intervals s = []).
  assert (Same : forall s s', services s' = services s -> P s -> P s').
  { intros s s' E [A1 A2]. split; [revert A1; apply same_accounted; exact E|].
    unfold services in E. injection E. intros. congruence. }
  assert (T : Triple P (start B) Accounted Accounted).
  { unfold start.
    apply triple_get_bind. intros s0. cbv zeta.
    apply triple_bind with (R := P).
    { apply (triple_exit _ _ P); [intros ? [? _]; assumption|]. apply triple_pres.
      repeat match goal with
             | |- PresM _ (ret _) => apply presM_ret
             | |- PresM _ (throw _) => apply presM_throw
             | |- PresM _ (if ?c then _ else _) => destruct c
             | |- PresM _ (modify _) => apply presM_modify; intros ?; apply Same; same_services
             | |- PresM _ (bind _ _) => apply presM_bind; [|intros ?]
             end. }
    intros _. apply triple_bind with (R := P).
    { apply (triple_exit _ _ P); [intros ? [? _]; assumption|]. apply triple_pres.
      repeat match goal with
             | |- PresM _ (ret _) => apply presM_ret
             | |- PresM _ (throw _) => apply presM_throw
             | |- PresM _ (if ?c then _ else _) => destruct c
             | |- PresM _ (match ?x with _ => _ end) => destruct x
             | |- PresM _ (modify _) => apply presM_modify; intros ?; apply Same; same_services
             | |- PresM _ (bind _ _) => apply presM_bind; [|intros ?]
             end. }
    intros _. apply triple_bind with (R := P).
    { apply triple_modify. intros s [A1 A2]. split; [apply setupObserver_accounted, A1|].
      unfold setupObserver, observe, disconnect, fresh.
      destruct_state s d. cbn in *. split_vars; assumption. }
    intros _. apply triple_bind with (R := P).
    { apply (triple_exit _ _ P); [intros ? [? _]; assumption|]. apply triple_pres.
      apply presM_pass. intros s s' E. apply Same, outside_services, E. }
    intros _. apply triple_modify. intros s [[H1 H2 H3 H4] A2].
    unfold setInterval, fresh. open_state s. cbn in *. subst. split; cbn; auto.
    eapply timersOK_bump; [|eassumption]. lia. }
  specialize (T st (conj H I)). destruct (start B st); exact T.
Qed.

(** ** The audit among the events *)

Lemma prepared_services st : services (prepared st) = services st.
Proof.
  unfold prepared.
  assert (T : forall s, services (tagContent s) = services s).
  { intros s. apply outside_services, outside_tagContent. }
  assert (U : forall s, services (addMoveButton s) = services s).
  { intros s. apply outside_services, outside_addMoveButton. }
  destruct (needsUi _); rewrite ?U, T; reflexivity.
Qed.

Section Audited.
Context (P : State -> Prop).
Hypothesis P_same : forall st st', services st' = services st -> P st -> P st'.
Hypothesis P_queue : forall st, P st -> P (queueLayoutReapply st).

Lemma checkAndReapplyLayout_inv B pf st : P st -> P (checkAndReapplyLayout B pf st).
Proof.
  intros H. pose proof (P_same _ _ (prepared_services st) H) as H1.
  destruct (audit_cases B pf st) as [-> | [-> | ->]]; auto.
Qed.

Lemma fireIntervals_inv B pf st : P st -> P (fireIntervals B pf st).
Proof.
  unfold fireIntervals. generalize (intervals st). intros l. revert st.
  induction l as [|i l IH]; intros st H; cbn [fold_left]; [exact H|].
  apply IH, checkAndReapplyLayout_inv, H.
Qed.

End Audited.

Lemma services_flight st st' : services st' = services st -> SingleFlight st -> SingleFlight st'.
Proof.
  unfold services. intros E. injection E. intros. eapply same_flight; eassumption.
Qed.

Lemma runTasks_cons B pf t ts st :
  runTasks B pf (t :: ts) st
  = (fst (runTasks B pf ts (fst (stepTask B pf t st))),
     snd (stepTask B pf t st) ++ snd (runTasks B pf ts (fst (stepTask B pf t st)))).
Proof.
  cbn [runTasks]. destruct (stepTask B pf t st) as [s1 l1]. cbn [fst snd].
  destruct (runTasks B pf ts s1). reflexivity.
Qed.

Lemma elapsed_cons t ts :
  elapsed (t :: ts)
  = ((match t with Host ev => ticks [ev] | Failsafe => 0 end) + elapsed ts)%nat.
Proof.
  unfold elapsed, ticks. destruct t as [[]|]; reflexivity.
Qed.

Lemma stepTask_accounted B pf t st : Accounted st -> Accounted (fst (stepTask B pf t st)).
Proof.
  intros A. destruct t as [ev|]; cbn [stepTask fst].
  - apply step_accounted, A.
  - apply (fireIntervals_inv Accounted same_accounted queueLayoutReapply_accounted), A.
Qed.

Lemma runTasks_accounted B pf ts : forall st,
  Accounted st -> Accounted (fst (runTasks B pf ts st)).
Proof.
  induction ts as [|t ts IH]; intros st A; [exact A|].
  rewrite runTasks_cons. cbn [fst]. apply IH, stepTask_accounted, A.
Qed.

Lemma rendered_cons t ts :
  rendered (t :: ts)
  = ((match t with Host ev => if isFrameEvent ev then 1 else 0 | Failsafe => 0 end)
     + rendered ts)%nat.
Proof.
  unfold rendered. destruct t as [[]|]; reflexivity.
Qed.

Lemma stepTask_flight B pf t st :
  SingleFlight st ->
  SingleFlight (fst (stepTask B pf t st))
  /\ (executions (snd (stepTask B pf t st))
      <= match t with Host ev => if isFrameEvent ev then 1 else 0 | Failsafe => 0 end)%nat.
Proof.
  intros F. destruct t as [ev|]; cbn [stepTask fst snd].
  - apply step_flight, F.
  - split; [|cbn; lia].
    apply (fireIntervals_inv SingleFlight services_flight queueLayoutReapply_flight), F.
Qed.

(** X9.  The scheduler keeps at most one frame callback pending, the one
    [animationFrameId] names; so over any sequence of events and firings
    of the audit's interval the pass runs at most once per frame the
    host renders. *)
Theorem X9_one_pass_per_frame B pf ts : forall st,
  SingleFlight st ->
  let r := runTasks B pf ts st in
  SingleFlight (fst r)
  /\ (length (frames (fst r)) <= 1)%nat
  /\ (executions (snd r) <= rendered ts)%nat.
Proof.
  cbv zeta.
  assert (L : forall s, SingleFlight s -> (length (frames s) <= 1)%nat).
  { intros s [->|(id & -> & _)]; cbn; lia. }
  induction ts as [|t ts IH]; intros st H.
  - cbn [runTasks fst snd]. split; [exact H|]. split; [auto|cbn; lia].
  - rewrite runTasks_cons. cbn [fst snd]. rewrite executions_app, rendered_cons.
    destruct (stepTask_flight B pf t st H) as (H1 & E1).
    destruct (IH _ H1) as (H2 & L2 & E2). split; [exact H2|]. split; [exact L2|lia].
Qed.

Lemma X9_witness :
  let r := runTasks demoBrowser demoParseFloat busyTasks coolingState in
  SingleFlight (fst r)
  /\ (length (frames (fst r)) <= 1)%nat
  /\ (executions (snd r) <= rendered busyTasks)%nat.
Proof.
  apply (X9_one_pass_per_frame demoBrowser demoParseFloat busyTasks coolingState).
  right. exists 3%nat. vm_compute. split; reflexivity.
Defined.

Lemma elem_of_dropId id l x : x ∈ dropId id l <-> x <> id /\ x ∈ l.
Proof. exact (list_elem_of_filter (fun i => i <> id) l x). Qed.

Ltac emptied H :=
  let x := fresh "x" in let Hx := fresh "Hx" in
  apply elem_of_nil_inv; intros x Hx;
  repeat match type of Hx with
         | _ ∈ dropTimer _ _ => apply elem_of_dropTimer in Hx as [? Hx]
         | _ ∈ dropId _ _ => apply elem_of_dropId in Hx as [? Hx]
         end;
  rewrite Forall_forall in H; specialize (H x Hx); cbn in H.

Lemma stopServices_released st :
  Accounted st ->
  let s := stopServices st in
  timers s = [] /\ frames s = [] /\ intervals s = [] /\ observers s = [].
Proof.
  intros [[_ _ H1 _] H2 H3 H4]. cbv zeta. open_state st. cbn in *.
  unfold stopServices, clearAbsenceTimer, clearInterval, clearTimeout, cancelAnimationFrame,
    disconnect.
  destruct ob, af, rt, fi, ab; cbn -[dropId dropTimer].
  all: split; [emptied H1; unfold timerNamed in H1; destruct (t_cb _); congruence|].
  all: split; [emptied H2; congruence|].
  all: split; [emptied H4; congruence|].
  all: emptied H3; congruence.
Qed.

Lemma stopSurface_released st :
  let s := stopSurface st in
  timers s = timers st /\ frames s = frames st /\ intervals s = intervals st
  /\ observers s = observers st
  /\ resizeListener s = false /\ mousemoveListener s = false /\ mouseupListener s = false.
Proof.
  cbv zeta. unfold stopSurface.
  repeat match goal with
         | |- context [match ?x with Some _ => _ | None => _ end] => destruct x
         end; destruct_state st d; repeat split; reflexivity.
Qed.

Lemma applyOriginalLayoutStyles_released st : Released st -> Released (applyOriginalLayoutStyles st).
Proof.
  assert (K : KeptBy resizeListener applyOriginalLayoutStyles) by kept.
  intros (R1 & R2 & R3 & R4 & R5 & R6 & R7).
  pose proof (outside_applyOriginalLayoutStyles st) as O.
  unfold outsidePass in O. injection O. intros.
  unfold Released. rewrite (K st). repeat split; congruence.
Qed.

(** X10.  From construction through one [start] and any sequence of
    events and firings of the audit's interval, every timer, frame
    callback, observer and interval the host holds is named by a field
    of the instance; so whenever [stop] is called, the host is left with
    no timer, no frame callback, no interval, no observer and no window
    listener of the plugin. *)
Theorem X10_stop_releases_everything B pf d m ts :
  let st := fst (runTasks B pf ts (finalState (start B (constructor d m)))) in
  Accounted st /\ Released (stop st).
Proof.
  cbv zeta.
  assert (A : Accounted (fst (runTasks B pf ts (finalState (start B (constructor d m)))))).
  { apply runTasks_accounted. destruct (constructor_accounted d m).
    apply start_accounted; assumption. }
  split; [exact A|]. rewrite stop_stages. apply applyOriginalLayoutStyles_released.
  destruct (stopServices_released _ A) as (E1 & E2 & E3 & E4).
  destruct (stopSurface_released
              (stopServices (fst (runTasks B pf ts (finalState (start B (constructor d m)))))))
    as (F1 & F2 & F3 & F4 & F5 & F6 & F7).
  unfold Released. rewrite F1, F2, F3, F4, E1, E2, E3, E4.
  repeat split; first [reflexivity | assumption].
Qed.

(** ** The throttle *)

Lemma leftOf_cap now l : (leftOf now l <= reapplyThrottleDelay)%nat.
Proof. induction l as [|t l IH]; cbn [leftOf foldr]; [lia|]. fold (leftOf now l). lia. Qed.

Lemma leftOf_le_elem now l t : t ∈ l -> (leftOf now l <= t_due t - now)%nat.
Proof.
  induction l as [|t' l IH]; intros Ht; [inversion Ht|].
  cbn [leftOf foldr]. fold (leftOf now l).
  apply elem_of_cons in Ht as [->|Ht]; [lia|]. specialize (IH Ht). lia.
Qed.

Lemma leftOf_ge now l x :
  (x <= reapplyThrottleDelay)%nat -> (forall t, t ∈ l -> (x <= t_due t - now)%nat) ->
  (x <= leftOf now l)%nat.
Proof.
  intros Hx. induction l as [|t l IH]; intros H; cbn [leftOf foldr]; [exact Hx|].
  fold (leftOf now l). apply Nat.min_glb.
  - apply H. left.
  - apply IH. intros t' Ht'. apply H. right. exact Ht'.
Qed.

Lemma leftOf_subseteq now l l' :
  (forall t, t ∈ l' -> t ∈ l) -> (leftOf now l <= leftOf now l')%nat.
Proof.
  intros H. apply leftOf_ge; [apply leftOf_cap|]. intros t Ht. apply leftOf_le_elem. auto.
Qed.

Lemma leftOf_tick now l : (leftOf now l <= S (leftOf (S now) l))%nat.
Proof.
  assert (H : (leftOf now l - 1 <= leftOf (S now) l)%nat).
  { apply leftOf_ge; [pose proof (leftOf_cap now l); lia|].
    intros t Ht. pose proof (leftOf_le_elem now l t Ht). lia. }
  lia.
Qed.

Lemma elem_of_cooldowns_list t (l : list Timer) :
  t ∈ filter (fun t => isCooldown t = true) l <-> isCooldown t = true /\ t ∈ l.
Proof. exact (list_elem_of_filter (fun t => isCooldown t = true) l t). Qed.

Lemma cooldowns_none (l : list Timer) :
  Forall (fun t => isCooldown t = false) l -> filter (fun t => isCooldown t = true) l = [].
Proof.
  intros H. rewrite Forall_forall in H. apply elem_of_nil_inv. intros t Ht.
  apply elem_of_cooldowns_list in Ht as [E Ht]. specialize (H t Ht). congruence.
Qed.

Lemma cooldowns_snoc_cooldown (l : list Timer) id due :
  filter (fun t => isCooldown t = true) (l ++ [mkTimer id due CooldownEnd])
  = filter (fun t => isCooldown t = true) l ++ [mkTimer id due CooldownEnd].
Proof. rewrite filter_app. reflexivity. Qed.

Lemma leftOf_drop now id l :
  (leftOf now (filter (fun t => isCooldown t = true) l)
   <= leftOf now (filter (fun t => isCooldown t = true) (dropTimer id l)))%nat.
Proof.
  apply leftOf_subseteq. intros t Ht. apply elem_of_cooldowns_list in Ht as [E Ht].
  apply elem_of_dropTimer in Ht as [_ Ht]. apply elem_of_cooldowns_list. auto.
Qed.

Lemma budget_same st st' : services st' = services st -> budget st' = budget st.
Proof.
  unfold services. intros E. injection E. intros.
  unfold budget, cooldownLeft, cooldowns.
  repeat match goal with H : _ st' = _ |- _ => rewrite H; clear H end. reflexivity.
Qed.

Lemma within_same c st st' : services st' = services st -> Within c st -> Within c st'.
Proof.
  intros E [A Hb]. split; [revert A; apply same_accounted; exact E|].
  rewrite (budget_same _ _ E). exact Hb.
Qed.

Lemma queueLayoutReapply_sched st :
  Accounted st ->
  let st' := queueLayoutReapply st in
  clock st' = clock st /\ isThrottling st' = true
  /\ (if isThrottling st
      then frames st' = [] /\ timers st' = timers st
      else frames st' = [nextId st]
           /\ timers st' = timers st ++ [mkTimer (S (nextId st))
                                           (clock st + reapplyThrottleDelay) CooldownEnd]).
Proof.
  intros [_ H2 _ _]. open_state st. cbn in *.
  unfold queueLayoutReapply, requestAnimationFrame, setTimeout, fresh, cancelAnimationFrame.
  assert (F : match af with Some id => dropId id fr | None => fr end = []).
  { destruct af; [apply dropId_named|apply (unnamed_nil id)]; exact H2. }
  destruct af, thr; cbn -[dropId] in *; rewrite ?F; auto.
Qed.

Lemma budget_queueLayoutReapply st :
  Accounted st -> (budget (queueLayoutReapply st) <= budget st)%nat.
Proof.
  intros A. destruct (queueLayoutReapply_sched st A) as (E1 & E2 & E3).
  pose proof A as [[_ _ _ H1] _ _ _].
  unfold budget, cooldownLeft, cooldowns. rewrite E1, E2.
  destruct (isThrottling st); destruct E3 as [E3 E4]; rewrite E3, E4.
  - cbn [length]. lia.
  - rewrite cooldowns_snoc_cooldown, (cooldowns_none (timers st)) by auto.
    cbn [app leftOf foldr t_due length]. lia.
Qed.

Lemma dropTimer_sched id st :
  let st' := st <| timers ::= dropTimer id |> in
  clock st' = clock st /\ isThrottling st' = isThrottling st /\ frames st' = frames st
  /\ timers st' = dropTimer id (timers st).
Proof. destruct_state st d. repeat split; reflexivity. Qed.

Lemma budget_dropTimer id st : (budget (st <| timers ::= dropTimer id |>) <= budget st)%nat.
Proof.
  destruct (dropTimer_sched id st) as (E1 & E2 & E3 & E4).
  unfold budget, cooldownLeft, cooldowns. rewrite E1, E2, E3, E4.
  pose proof (leftOf_drop (clock st) id (timers st)). destruct (isThrottling st); lia.
Qed.

Lemma clearAbsenceTimer_sched st :
  let st' := clearAbsenceTimer st in
  clock st' = clock st /\ isThrottling st' = isThrottling st /\ frames st' = frames st
  /\ timers st' = match memberListAbsenceTimer st with
                  | Some id => dropTimer id (timers st)
                  | None => timers st
                  end.
Proof.
  unfold clearAbsenceTimer, clearTimeout. destruct_state st d. cbn.
  split_vars; repeat split; reflexivity.
Qed.

Lemma budget_clearAbsenceTimer st : (budget (clearAbsenceTimer st) <= budget st)%nat.
Proof.
  destruct (clearAbsenceTimer_sched st) as (E1 & E2 & E3 & E4).
  unfold budget, cooldownLeft, cooldowns. rewrite E1, E2, E3, E4.
  destruct (memberListAbsenceTimer st) as [id|]; [|lia].
  pose proof (leftOf_drop (clock st) id (timers st)). destruct (isThrottling st); lia.
Qed.

Lemma arm_sched st :
  let st' := handleMemberListAbsence st in
  clock st' = clock st /\ isThrottling st' = isThrottling st /\ frames st' = frames st
  /\ exists id due, timers st' = timers (clearAbsenceTimer st) ++ [mkTimer id due AbsenceCheck].
Proof.
  unfold handleMemberListAbsence, clearAbsenceTimer, clearTimeout, setTimeout, fresh.
  destruct_state st d. cbn. split_vars; repeat split; eexists _, _; reflexivity.
Qed.

Lemma budget_handleMemberListAbsence st :
  (budget (handleMemberListAbsence st) <= budget st)%nat.
Proof.
  destruct (arm_sched st) as (E1 & E2 & E3 & id & due & E4).
  etransitivity; [|apply budget_clearAbsenceTimer].
  destruct (clearAbsenceTimer_sched st) as (F1 & F2 & F3 & _).
  unfold budget, cooldownLeft, cooldowns.
  rewrite E1, E2, E3, E4, F1, F2, F3, cooldowns_snoc_absence. lia.
Qed.

Lemma within_queue c st : Within c st -> Within c (queueLayoutReapply st).
Proof.
  intros [A Hb]. split; [apply queueLayoutReapply_accounted, A|].
  pose proof (budget_queueLayoutReapply st A). lia.
Qed.

Lemma within_clear c st : Within c st -> Within c (clearAbsenceTimer st).
Proof.
  intros [A Hb]. split; [apply clearAbsenceTimer_accounted, A|].
  pose proof (budget_clearAbsenceTimer st). lia.
Qed.

Lemma within_arm c st : Within c st -> Within c (handleMemberListAbsence st).
Proof.
  intros [A Hb]. split; [apply handleMemberListAbsence_accounted, A|].
  pose proof (budget_handleMemberListAbsence st). lia.
Qed.

(** *** A millisecond passes *)

Lemma budget_cooldown_due st t :
  t ∈ timers st -> t_cb t = CooldownEnd -> (t_due t <= clock st)%nat ->
  budget st = (reapplyThrottleDelay * length (frames st) + reapplyThrottleDelay)%nat.
Proof.
  intros Ht Hc Hd. unfold budget, cooldownLeft, cooldowns.
  destruct (isThrottling st); [|reflexivity].
  assert (Hin : t ∈ filter (fun t => isCooldown t = true) (timers st)).
  { apply elem_of_cooldowns_list. split; [|exact Ht]. unfold isCooldown. rewrite Hc. reflexivity. }
  pose proof (leftOf_le_elem (clock st) _ t Hin). lia.
Qed.

Lemma budget_cap st :
  (budget st <= reapplyThrottleDelay * length (frames st) + reapplyThrottleDelay)%nat.
Proof. unfold budget. destruct (isThrottling st); lia. Qed.

Lemma budget_sched st st' :
  clock st' = clock st -> isThrottling st' = isThrottling st -> frames st' = frames st ->
  timers st' = timers st -> budget st' = budget st.
Proof.
  intros E1 E2 E3 E4. unfold budget, cooldownLeft, cooldowns. rewrite E1, E2, E3, E4.
  reflexivity.
Qed.

Lemma within_cooldownEnd c st t :
  Within c st -> t ∈ timers st -> t_cb t = CooldownEnd -> (t_due t <= clock st)%nat ->
  Within c (cooldownEnd (st <| timers ::= dropTimer (t_id t) |>)).
Proof.
  intros [A Hb] Ht Hc Hd. split; [apply cooldownEnd_accounted; assumption|].
  rewrite (budget_cooldown_due st t Ht Hc Hd) in Hb.
  pose proof (cooldown_fired_accounted st t A Ht Hc) as A1.
  unfold cooldownEnd. cbv zeta.
  set (s1 := st <| timers ::= dropTimer (t_id t) |> <| isThrottling := false |>
                <| reapplyTimeout := None |>) in *.
  assert (F : frames s1 = frames st) by (destruct_state st d; reflexivity).
  assert (B1 : (budget s1 <= c)%nat).
  { pose proof (budget_cap s1) as K. rewrite F in K. lia. }
  destruct (pendingThrottleCall s1); [|exact B1].
  assert (A2 : Accounted (s1 <| pendingThrottleCall := false |>)).
  { revert A1. apply same_accounted. same_services. }
  pose proof (budget_queueLayoutReapply _ A2) as Q.
  assert (E : budget (s1 <| pendingThrottleCall := false |>) = budget s1).
  { apply budget_sched; destruct_state s1 d; reflexivity. }
  lia.
Qed.

Lemma within_absenceCheck c st t :
  Within c st -> t ∈ timers st -> t_cb t = AbsenceCheck ->
  Within c (absenceCheck (st <| timers ::= dropTimer (t_id t) |>)).
Proof.
  intros [A Hb] Ht Hc. split; [apply absenceCheck_accounted; assumption|].
  pose proof (budget_dropTimer (t_id t) st) as D.
  pose proof (dropTimer_accounted (t_id t) st A) as A1.
  set (s1 := st <| timers ::= dropTimer (t_id t) |>) in *.
  unfold absenceCheck. cbv zeta.
  assert (E : forall s, budget (s <| memberListAbsenceTimer := None |>) = budget s).
  { intros s. apply budget_sched; destruct_state s d; reflexivity. }
  rewrite E. destruct (membersWrap _).
  - pose proof (budget_queueLayoutReapply s1 A1). lia.
  - rewrite (budget_same _ _ (resetSidebar_services s1)). lia.
Qed.

Lemma fireTimer_within c l : forall st log,
  Within c st -> Compatible l st ->
  Within c (fst (fold_left fireTimer l (st, log)))
  /\ executions (snd (fold_left fireTimer l (st, log))) = executions log.
Proof.
  induction l as [|t l IH]; intros st log H C; cbn [fold_left]; [cbn; auto|].
  inversion C as [|? ? (C0 & C1 & C2 & C3) C']; subst.
  assert (E : exists st1 log1, fireTimer (st, log) t = (st1, log1)
                               /\ Within c st1 /\ Grows st st1
                               /\ executions log1 = executions log).
  { unfold fireTimer. destruct (pending _ _) eqn:Hp; [|eauto 6 using Grows_refl].
    apply pending_elem in Hp as (t' & Ht' & E).
    assert (Ht : t ∈ timers st).
    { destruct C3 as [C3|C3]; [exact C3|]. exfalso. exact (C3 t' Ht' E). }
    destruct (t_cb t) eqn:Hc; eexists _, _; (split; [reflexivity|]); split.
    - apply within_cooldownEnd; assumption.
    - split; [eapply Grows_trans; [apply dropTimer_grows|apply cooldownEnd_grows]|].
      rewrite executions_app. replace (executions [RanCooldownEnd]) with 0%nat by reflexivity.
      lia.
    - apply within_absenceCheck; assumption.
    - split; [eapply Grows_trans; [apply dropTimer_grows|apply absenceCheck_grows]|].
      rewrite executions_app.
      match goal with |- context [executions [?f]] =>
        replace (executions [f]) with 0%nat by reflexivity end. lia. }
  destruct E as (st1 & log1 & -> & W1 & G1 & E1).
  destruct (IH st1 log1 W1) as (W2 & E2); [eapply Compatible_grows; eassumption|].
  split; [exact W2|congruence].
Qed.

Lemma tick_within c st :
  Within c st -> Within (S c) (fst (tick st)) /\ executions (snd (tick st)) = 0%nat.
Proof.
  intros [A Hb]. unfold tick. cbv zeta. destruct (tick_snapshot st A) as [A1 C].
  apply fireTimer_within; [|exact C]. split; [exact A1|].
  assert (E : clock (st <| clock ::= S |>) = S (clock st)
              /\ isThrottling (st <| clock ::= S |>) = isThrottling st
              /\ frames (st <| clock ::= S |>) = frames st
              /\ timers (st <| clock ::= S |>) = timers st).
  { destruct_state st d. repeat split; reflexivity. }
  destruct E as (E1 & E2 & E3 & E4).
  unfold budget, cooldownLeft, cooldowns in *. rewrite E1, E2, E3, E4.
  pose proof (leftOf_tick (clock st) (filter (fun t => isCooldown t = true) (timers st))).
  destruct (isThrottling st); lia.
Qed.

(** *** A frame is rendered *)

Lemma reapplyFrame_budget B st :
  frames st = [] -> budget (finalState (reapplyFrame B st)) = budget st.
Proof.
  intros F. unfold reapplyFrame. rewrite bind_modify. unfold bind.
  match goal with |- context [applyCurrentLayoutState B ?s] =>
    pose proof (pass_outside B s) as K; apply outside_services in K;
    assert (E : budget s = budget st) by (apply budget_sched; destruct_state st d; reflexivity);
    destruct (applyCurrentLayoutState B s) as [[] s'|e s'] end;
    cbn [finalState] in K |- *; rewrite <- E, <- (budget_same _ _ K); [|reflexivity].
  unfold modify. cbn [finalState]. apply budget_sched; destruct_state s' d'; reflexivity.
Qed.

Lemma fireFrame_within B ids : forall st log,
  Accounted st -> frames st = [] ->
  let r := fold_left (fireFrame B) ids (st, log) in
  Accounted (fst r) /\ budget (fst r) = budget st
  /\ executions (snd r) = (executions log + length ids)%nat.
Proof.
  induction ids as [|i ids IH]; intros st log H F; cbv zeta; cbn [fold_left length].
  - cbn [fst snd]. split; [exact H|]. split; [reflexivity|lia].
  - destruct (reapplyFrame_accounted B st H F) as [A1 F1].
    pose proof (reapplyFrame_budget B st F) as B1.
    assert (E : fireFrame B (st, log) i
                = (finalState (reapplyFrame B st),
                   log ++ [RanFrame (match reapplyFrame B st with
                                     | Ret _ _ => false
                                     | Throw _ _ => true
                                     end)])).
    { unfold fireFrame. destruct (reapplyFrame B st); reflexivity. }
    rewrite E. destruct (IH _ (log ++ [RanFrame (match reapplyFrame B st with
                                                 | Ret _ _ => false
                                                 | Throw _ _ => true
                                                 end)]) A1 F1) as (I1 & I2 & I3).
    cbv zeta in *. split; [exact I1|]. split; [congruence|].
    rewrite I3, executions_app.
    assert (X : forall b, executions [RanFrame b] = 1%nat) by (intros []; reflexivity).
    rewrite X. lia.
Qed.

Lemma animationFrame_within B st :
  Accounted st ->
  let r := animationFrame B st in
  Accounted (fst r)
  /\ (reapplyThrottleDelay * executions (snd r) + budget (fst r) = budget st)%nat.
Proof.
  intros A. cbv zeta. unfold animationFrame.
  assert (A0 : Accounted (st <| frames := [] |>)).
  { destruct A as [H1 H2 H3 H4]. open_state st. split; cbn; auto. }
  assert (F0 : frames (st <| frames := [] |>) = []) by (destruct_state st d; reflexivity).
  destruct (fireFrame_within B (frames st) _ [] A0 F0) as (I1 & I2 & I3). cbv zeta in *.
  split; [exact I1|]. rewrite I2, I3.
  replace (executions []) with 0%nat by reflexivity.
  assert (E : (budget (st <| frames := [] |>) + reapplyThrottleDelay * length (frames st)
               = budget st)%nat).
  { assert (K : clock (st <| frames := [] |>) = clock st
                /\ isThrottling (st <| frames := [] |>) = isThrottling st
                /\ timers (st <| frames := [] |>) = timers st).
    { destruct_state st d. repeat split; reflexivity. }
    destruct K as (K1 & K2 & K3).
    unfold budget, cooldownLeft, cooldowns. rewrite F0, K1, K2, K3. cbn [length]. lia. }
  lia.
Qed.

(** *** Any run *)

Lemma step_within B ev st :
  Accounted st ->
  let r := step B ev st in
  Accounted (fst r)
  /\ (reapplyThrottleDelay * executions (snd r) + budget (fst r) <= budget st + ticks [ev])%nat.
Proof.
  intros A. cbv zeta.
  destruct (isTick ev) eqn:E1; [|destruct (isFrameEvent ev) eqn:E2].
  - destruct ev; try discriminate. cbn [step].
    destruct (tick_within (budget st) st (conj A (le_n _))) as ([A1 B1] & X).
    rewrite X, ticks_tick. split; [exact A1|lia].
  - destruct ev; try discriminate. cbn [step].
    destruct (animationFrame_within B st A) as (A1 & B1). split; [exact A1|lia].
  - rewrite (step_log B ev st E1 E2), (ticks_other ev E1).
    replace (executions []) with 0%nat by reflexivity.
    destruct (step_inv (Within (budget st)) (within_same _) (within_queue _) (within_clear _)
                (within_arm _) B ev st E1 E2 (conj A (le_n _))) as [A1 B1].
    split; [exact A1|lia].
Qed.

Lemma stepTask_within B pf t st :
  Accounted st -> SingleFlight st ->
  let r := stepTask B pf t st in
  Accounted (fst r) /\ SingleFlight (fst r)
  /\ (reapplyThrottleDelay * executions (snd r) + budget (fst r)
      <= budget st + match t with Host ev => ticks [ev] | Failsafe => 0 end)%nat.
Proof.
  intros A F. cbv zeta. destruct t as [ev|]; cbn [stepTask fst snd].
  - destruct (step_within B ev st A) as (A1 & B1). destruct (step_flight B ev st F) as (F1 & _).
    auto.
  - replace (executions []) with 0%nat by reflexivity.
    destruct (fireIntervals_inv (Within (budget st)) (within_same _) (within_queue _) B pf st
                (conj A (le_n _))) as [A1 B1].
    split; [exact A1|]. split; [|lia].
    apply (fireIntervals_inv SingleFlight services_flight queueLayoutReapply_flight). exact F.
Qed.

Lemma runTasks_within B pf ts : forall st,
  Accounted st -> SingleFlight st ->
  let r := runTasks B pf ts st in
  Accounted (fst r) /\ SingleFlight (fst r)
  /\ (reapplyThrottleDelay * executions (snd r) + budget (fst r) <= budget st + elapsed ts)%nat.
Proof.
  induction ts as [|t ts IH]; intros st A F; cbv zeta.
  - cbn [runTasks fst snd]. replace (executions []) with 0%nat by reflexivity.
    split; [exact A|]. split; [exact F|]. unfold elapsed. cbn. lia.
  - rewrite runTasks_cons, elapsed_cons. cbn [fst snd]. rewrite executions_app.
    destruct (stepTask_within B pf t st A F) as (A1 & F1 & B1).
    destruct (IH _ A1 F1) as (A2 & F2 & B2). cbv zeta in *.
    split; [exact A2|]. split; [exact F2|]. lia.
Qed.

Lemma started_idle B d m : frames (finalState (start B (constructor d m))) = [].
Proof.
  assert (P : PresM (fun s => frames s = []) (start B)).
  { apply presM_start.
    - intros v st H. destruct_state st d0. exact H.
    - intros v st H. destruct_state st d0. exact H.
    - intros v st H. destruct_state st d0. exact H.
    - intros st H. unfold setupObserver, observe, disconnect, fresh.
      destruct_state st d0. cbn in *. split_vars; exact H.
    - intros s s' E H. apply outside_sched in E as (_ & _ & ->). exact H.
    - intros st H. unfold setInterval, fresh. destruct_state st d0. exact H. }
  apply P. reflexivity.
Qed.

(** X11.  The throttle holds the scheduler to one pass per 100ms, give
    or take the edges of the window.  From construction and one
    [start], over any sequence of events and firings of the audit's
    interval, the scheduler has run the pass at most once more than the
    hundreds of milliseconds that have passed; and over any later
    stretch, at most twice more than the hundreds of milliseconds that
    pass in it. *)
Theorem X11_throttle_bounds_the_passes B pf d m ts ts' :
  let st0 := finalState (start B (constructor d m)) in
  let st := fst (runTasks B pf ts st0) in
  (reapplyThrottleDelay * executions (snd (runTasks B pf ts st0))
   <= elapsed ts + reapplyThrottleDelay)%nat
  /\ (reapplyThrottleDelay * executions (snd (runTasks B pf ts' st))
      <= elapsed ts' + 2 * reapplyThrottleDelay)%nat.
Proof.
  cbv zeta.
  assert (A0 : Accounted (finalState (start B (constructor d m)))).
  { destruct (constructor_accounted d m). apply start_accounted; assumption. }
  pose proof (started_idle B d m) as F0.
  assert (S0 : SingleFlight (finalState (start B (constructor d m)))) by (left; exact F0).
  destruct (runTasks_within B pf ts _ A0 S0) as (A1 & S1 & B1). cbv zeta in *.
  split.
  - pose proof (budget_cap (finalState (start B (constructor d m)))) as C.
    rewrite F0 in C. cbn [length] in C. lia.
  - destruct (runTasks_within B pf ts' _ A1 S1) as (_ & _ & B2). cbv zeta in *.
    pose proof (budget_cap (fst (runTasks B pf ts (finalState (start B (constructor d m))))))
      as C.
    assert (L : (length (frames (fst (runTasks B pf ts
                                        (finalState (start B (constructor d m))))))
                 <= 1)%nat).
    { destruct S1 as [->|(id & -> & _)]; cbn; lia. }
    nia.
Qed.
